(** * tws_autorebalance: risk policy, order placement and liveness

    A shallow embedding of [src/security.py] and of the parts of
    [src/app/autorebalance.py] that decide the safety properties of the
    rebalancing agent: the three-tier risk rules, the order audit, the
    liveness gate, the target margin computation, the order placement
    sequence, the order-status and error callbacks and the order-id
    rendezvous.

    Conventions of the embedding.
    - Python numbers ([int] and [float]) are rationals [Q]; every test the
      modelled code makes on them is an order comparison.  [float("inf")]
      is the extra value [Inf] of [pyfloat].
    - A method of [AutorebalanceApp] is a computation in the monad [M]:
      a function from the [World] (the application object together with
      its process environment) to an outcome and the world it leaves.
      A raised exception is the outcome [Raise]; the effects made before
      the raise stay in the world.
    - A log line is its level and its message template with the
      arguments of the template; the colouring and the layout of numbers
      in the text are not represented.
    - Calls into the broker client library are recorded, in order, in the
      [effects] trace of the world.
    - The clock is a sequence of readings: the n-th call of [time.time()]
      returns the n-th reading, so that time may pass between any two
      reads.
    - [src.model.data] (the Order Manager, the account snapshot, the
      composition, the instrument identity) is not among the sources;
      the definitions that stand for it say so, and follow the
      specification of the repository. *)

From Stdlib Require Import QArith ZArith String List Lia Lqa.
From stdpp Require Import base option list gmap strings fin_maps.

Local Open Scope string_scope.
Local Open Scope list_scope.
Local Open Scope Z_scope.

(** ** Numbers *)

Module operator.
(** [operator.lt] and [operator.gt] on numbers. *)
Definition lt (a b : Q) : bool := negb (Qle_bool b a).
Definition gt (a b : Q) : bool := lt b a.
End operator.

(** A Python float that may be [float("inf")]. *)
Inductive pyfloat := Fin (q : Q) | Inf.

(** [x < bound] for a finite [bound]. *)
Definition pyfloat_lt (x : pyfloat) (bound : Q) : bool :=
  match x with
  | Fin q => operator.lt q bound
  | Inf => false
  end.

(** The builtin [max(a, b)]: the first argument unless the second is
    strictly greater. *)
Definition py_max (a b : Q) : Q := if operator.gt b a then b else a.


(** ** Exceptions and outcomes *)

Inductive exn :=
| AssertionError
| SecurityFault (msg : string)
| LivenessError
| SystemExit (code : Z)
| AttributeError (attr : string)
| KeyError (key : string)
| TypeError
| ValueError
| ZeroDivisionError
| EOFError
| Full.

(** What running a piece of code gives: a value, a raised exception, or
    a thread that waits for ever. *)
Inductive res (A : Type) :=
| Ok (a : A)
| Raise (e : exn)
| Blocked.
Arguments Ok {A} a.
Arguments Raise {A} e.
Arguments Blocked {A}.

Definition res_bind {A B} (r : res A) (k : A -> res B) : res B :=
  match r with
  | Ok a => k a
  | Raise e => Raise e
  | Blocked => Blocked
  end.

(** [assert_ b]: the statement [assert b] outside any object. *)
Definition assert_ (b : bool) : res unit :=
  if b then Ok tt else Raise AssertionError.

(** ** Data model *)

(** Modelled from the spec: [src.model.data.SimpleContract], the
    normalised identity of an instrument (symbol, exchange, currency). *)
Record SimpleContract := mkSC {
  symbol : string;
  exchange : string;
  currency : string
}.

#[global] Instance SimpleContract_eq_dec : EqDecision SimpleContract.
Proof. solve_decision. Defined.

#[global] Instance SimpleContract_countable : Countable SimpleContract.
Proof.
  refine (inj_countable'
            (fun sc => (symbol sc, exchange sc, currency sc))
            (fun t => mkSC t.1.1 t.1.2 t.2) _).
  intros []; reflexivity.
Defined.

(** The fields of [ibapi.order.Order] that the application reads or
    writes, and the [_audited] attribute that [audit_order] adds:
    [None] while the object has no such attribute. *)
Record Order := mkOrder {
  orderType : string;
  transmit : bool;
  outsideRth : bool;
  action : string;
  totalQuantity : Q;
  lmtPrice : Q;
  tif : string;
  goodTillDate : string;
  _audited : option bool
}.

Definition hasattr_audited (o : Order) : bool :=
  match _audited o with Some _ => true | None => false end.

Definition set_audited (o : Order) : Order :=
  {| orderType := orderType o; transmit := transmit o;
     outsideRth := outsideRth o; action := action o;
     totalQuantity := totalQuantity o; lmtPrice := lmtPrice o;
     tif := tif o; goodTillDate := goodTillDate o;
     _audited := Some true |}.

(** [src.model.data.OHLCBar]: a price bar and the epoch second [t] it
    was captured at. *)
Module OHLCBar.
Record OHLCBar := mk { t : Z; o : Q; h : Q; l : Q; c : Q }.
End OHLCBar.
Abbreviation OHLCBar := OHLCBar.OHLCBar.

(** Modelled from the spec: [src.model.data.AcctState], the account
    snapshot (gross position value, equity with loan value, maintenance
    margin, configured margin floor) and the time it was captured at,
    from which its age is measured. *)
Record AcctState := mkAcct {
  gpv : Q;
  ewlv : Q;
  r0 : Q;
  acct_min_margin_req : Q;
  captured : Q
}.

(** Modelled from the spec: [src.model.data.Composition], the target
    weight of each instrument, in the order of the configuration. *)
Definition Composition := list (SimpleContract * Q).

Definition contracts (comp : Composition) : list SimpleContract :=
  map fst comp.


(** Modelled from the spec: the states of an Order Manager entry
    ([src.model.data.OMState]). *)
Inductive OMState := PENDING | TRANSMITTED | COOLOFF.

#[global] Instance OMState_eq_dec : EqDecision OMState.
Proof. solve_decision. Defined.

(** Modelled from the spec: an Order Manager entry, (broker order id,
    order, state), with the time stamped when the entry was finalized. *)
Record OMEntry := mkEntry {
  om_oid : Z;
  om_order : Order;
  om_state : OMState;
  om_stamp : Q
}.

(** [AutorebalanceConfig]: the validated record of parameters. *)
Record AutorebalanceConfig := mkConf {
  dd_reference_ath : Q;
  mu_at_ath : Q;
  dd_coef : Q;
  misalloc_min_dollars : Q;
  misalloc_min_frac : Q;
  misalloc_frac_force_elbow : Q;
  misalloc_frac_force_coef : Q;
  min_margin_req : Q;
  order_timeout : Q;
  max_slippage : Q;
  rebalance_freq : Q;
  liveness_timeout : Q;
  armed : bool
}.

(** [queue.Queue]: the bound and the items, oldest first. *)
Record Queue := mkQueue { maxsize : Z; items : list Z }.

(** ** Logs and effects *)

Inductive Level := DEBUG | INFO | WARNING | ERROR | CRITICAL.

#[global] Instance Level_eq_dec : EqDecision Level.
Proof. solve_decision. Defined.

(** The messages of the [FINSEC] logger, by rule name. *)
Inductive SecMsg :=
| RejectedByRule (rule : string)
| PermittedOnOverride (rule : string)
| PermittedAsOfRight (rule : string).

(** What [kill_app] is told. *)
Inductive KillMsg :=
| FullOrderQueue
| Chill420
| TwsErrorChannel (req_id code : Z) (text : string).

(** The messages of the application logger. *)
Inductive AppMsg :=
| DroppingPostFinalization (oid : Z)
| OrderFilled (sc : SimpleContract) (order : Order)
| OrderCanceled (sc : SimpleContract) (order : Order)
| OrderStatusIs (sc : SimpleContract) (order : Order) (status : string)
| RejectedByManager (sym : string) (state : option OMState)
| PlacedOrder (sc : SimpleContract) (order : Order)
| TwsError (req_id code : Z) (text : string)
| Killed (why : KillMsg).

(** The calls that leave the process, in the order they are made. *)
Inductive Effect :=
| ReqIds (n : Z)
| CancelOrder (oid : Z)
| PlaceOrder (oid : Z) (sc : SimpleContract) (order : Order)
| ReqPositions
| Sleep (seconds : Q)
| BaseShutDown.

(** ** The world *)

(** The attributes of the [AutorebalanceApp] object that the modelled
    methods use.  The Order Manager is the single mapping from
    instrument to entry of the design. *)
Record App := mkApp {
  acct_state : option AcctState;
  portfolio_prices : gmap SimpleContract OHLCBar;
  target_composition : Composition;
  conf : AutorebalanceConfig;
  order_id_queue : Queue;
  order_manager : gmap SimpleContract OMEntry
}.

(** The process environment: both loggers, the console, the calls made
    so far, the broker's side of the order-id exchange (the id it hands
    out next and the replies it has sent that the dispatch thread has not
    delivered yet), and the clock, read as [clock ticks] by the
    [ticks]-th call of [time.time()]. *)
Record Env := mkEnv {
  app_log : list (Level * AppMsg);
  sec_log : list (Level * SecMsg);
  stdin : list string;
  prompts : list string;
  effects : list Effect;
  broker_next_oid : Z;
  inflight_ids : list Z;
  clock : nat -> Q;
  ticks : nat
}.

Record World := mkWorld { self : App; env : Env }.

Definition set_order_id_queue (q : Queue) (a : App) : App :=
  {| acct_state := acct_state a; portfolio_prices := portfolio_prices a;
     target_composition := target_composition a; conf := conf a;
     order_id_queue := q; order_manager := order_manager a |}.

Definition set_order_manager (om : gmap SimpleContract OMEntry) (a : App)
  : App :=
  {| acct_state := acct_state a; portfolio_prices := portfolio_prices a;
     target_composition := target_composition a; conf := conf a;
     order_id_queue := order_id_queue a; order_manager := om |}.

Definition add_app_log (r : Level * AppMsg) (e : Env) : Env :=
  {| app_log := app_log e ++ [r]; sec_log := sec_log e; stdin := stdin e;
     prompts := prompts e; effects := effects e;
     broker_next_oid := broker_next_oid e;
     inflight_ids := inflight_ids e; clock := clock e; ticks := ticks e |}.

Definition add_sec_log (r : Level * SecMsg) (e : Env) : Env :=
  {| app_log := app_log e; sec_log := sec_log e ++ [r]; stdin := stdin e;
     prompts := prompts e; effects := effects e;
     broker_next_oid := broker_next_oid e;
     inflight_ids := inflight_ids e; clock := clock e; ticks := ticks e |}.

Definition set_console (input_left : list string) (shown : list string)
  (e : Env) : Env :=
  {| app_log := app_log e; sec_log := sec_log e; stdin := input_left;
     prompts := shown; effects := effects e;
     broker_next_oid := broker_next_oid e;
     inflight_ids := inflight_ids e; clock := clock e; ticks := ticks e |}.

Definition add_effect (x : Effect) (e : Env) : Env :=
  {| app_log := app_log e; sec_log := sec_log e; stdin := stdin e;
     prompts := prompts e; effects := effects e ++ [x];
     broker_next_oid := broker_next_oid e;
     inflight_ids := inflight_ids e; clock := clock e; ticks := ticks e |}.

Definition set_broker (next : Z) (inflight : list Z) (e : Env) : Env :=
  {| app_log := app_log e; sec_log := sec_log e; stdin := stdin e;
     prompts := prompts e; effects := effects e;
     broker_next_oid := next;
     inflight_ids := inflight; clock := clock e; ticks := ticks e |}.

Definition set_ticks (n : nat) (e : Env) : Env :=
  {| app_log := app_log e; sec_log := sec_log e; stdin := stdin e;
     prompts := prompts e; effects := effects e;
     broker_next_oid := broker_next_oid e;
     inflight_ids := inflight_ids e; clock := clock e; ticks := n |}.

Definition on_self (f : App -> App) (w : World) : World :=
  {| self := f (self w); env := env w |}.

Definition on_env (f : Env -> Env) (w : World) : World :=
  {| self := self w; env := f (env w) |}.

(** ** The monad of methods *)

Definition M (A : Type) : Type := World -> res A * World.

Definition ret {A} (a : A) : M A := fun w => (Ok a, w).

Definition bind {A B} (m : M A) (k : A -> M B) : M B :=
  fun w =>
    match m w with
    | (Ok a, w') => k a w'
    | (Raise e, w') => (Raise e, w')
    | (Blocked, w') => (Blocked, w')
    end.

#[global] Instance M_ret : MRet M := @ret.
#[global] Instance M_bind : MBind M := fun A B k m => bind m k.

Definition raise {A} (e : exn) : M A := fun w => (Raise e, w).
Definition block {A} : M A := fun w => (Blocked, w).

(** A pure outcome inside a method. *)
Definition lift {A} (r : res A) : M A := fun w => (r, w).

(** The statement [assert b] inside a method. *)
Definition assert (b : bool) : M unit := lift (assert_ b).

Definition gets {A} (f : World -> A) : M A := fun w => (Ok (f w), w).
Definition modify (f : World -> World) : M unit := fun w => (Ok tt, f w).

(** [try: m except e: handler], for one exception class. *)
Definition try_except {A} (m : M A) (catches : exn -> bool) (handler : M A)
  : M A :=
  fun w =>
    match m w with
    | (Raise e, w') => if catches e then handler w' else (Raise e, w')
    | r => r
    end.

(** [for x in xs: body x]. *)
Fixpoint for_each {A} (xs : list A) (body : A -> M unit) : M unit :=
  match xs with
  | [] => ret tt
  | x :: rest => bind (body x) (fun _ => for_each rest body)
  end.

(** *** Primitive effects *)

(** [time.time()]. *)
Definition utime : M Q :=
  fun w =>
    (Ok (clock (env w) (ticks (env w))),
     on_env (set_ticks (S (ticks (env w)))) w).

(** [time.sleep(seconds)]. *)
Definition sleep (seconds : Q) : M unit :=
  modify (on_env (add_effect (Sleep seconds))).

(** [input(prompt)]: shows the prompt and reads one line. *)
Definition input (prompt : string) : M string :=
  fun w =>
    match stdin (env w) with
    | [] =>
        (Raise EOFError,
         on_env (set_console [] (prompts (env w) ++ [prompt])) w)
    | line :: rest =>
        (Ok line, on_env (set_console rest (prompts (env w) ++ [prompt])) w)
    end.

(** A call on the [FINSEC] logger; the logger's own level filter is not
    part of the model, so a debug call is recorded too. *)
Definition LOG (lvl : Level) (msg : SecMsg) : M unit :=
  modify (on_env (add_sec_log (lvl, msg))).

(** A call on the application logger [self.log]. *)
Definition log (lvl : Level) (msg : AppMsg) : M unit :=
  modify (on_env (add_app_log (lvl, msg))).

(** A call into the broker client that returns nothing. *)
Definition call (x : Effect) : M unit :=
  modify (on_env (add_effect x)).

(** ** security.py *)

(** [PERMIT_ERROR]: the error codes that are logged and survived, with
    the name of the level each is logged at. *)
Definition PERMIT_ERROR : gmap Z string :=
  list_to_map
    [ (202, "WARNING");  (* order canceled *)
      (504, "DEBUG");    (* not connected -- always thrown on start *)
      (2103, "WARNING"); (* datafarm connection broken *)
      (2104, "DEBUG");   (* Market data farm connection is OK *)
      (2106, "DEBUG");   (* A historical data farm is connected. *)
      (2108, "DEBUG");   (* data hiccup *)
      (2158, "DEBUG")    (* A historical data farm is connected. *) ].

(** The class an instance of a rule belongs to. *)
Inductive RuleClass := ThreeTierNMaxClass | ThreeTierNMinClass.

(** [ThreeTierGeneric[T]]: the frozen dataclass of a rule.  [cls] is the
    class of the instance, which selects [fmt_op]. *)
Record ThreeTierGeneric (T : Type) := mkRule {
  cls : RuleClass;
  name : string;
  block_level : T;
  confirm_level : T;
  notify_level : T;
  confirm_msg : string;
  cmp_op : T -> T -> bool
}.
Arguments mkRule {T}.
Arguments cls {T}.
Arguments name {T}.
Arguments block_level {T}.
Arguments confirm_level {T}.
Arguments notify_level {T}.
Arguments confirm_msg {T}.
Arguments cmp_op {T}.

Definition fmt_op {T} (r : ThreeTierGeneric T) : string :=
  match cls r with
  | ThreeTierNMaxClass => ">"
  | ThreeTierNMinClass => "<"
  end.

(** [ThreeTierNMax(name, block, confirm, notify, msg, cmp_op=operator.gt)]:
    the generated [__init__] followed by [__post_init__].  [op] is the
    sixth argument when the caller gives one. *)
Definition ThreeTierNMax (name : string) (block confirm notify : Q)
  (msg : string) (op : option (Q -> Q -> bool)) : res (ThreeTierGeneric Q) :=
  let this :=
    mkRule ThreeTierNMaxClass name block confirm notify msg
      (default operator.gt op) in
  res_bind (assert_ (operator.gt (block_level this) (confirm_level this)))
    (fun _ => Ok this).

(** [ThreeTierNMin(name, block, confirm, notify, msg, cmp_op=operator.lt)]. *)
Definition ThreeTierNMin (name : string) (block confirm notify : Q)
  (msg : string) (op : option (Q -> Q -> bool)) : res (ThreeTierGeneric Q) :=
  let this :=
    mkRule ThreeTierNMinClass name block confirm notify msg
      (default operator.lt op) in
  res_bind (assert_ (operator.lt (block_level this) (confirm_level this)))
    (fun _ => Ok this).

Section Validate.
Context {T : Type}.

Definition _confirm_danger (this : ThreeTierGeneric T) (val : T) : M unit :=
  ans ← input (name this);
  if negb (String.eqb ans "YES")
  then raise (SecurityFault (confirm_msg this))
  else mret tt.

Definition validate (this : ThreeTierGeneric T) (val : T) : M T :=
  if cmp_op this val (block_level this) then
    LOG ERROR (RejectedByRule (name this));;
    raise (SecurityFault (confirm_msg this))
  else if cmp_op this val (confirm_level this) then
    _confirm_danger this val;;
    LOG WARNING (PermittedOnOverride (name this));;
    mret val
  else
    (if cmp_op this val (notify_level this)
     then LOG INFO (PermittedAsOfRight (name this))
     else LOG DEBUG (PermittedAsOfRight (name this)));;
    mret val.
End Validate.

(** The value of a class attribute whose constructor call succeeds: the
    definition is only accepted when the assertions of the constructor
    hold, as the module is only imported then. *)
Definition constructed {A} (r : res A)
  : (match r with Ok _ => True | _ => False end) -> A :=
  match r with
  | Ok a => fun _ => a
  | Raise _ => fun absurd => match absurd with end
  | Blocked => fun absurd => match absurd with end
  end.

Module Policy.
Definition MARGIN_USAGE : ThreeTierGeneric Q :=
  constructed
    (ThreeTierNMax "MARGIN USAGE" 0.80 0.60 0.40 "High margin usage." None)
    I.
Definition MARGIN_REQ : ThreeTierGeneric Q :=
  constructed
    (ThreeTierNMin "MARGIN REQ" 0.15 0.20 0.25 "Low margin requirement."
       None) I.
Definition LOAN_AMT : ThreeTierGeneric Q :=
  constructed
    (ThreeTierNMax "LOAN AMOUNT" 100000 75000 50000 "Large loan size." None)
    I.
Definition MISALLOCATION : ThreeTierGeneric Q :=
  constructed
    (ThreeTierNMax "MISALLOCATION" 3e-3 1e-3 3e-4 "Misallocated portfolio."
       None) I.
Definition ORDER_QTY : ThreeTierGeneric Q :=
  constructed
    (ThreeTierNMax "ORDER SIZE" 250 100 50 "Large order size." None) I.
Definition ORDER_TOTAL : ThreeTierGeneric Q :=
  constructed
    (ThreeTierNMax "ORDER TOTAL" 50000 5000 1000 "Large order amount." None)
    I.
Definition MISALLOC_DOLLARS : ThreeTierGeneric Q :=
  constructed
    (ThreeTierNMin "MISALLOC $ MIN" 200 400 600
       "Small dollar rebalance threshold." None) I.
Definition REBALANCE_TRIGGER : ThreeTierGeneric Q :=
  constructed
    (ThreeTierNMin "REBALANCE TRIGGER % MIN" 0.5 0.75 1.0
       "Small rebalance trigger." None) I.
Definition ATH_MARGIN_USE : ThreeTierGeneric Q :=
  constructed
    (ThreeTierNMax "ATH MARGIN USER" 0.3 0.2 0.0 "High ATH margin usage."
       None) I.
Definition DRAWDOWN_COEFFICIENT : ThreeTierGeneric Q :=
  constructed
    (ThreeTierNMax "DRAWDOWN COEFFICIENT" 2.0 1.5 0.5
       "High drawdown coefficient." None) I.

(** number of seconds to wait before the same contract can be traded
    again *)
Definition ORDER_COOLOFF : Q := 55.

Definition MAX_PRICING_AGE : Q := 20.  (* seconds *)
Definition MAX_ACCT_SUM_AGE : Q := 120.  (* seconds *)

(** The rules of the class, by attribute name. *)
Definition rules : list (string * ThreeTierGeneric Q) :=
  [ ("MARGIN_USAGE", MARGIN_USAGE);
    ("MARGIN_REQ", MARGIN_REQ);
    ("LOAN_AMT", LOAN_AMT);
    ("MISALLOCATION", MISALLOCATION);
    ("ORDER_QTY", ORDER_QTY);
    ("ORDER_TOTAL", ORDER_TOTAL);
    ("MISALLOC_DOLLARS", MISALLOC_DOLLARS);
    ("REBALANCE_TRIGGER", REBALANCE_TRIGGER);
    ("ATH_MARGIN_USE", ATH_MARGIN_USE);
    ("DRAWDOWN_COEFFICIENT", DRAWDOWN_COEFFICIENT) ].

(** [Policy.<attr>] for an attribute that is used as a rule. *)
Definition getattr (attr : string) : res (ThreeTierGeneric Q) :=
  match list_find (fun kv => String.eqb (fst kv) attr = true) rules with
  | Some (_, (_, rule)) => Ok rule
  | None => Raise (AttributeError attr)
  end.
End Policy.

(** [audit_order(order)]; [cfg_armed] is what
    [config()["app"].getboolean("armed")] reads. *)
Definition audit_order (cfg_armed : bool) (order : Order) : res Order :=
  let succ := String.eqb (orderType order) "MIDPRICE" in
  let succ := andb succ (orb cfg_armed (negb (transmit order))) in
  let succ := andb succ (negb (outsideRth order)) in
  res_bind (assert_ succ) (fun _ => Ok (set_audited order)).

(** ** The Order Manager *)

(** Modelled from the spec: [src.model.data.OrderManager], the state
    machine of one order per instrument.  Its state is the single
    mapping from instrument to entry; every operation on an instrument
    reads the clock once, and first drops the entry of the instrument
    if that is a cooloff entry whose quiet period is over (expiry is
    checked on access, not by a timer). *)
Module OrderManager.
(** Modelled from the spec: a cooloff entry expires strictly after the
    quiet period [Policy.ORDER_COOLOFF] has elapsed since it was
    finalized. *)
Definition expired (now : Q) (e : OMEntry) : bool :=
  match om_state e with
  | COOLOFF => operator.gt (now - om_stamp e) Policy.ORDER_COOLOFF
  | _ => false
  end.

(** Modelled from the spec: the check made on access. *)
Definition purge (now : Q) (sc : SimpleContract)
  (om : gmap SimpleContract OMEntry) : gmap SimpleContract OMEntry :=
  match om !! sc with
  | Some e => if expired now e then delete sc om else om
  | None => om
  end.

(** An operation of the manager as a method: it reads the clock, runs
    on the mapping and stores the mapping it leaves. *)
Definition method {A}
  (op : Q -> gmap SimpleContract OMEntry
        -> A * gmap SimpleContract OMEntry) : M A :=
  now ← utime;
  om ← gets (fun w => order_manager (self w));
  modify (on_self (set_order_manager (op now om).2));;
  mret (op now om).1.

(** Modelled from the spec: [enter(instrument, orderId, order)] creates
    a [PENDING] entry iff the instrument has no entry, and returns
    false without mutation otherwise. *)
Definition enter (sc : SimpleContract) (oid : Z) (order : Order) (now : Q)
  (om : gmap SimpleContract OMEntry) : bool * gmap SimpleContract OMEntry :=
  let om := purge now sc om in
  match om !! sc with
  | Some _ => (false, om)
  | None => (true, <[sc := mkEntry oid order PENDING now]> om)
  end.

(** Modelled from the spec: [transmit(instrument)] moves [PENDING] to
    [TRANSMITTED], and returns true without a state change when the
    entry is [TRANSMITTED] already. *)
Definition transmit (sc : SimpleContract) (now : Q)
  (om : gmap SimpleContract OMEntry) : bool * gmap SimpleContract OMEntry :=
  let om := purge now sc om in
  match om !! sc with
  | Some e =>
      match om_state e with
      | PENDING =>
          (true,
           <[sc := mkEntry (om_oid e) (om_order e) TRANSMITTED (om_stamp e)]>
             om)
      | TRANSMITTED => (true, om)
      | COOLOFF => (false, om)
      end
  | None => (false, om)
  end.

(** Modelled from the spec: [finalize(instrument)] moves [TRANSMITTED]
    to [COOLOFF] and stamps the time; on any other entry it changes
    nothing. *)
Definition finalize (sc : SimpleContract) (now : Q)
  (om : gmap SimpleContract OMEntry) : bool * gmap SimpleContract OMEntry :=
  let om := purge now sc om in
  match om !! sc with
  | Some e =>
      match om_state e with
      | TRANSMITTED =>
          (true, <[sc := mkEntry (om_oid e) (om_order e) COOLOFF now]> om)
      | _ => (false, om)
      end
  | None => (false, om)
  end.

(** Modelled from the spec: [clear_untransmitted(instrument)] removes
    the entry and returns its order id only if the entry is [PENDING]. *)
Definition clear (sc : SimpleContract) (now : Q)
  (om : gmap SimpleContract OMEntry)
  : option Z * gmap SimpleContract OMEntry :=
  let om := purge now sc om in
  match om !! sc with
  | Some e =>
      match om_state e with
      | PENDING => (Some (om_oid e), delete sc om)
      | _ => (None, om)
      end
  | None => (None, om)
  end.

(** Modelled from the spec: the read accessors [lookup_order] and
    [state_of]; [None] for an instrument that is not tracked. *)
Definition order_of (sc : SimpleContract) (now : Q)
  (om : gmap SimpleContract OMEntry)
  : option Order * gmap SimpleContract OMEntry :=
  let om := purge now sc om in (om_order <$> om !! sc, om).

Definition state_of (sc : SimpleContract) (now : Q)
  (om : gmap SimpleContract OMEntry)
  : option OMState * gmap SimpleContract OMEntry :=
  let om := purge now sc om in (om_state <$> om !! sc, om).

(** The methods, under the names the application calls them by. *)
Definition enter_order (sc : SimpleContract) (oid : Z) (order : Order)
  : M bool := method (enter sc oid order).
Definition transmit_order (sc : SimpleContract) : M bool :=
  method (transmit sc).
Definition finalize_order (sc : SimpleContract) : M bool :=
  method (finalize sc).
Definition clear_untransmitted (sc : SimpleContract) : M (option Z) :=
  method (clear sc).
Definition get_order (sc : SimpleContract) : M (option Order) :=
  method (order_of sc).
Definition get_state (sc : SimpleContract) : M (option OMState) :=
  method (state_of sc).

(** [self.order_manager[sc]]. *)
Definition getitem (sc : SimpleContract) : M (option OMState) :=
  get_state sc.

(** Modelled from the spec: [lookup_by_order_id], the instrument of the
    entry that holds the order id. *)
Definition get_nc (oid : Z) : M (option SimpleContract) :=
  om ← gets (fun w => order_manager (self w));
  mret (match list_find (fun kv => om_oid kv.2 = oid) (map_to_list om) with
        | Some (_, (sc, _)) => Some sc
        | None => None
        end).
End OrderManager.

(** ** app/autorebalance.py *)

(** What [configparser] hands to [read_config]: the sections it has and,
    for a section and a key, what each typed getter gives: [Ok None] for
    a key that is absent, [Raise ValueError] for text that does not
    parse. *)
Record ConfigParser := mkCfg {
  sections : list string;
  getfloat : string -> string -> res (option Q);
  getint : string -> string -> res (option Z);
  getboolean : string -> string -> res (option bool)
}.

(** [cfg[section]]. *)
Definition cfg_section (cfg : ConfigParser) (section : string) : res string :=
  if bool_decide (section ∈ sections cfg) then Ok section
  else Raise (KeyError section).

Module AutorebalanceConfig.
(** [__post_init__] on the arguments of the constructor, any of which
    may be [None]. *)
Definition __post_init__
  (dd_reference_ath mu_at_ath dd_coef misalloc_min_dollars
     misalloc_min_frac misalloc_frac_force_elbow misalloc_frac_force_coef
     min_margin_req order_timeout max_slippage rebalance_freq
     liveness_timeout : option Q) (armed : option bool)
  : res AutorebalanceConfig :=
  match dd_reference_ath, mu_at_ath, dd_coef, misalloc_min_dollars,
        misalloc_min_frac, misalloc_frac_force_elbow,
        misalloc_frac_force_coef, min_margin_req, order_timeout,
        max_slippage, rebalance_freq, liveness_timeout, armed with
  | Some a, Some b, Some c, Some d, Some e, Some f, Some g, Some h,
    Some i, Some j, Some k, Some l, Some m =>
      res_bind (assert_ (Qle_bool e f && operator.gt e 1.0)) (fun _ =>
      res_bind (assert_ (operator.gt g 0.0)) (fun _ =>
      Ok (mkConf a b c d e f g h i j k l m)))
  | _, _, _, _, _, _, _, _, _, _, _, _, _ => Raise AssertionError
  end.

(** [Policy.<attr>.validate(value)] on what a getter returned: the
    attribute is looked up before the argument is evaluated, and the
    comparison of [None] with a number is a [TypeError]. *)
Definition validated (attr : string) (getter : res (option Q))
  : M (option Q) :=
  rule ← lift (Policy.getattr attr);
  value ← lift getter;
  match value with
  | None => raise TypeError
  | Some v => v' ← validate rule v; mret (Some v')
  end.

Definition read_config (cfg : ConfigParser) : M AutorebalanceConfig :=
  strategy ← lift (cfg_section cfg "strategy");
  orders ← lift (cfg_section cfg "orders");
  dd_reference_ath ← lift (getfloat cfg strategy "dd_reference_ath");
  mu_at_ath ←
    validated "ATH_MARGIN_USE" (getfloat cfg strategy "mu_at_ath");
  dd_coef ←
    validated "DRAWDOWN_COEFFICIENT" (getfloat cfg strategy "dd_coef");
  misalloc_min_dollars ←
    validated "MISALLOC_DOLLARS"
      (res_bind (getint cfg strategy "misalloc_min_dollars")
         (fun n => Ok (inject_Z <$> n)));
  misalloc_min_frac ←
    validated "MISALLOC_FRACTION"
      (getfloat cfg strategy "misalloc_min_frac");
  min_margin_req ←
    validated "MARGIN_REQ" (getfloat cfg strategy "min_margin_req");
  misalloc_frac_force_elbow ←
    lift (getfloat cfg strategy "misalloc_frac_force_elbow");
  misalloc_frac_force_coef ←
    lift (getfloat cfg strategy "misalloc_frac_force_coef");
  app ← lift (cfg_section cfg "app");
  rebalance_freq ← lift (getfloat cfg app "rebalance_freq");
  app ← lift (cfg_section cfg "app");
  liveness_timeout ← lift (getfloat cfg app "liveness_timeout");
  app ← lift (cfg_section cfg "app");
  armed ← lift (getboolean cfg app "armed");
  order_timeout ← lift (getint cfg orders "order_timeout");
  max_slippage ← lift (getfloat cfg orders "max_slippage");
  lift (__post_init__ dd_reference_ath mu_at_ath dd_coef
          misalloc_min_dollars misalloc_min_frac misalloc_frac_force_elbow
          misalloc_frac_force_coef min_margin_req
          (inject_Z <$> order_timeout) max_slippage rebalance_freq
          liveness_timeout armed).
End AutorebalanceConfig.

Module AutorebalanceApp.
(** [__init__] creates [Queue(maxsize=1)]. *)
Definition new_order_id_queue : Queue := mkQueue 1 [].

(** *** Calls into the broker client *)

Definition cancelOrder (oid : Z) : M unit := call (CancelOrder oid).
Definition placeOrder (oid : Z) (sc : SimpleContract) (order : Order)
  : M unit := call (PlaceOrder oid sc order).
Definition reqPositions : M unit := call ReqPositions.

(** [reqIds(n)]: the request leaves, and the broker's one reply to it,
    a fresh id, is on its way to the dispatch thread. *)
Definition reqIds (n : Z) : M unit :=
  call (ReqIds n);;
  modify (on_env (fun e =>
    set_broker (broker_next_oid e + 1)
      (inflight_ids e ++ [broker_next_oid e]) e)).

(** *** Cancelling and shutting down *)

Definition safe_cancel_order (oid : Z) : M unit :=
  cancelOrder oid;;
  sleep 0.1.

Definition clear_any_untransmitted_order (sc : SimpleContract) : M unit :=
  cleared_oid ← OrderManager.clear_untransmitted sc;
  match cleared_oid with
  | Some oid => safe_cancel_order oid
  | None => mret tt
  end.

(** [shut_down]; [super().shut_down()] is the effect [BaseShutDown],
    and [sys.exit(-1)] raises [SystemExit]. *)
Definition shut_down {A} : M A :=
  comp ← gets (fun w => target_composition (self w));
  for_each (contracts comp) clear_any_untransmitted_order;;
  call BaseShutDown;;
  raise (SystemExit (-1)).

Definition kill_app {A} (msg : KillMsg) : M A :=
  log CRITICAL (Killed msg);;
  shut_down.

(** *** The order-id rendezvous *)

(** [Queue.put_nowait(item)]. *)
Definition put_nowait (item : Z) : M unit :=
  q ← gets (fun w => order_id_queue (self w));
  if ((0 <? maxsize q) && (maxsize q <=? Z.of_nat (length (items q))))%Z
  then raise Full
  else modify (on_self (set_order_id_queue
                          (mkQueue (maxsize q) (items q ++ [item])))).

Definition next_requested_id (oid : Z) : M unit :=
  try_except (put_nowait oid)
    (fun e => match e with Full => true | _ => false end)
    (kill_app FullOrderQueue).

(** The dispatch thread delivers the oldest reply of the broker that
    is still on its way, by the order-id callback. *)
Definition dispatch_id_reply : M unit :=
  inflight ← gets (fun w => inflight_ids (env w));
  match inflight with
  | [] => mret tt
  | oid :: rest =>
      modify (on_env (fun e => set_broker (broker_next_oid e) rest e));;
      next_requested_id oid
  end.

(** [Queue.get()] with no timeout: takes the oldest item; on an empty
    queue the thread waits, which lets the dispatch thread deliver a
    reply, and waits for ever when none comes. *)
Definition order_id_queue_get : M Z :=
  q ← gets (fun w => order_id_queue (self w));
  (match items q with
   | [] => dispatch_id_reply
   | _ :: _ => mret tt
   end);;
  q ← gets (fun w => order_id_queue (self w));
  match items q with
  | [] => block
  | oid :: rest =>
      modify (on_self (set_order_id_queue (mkQueue (maxsize q) rest)));;
      mret oid
  end.

(** *** Placement *)

Definition safe_place_order (sc : SimpleContract) (order : Order)
  : M unit :=
  assert (hasattr_audited order);;
  reqIds (-1);;
  (* no timeout -- reqIds -> .put is a deterministic cycle. *)
  oid ← order_id_queue_get;
  clear_any_untransmitted_order sc;;
  entered ← OrderManager.enter_order sc oid order;
  if negb entered then
    state ← OrderManager.get_state sc;
    log DEBUG (RejectedByManager (symbol sc) state)
  else
    (* ^ DO NOT REORDER THESE CALLS v *)
    placeOrder oid sc order;;
    log INFO (PlacedOrder sc order).

(** *** The order-status callback *)

Definition orderStatus (oid : Z) (status : string)
  (filled_qty rem av_fill_px : Q) : M unit :=
  sc ← OrderManager.get_nc oid;
  match sc with
  | None => raise AssertionError
  | Some sc =>
      order ← OrderManager.get_order sc;
      match order with
      | None => raise AssertionError
      | Some order =>
          state ← OrderManager.getitem sc;
          if bool_decide (state = Some COOLOFF) then
            log DEBUG (DroppingPostFinalization oid)
          else
            (if bool_decide (state = Some TRANSMITTED) then mret tt
             else ok ← OrderManager.transmit_order sc; assert ok);;
            if String.eqb status "Filled" then
              ok ← OrderManager.finalize_order sc;
              assert ok;;
              log INFO (OrderFilled sc order);;
              reqPositions
            else if String.eqb status "Cancelled" then
              ok ← OrderManager.finalize_order sc;
              assert ok;;
              log INFO (OrderCanceled sc order)
            else
              log DEBUG (OrderStatusIs sc order status)
      end
  end.

(** *** Liveness *)

(** Modelled from the spec: [AcctState.summary_age], the time since
    the snapshot was captured. *)
Definition summary_age (a : AcctState) : M Q :=
  now ← utime;
  mret (now - captured a)%Q.

(** The loop of [pricing_age] over the contracts that are left, with
    the age found so far. *)
Fixpoint pricing_age_from (age : Q) (todo : list SimpleContract)
  : M pyfloat :=
  match todo with
  | [] => mret (Fin age)
  | contract :: rest =>
      prices ← gets (fun w => portfolio_prices (self w));
      match prices !! contract with
      | None => mret Inf
      | Some bar =>
          now ← utime;
          pricing_age_from (py_max age (now - inject_Z (OHLCBar.t bar))%Q)
            rest
      end
  end.

Definition pricing_age : M pyfloat :=
  comp ← gets (fun w => target_composition (self w));
  pricing_age_from 0.0 (contracts comp).

Definition is_live : M bool :=
  acct ← gets (fun w => acct_state (self w));
  match acct with
  | None => mret false
  | Some acct =>
      age ← summary_age acct;
      if operator.lt age Policy.MAX_ACCT_SUM_AGE then
        page ← pricing_age;
        mret (pyfloat_lt page Policy.MAX_PRICING_AGE)
      else mret false
  end.

(** *** Target margin use *)




(** *** The error channel *)

(** The dictionary from level name to logger method in [error]. *)
Definition log_method (level_name : string) : res Level :=
  if String.eqb level_name "DEBUG" then Ok DEBUG
  else if String.eqb level_name "INFO" then Ok INFO
  else if String.eqb level_name "WARNING" then Ok WARNING
  else Raise (KeyError level_name).

Definition error (req_id error_code : Z) (error_string : string)
  : M unit :=
  (* pacing violation *)
  if (error_code =? 420)%Z then kill_app Chill420
  else
    match PERMIT_ERROR !! error_code with
    | Some level_name =>
        lvl ← lift (log_method level_name);
        log lvl (TwsError req_id error_code error_string)
    | None => kill_app (TwsErrorChannel req_id error_code error_string)
    end.
End AutorebalanceApp.

(** ** Notions used in the statements *)

(** The invariant of a rule family: a maximum rule has block > confirm >
    notify and compares with greater-than; a minimum rule has block <
    confirm < notify and compares with less-than. *)
Definition family_ordered (r : ThreeTierGeneric Q) : Prop :=
  match cls r with
  | ThreeTierNMaxClass =>
      (confirm_level r < block_level r)%Q
      /\ (notify_level r < confirm_level r)%Q
      /\ forall a b, cmp_op r a b = operator.gt a b
  | ThreeTierNMinClass =>
      (block_level r < confirm_level r)%Q
      /\ (confirm_level r < notify_level r)%Q
      /\ forall a b, cmp_op r a b = operator.lt a b
  end.

(** What [audit_order] demands of an order. *)
Definition passes_audit (cfg_armed : bool) (order : Order) : Prop :=
  orderType order = "MIDPRICE"
  /\ (cfg_armed = true \/ transmit order = false)
  /\ outsideRth order = false.

(** Whether code returned a value. *)
Definition is_ok {A} (r : res A) : bool :=
  match r with Ok _ => true | _ => false end.

(** A retraction leaves the process as a cancel call or the pause that
    follows it. *)
Definition is_retraction (x : Effect) : Prop :=
  match x with
  | CancelOrder _ | Sleep _ => True
  | _ => False
  end.

(** [retracted w w']: [w'] is [w] after some not-yet-transmitted orders
    were retracted: the only calls made are cancels and pauses, and
    apart from the Order Manager and the clock nothing of the
    application or of its environment has changed. *)
Definition retracted (w w' : World) : Prop :=
  order_id_queue (self w') = order_id_queue (self w)
  /\ target_composition (self w') = target_composition (self w)
  /\ app_log (env w') = app_log (env w)
  /\ inflight_ids (env w') = inflight_ids (env w)
  /\ exists calls,
      effects (env w') = effects (env w) ++ calls
      /\ Forall is_retraction calls.

(** [killed_by msg w out]: [out] is what [kill_app msg] gives from [w]:
    the critical line is logged, orders are retracted, the base class
    shuts down and the process exits with status -1. *)
Definition killed_by {A} (msg : KillMsg) (w : World) (out : res A * World)
  : Prop :=
  out.1 = Raise (SystemExit (-1))
  /\ order_id_queue (self out.2) = order_id_queue (self w)
  /\ app_log (env out.2) = app_log (env w) ++ [(CRITICAL, Killed msg)]
  /\ exists calls,
      effects (env out.2) = effects (env w) ++ calls ++ [BaseShutDown]
      /\ Forall is_retraction calls.

(** The order-id queue is the one [__init__] made and holds at most one
    id. *)
Definition one_slot (w : World) : Prop :=
  maxsize (order_id_queue (self w)) = 1
  /\ (length (items (order_id_queue (self w))) <= 1)%nat.

(** [fresh_prices w first]: every instrument of the target composition
    has a price sample, and the sample of the [i]-th instrument is
    younger than [Policy.MAX_PRICING_AGE] at the clock reading
    [first + i], the one the loop of [pricing_age] takes for it. *)
Definition fresh_prices (w : World) (first : nat) : Prop :=
  forall (i : nat) (sc : SimpleContract),
    contracts (target_composition (self w)) !! i = Some sc ->
    exists bar,
      portfolio_prices (self w) !! sc = Some bar
      /\ (clock (env w) (first + i)%nat - inject_Z (OHLCBar.t bar)
          < Policy.MAX_PRICING_AGE)%Q.

(** [fresh_account w]: there is an account snapshot and it is younger
    than [Policy.MAX_ACCT_SUM_AGE] at the next clock reading. *)
Definition fresh_account (w : World) : Prop :=
  exists acct,
    acct_state (self w) = Some acct
    /\ (clock (env w) (ticks (env w)) - captured acct
        < Policy.MAX_ACCT_SUM_AGE)%Q.







(** *** Placement *)

(** The order id that [safe_place_order] obtains in [w]: the id waiting
    in the queue if there is one, else the oldest reply on its way, else
    the reply to the request it has just made. *)
Definition obtained_id (w : World) : Z :=
  match items (order_id_queue (self w)) with
  | oid :: _ => oid
  | [] =>
      match inflight_ids (env w) with
      | oid :: _ => oid
      | [] => broker_next_oid (env w)
      end
  end.

(** The calls that retract the entry of [sc] in [w]: the cancel of its
    order id and the pause after it if the entry is [PENDING], none
    otherwise. *)
Definition retraction_of (w : World) (sc : SimpleContract) : list Effect :=
  match order_manager (self w) !! sc with
  | Some e =>
      match om_state e with
      | PENDING => [CancelOrder (om_oid e); Sleep 0.1]
      | _ => []
      end
  | None => []
  end.

(** Whether the Order Manager admits a new entry for [sc] once a
    [PENDING] entry has been retracted: it does unless a [TRANSMITTED]
    entry exists, or a [COOLOFF] entry that has not expired at the two
    clock readings taken, one for the retraction and one for the
    admission. *)
Definition admitted (w : World) (sc : SimpleContract) : bool :=
  match order_manager (self w) !! sc with
  | Some e =>
      match om_state e with
      | PENDING => true
      | TRANSMITTED => false
      | COOLOFF =>
          OrderManager.expired (clock (env w) (ticks (env w))) e
          || OrderManager.expired (clock (env w) (S (ticks (env w)))) e
      end
  | None => true
  end.

(** The placement call of [safe_place_order], made when the entry is
    admitted. *)
Definition placement_of (w : World) (sc : SimpleContract) (order : Order)
  : list Effect :=
  if admitted w sc then [PlaceOrder (obtained_id w) sc order] else [].

(** The reading of C2 on the trace of calls: every cancel of a
    retraction comes before every request for an order id. *)
Definition retracts_before_requesting (trace : list Effect) : Prop :=
  forall (i j : nat) oid n,
    trace !! i = Some (CancelOrder oid) ->
    trace !! j = Some (ReqIds n) ->
    (i < j)%nat.

(** *** The order-status callback *)

(** [tracks w oid sc e]: in [w] the Order Manager holds the entry [e]
    for [sc] under the order id [oid], and under that id for no other
    instrument. *)
Definition tracks (w : World) (oid : Z) (sc : SimpleContract) (e : OMEntry)
  : Prop :=
  order_manager (self w) !! sc = Some e
  /\ om_oid e = oid
  /\ forall sc' e',
      order_manager (self w) !! sc' = Some e' -> om_oid e' = oid -> sc' = sc.

(** [in_cooloff w e]: the entry [e] is in [COOLOFF] and its quiet
    period is not over at the two clock readings that [orderStatus]
    takes before it looks at the state. *)
Definition in_cooloff (w : World) (e : OMEntry) : Prop :=
  om_state e = COOLOFF
  /\ OrderManager.expired (clock (env w) (ticks (env w))) e = false
  /\ OrderManager.expired (clock (env w) (S (ticks (env w)))) e = false.

(** ** Sample data *)

Module Sample.
Definition SPY : SimpleContract := mkSC "SPY" "ARCA" "USD".

Definition conf0 : AutorebalanceConfig :=
  mkConf 100 0.05 1.0 600 1.5 2.0 1.0 0.25 30 0.01 60 120 false.

(** A dry-run order as [construct_rebalance_orders] builds it, before
    and after the audit. *)
Definition order0 : Order :=
  mkOrder "MIDPRICE" false false "BUY" 10 100.01 "GTD"
    "20201001 15:00:00" None.
Definition audited0 : Order := set_audited order0.

Definition app0 : App :=
  mkApp None ∅ [(SPY, 1%Q)] conf0 AutorebalanceApp.new_order_id_queue ∅.

(** A quiet environment: nothing logged, typed or called, the broker
    about to hand out id 8, the clock standing at 1000 seconds. *)
Definition env0 : Env :=
  mkEnv [] [] [] [] [] 8 [] (fun _ => 1000%Q) 0.

Definition world0 : World := mkWorld app0 env0.

(** The same with one line typed at the console. *)
Definition typed (line : string) : World :=
  on_env (set_console [line] []) world0.

(** A live application: an account snapshot taken 10 seconds ago and
    a price bar for SPY, closing at 40, taken 5 seconds ago. *)
Definition live_app : App :=
  mkApp (Some (mkAcct 100000 60000 20000 0.25 990))
    {[ SPY := OHLCBar.mk 995 41 42 39 40 ]}
    [(SPY, 1%Q)] conf0 AutorebalanceApp.new_order_id_queue ∅.

(** The live application with [line] typed at the console. *)
Definition live_world (line : string) : World :=
  mkWorld live_app (set_console [line] [] env0).


(** The quiet application with an audited order for SPY entered under
    id 5 and not transmitted yet. *)
Definition pending_world : World :=
  on_self (set_order_manager {[ SPY := mkEntry 5 audited0 PENDING 990 ]})
    world0.

(** The quiet application with the order for SPY transmitted under
    id 5. *)
Definition transmitted_world : World :=
  on_self (set_order_manager {[ SPY := mkEntry 5 audited0 TRANSMITTED 990 ]})
    world0.

(** The quiet application with that order finalized 10 seconds ago. *)
Definition cooloff_world : World :=
  on_self (set_order_manager {[ SPY := mkEntry 5 audited0 COOLOFF 990 ]})
    world0.

(** A configuration file with every key of [read_config], each value
    well formed and on the safe side of the notify level of its rule. *)
Definition cfg0 : ConfigParser :=
  mkCfg ["strategy"; "orders"; "app"]
    (fun _ key =>
       if String.eqb key "dd_reference_ath" then Ok (Some 100%Q)
       else if String.eqb key "mu_at_ath" then Ok (Some 0.0%Q)
       else if String.eqb key "dd_coef" then Ok (Some 0.5%Q)
       else if String.eqb key "misalloc_min_frac" then Ok (Some 1.5%Q)
       else if String.eqb key "min_margin_req" then Ok (Some 0.25%Q)
       else if String.eqb key "misalloc_frac_force_elbow" then Ok (Some 2.0%Q)
       else if String.eqb key "misalloc_frac_force_coef" then Ok (Some 1.0%Q)
       else if String.eqb key "rebalance_freq" then Ok (Some 60%Q)
       else if String.eqb key "liveness_timeout" then Ok (Some 120%Q)
       else if String.eqb key "max_slippage" then Ok (Some 0.01%Q)
       else Ok None)
    (fun _ key =>
       if String.eqb key "misalloc_min_dollars" then Ok (Some 600)
       else if String.eqb key "order_timeout" then Ok (Some 30)
       else Ok None)
    (fun _ key =>
       if String.eqb key "armed" then Ok (Some false) else Ok None).
End Sample.


(** ** The callbacks and the construction of orders

    The rest of [AutorebalanceApp]: the position and price callbacks,
    the open-order callback and [construct_rebalance_orders].  They use
    further attributes of the application, kept in a [Desk] beside the
    [World]; a method of this part is a computation in the monad [P]
    over both. *)

(** A Python [dict], as its items in insertion order. *)
Module Dict.
Section Dict.
Context {K V : Type} `{EqDecision K}.

Fixpoint get (k : K) (d : list (K * V)) : option V :=
  match d with
  | [] => None
  | (k', v) :: rest => if decide (k' = k) then Some v else get k rest
  end.

(** [d[k] = v]: the value of an existing key is replaced where it
    stands, a new key goes to the end. *)
Fixpoint set (k : K) (v : V) (d : list (K * V)) : list (K * V) :=
  match d with
  | [] => [(k, v)]
  | (k', v') :: rest =>
      if decide (k' = k) then (k, v) :: rest else (k', v') :: set k v rest
  end.

Definition keys (d : list (K * V)) : list K := map fst d.
Definition values (d : list (K * V)) : list V := map snd d.

(** [d.update(other)]. *)
Definition update (other d : list (K * V)) : list (K * V) :=
  fold_left (fun acc kv => set kv.1 kv.2 acc) other d.
End Dict.
End Dict.

(** The fields of [ibapi.contract.Contract] that the application reads.
    Modelled from the spec: [SimpleContract.from_contract] gives the
    normalised identity of the instrument, carried here as the field
    [identity]. *)
Record Contract := mkContract { secType : string; identity : SimpleContract }.

(** What [kill_app] is told by the callbacks of this part. *)
Inductive DeskKill :=
| UnknownPortfolioKeysReceived
| UnsolicitedPrice (req_id : Z).

(** The messages that this part writes to the application logger. *)
Inductive DeskMsg :=
| ReceivedPositions (tickers : list string) (total : Z)
| UnknownPortfolioKeys
| UnknownKey (sc : SimpleContract)
| MaybeBadPrimaryExchange
| Subscribing (req_id : Z) (sym : string)
| ReceivedPrice (sym : string) (close : Q)
| UntrackedOpenOrder
| KilledBy (why : DeskKill).

(** The market-data calls into the broker client. *)
Inductive Request :=
| ReqRealTimeBars (req_id : Z) (sc : SimpleContract) (bar_size : Z)
    (what_to_show : string) (use_rth : bool).

(** The further attributes of the application and of its environment:
    the price subscriptions by request id, the portfolio ([None] until
    the first positions arrive), the accumulator of positions, the
    rebalance targets, what [config()["app"].getboolean("armed")] reads,
    how a time is written as a good-till date (eastern time zone and
    format are constants of [src.model.constants]), and the log lines
    and requests of this part, each in the order made. *)
Record Desk := mkDesk {
  price_watchers : list (Z * SimpleContract);
  portfolio : option (list (SimpleContract * Z));
  position_acc : list (SimpleContract * Z);
  rebalance_target : list (SimpleContract * Z);
  config_armed : bool;
  strftime_gtd : Q -> string;
  desk_log : list (Level * DeskMsg);
  requests : list Request
}.

Record Process := mkProcess { world : World; desk : Desk }.

Definition set_price_watchers (pw : list (Z * SimpleContract)) (d : Desk)
  : Desk :=
  {| price_watchers := pw; portfolio := portfolio d;
     position_acc := position_acc d; rebalance_target := rebalance_target d;
     config_armed := config_armed d; strftime_gtd := strftime_gtd d;
     desk_log := desk_log d; requests := requests d |}.

Definition set_portfolio (p : option (list (SimpleContract * Z))) (d : Desk)
  : Desk :=
  {| price_watchers := price_watchers d; portfolio := p;
     position_acc := position_acc d; rebalance_target := rebalance_target d;
     config_armed := config_armed d; strftime_gtd := strftime_gtd d;
     desk_log := desk_log d; requests := requests d |}.

Definition set_position_acc (acc : list (SimpleContract * Z)) (d : Desk)
  : Desk :=
  {| price_watchers := price_watchers d; portfolio := portfolio d;
     position_acc := acc; rebalance_target := rebalance_target d;
     config_armed := config_armed d; strftime_gtd := strftime_gtd d;
     desk_log := desk_log d; requests := requests d |}.

Definition add_desk_log (r : Level * DeskMsg) (d : Desk) : Desk :=
  {| price_watchers := price_watchers d; portfolio := portfolio d;
     position_acc := position_acc d; rebalance_target := rebalance_target d;
     config_armed := config_armed d; strftime_gtd := strftime_gtd d;
     desk_log := desk_log d ++ [r]; requests := requests d |}.

Definition add_request (x : Request) (d : Desk) : Desk :=
  {| price_watchers := price_watchers d; portfolio := portfolio d;
     position_acc := position_acc d; rebalance_target := rebalance_target d;
     config_armed := config_armed d; strftime_gtd := strftime_gtd d;
     desk_log := desk_log d; requests := requests d ++ [x] |}.

Definition set_portfolio_prices (prices : gmap SimpleContract OHLCBar)
  (a : App) : App :=
  {| acct_state := acct_state a; portfolio_prices := prices;
     target_composition := target_composition a; conf := conf a;
     order_id_queue := order_id_queue a; order_manager := order_manager a |}.

Definition on_world (f : World -> World) (p : Process) : Process :=
  {| world := f (world p); desk := desk p |}.

Definition on_desk (f : Desk -> Desk) (p : Process) : Process :=
  {| world := world p; desk := f (desk p) |}.

Definition P (A : Type) : Type := Process -> res A * Process.

Definition retP {A} (a : A) : P A := fun p => (Ok a, p).

Definition bindP {A B} (m : P A) (k : A -> P B) : P B :=
  fun p =>
    match m p with
    | (Ok a, p') => k a p'
    | (Raise e, p') => (Raise e, p')
    | (Blocked, p') => (Blocked, p')
    end.

#[global] Instance P_ret : MRet P := @retP.
#[global] Instance P_bind : MBind P := fun A B k m => bindP m k.

(** A method of the first part, run on the world of the process. *)
Definition liftM {A} (m : M A) : P A :=
  fun p => ((m (world p)).1, {| world := (m (world p)).2; desk := desk p |}).

Definition raiseP {A} (e : exn) : P A := fun p => (Raise e, p).
Definition getsP {A} (f : Process -> A) : P A := fun p => (Ok (f p), p).
Definition modifyP (f : Process -> Process) : P unit :=
  fun p => (Ok tt, f p).

(** A call on the application logger with a message of this part. *)
Definition logP (lvl : Level) (msg : DeskMsg) : P unit :=
  modifyP (on_desk (add_desk_log (lvl, msg))).

(** [for x in xs: body x]. *)
Fixpoint for_eachP {A} (xs : list A) (body : A -> P unit) : P unit :=
  match xs with
  | [] => retP tt
  | x :: rest => bindP (body x) (fun _ => for_eachP rest body)
  end.

(** The builtin [int(x)] on a float: truncation toward zero. *)
Definition py_int (x : Q) : Z := Z.quot (Qnum x) (Zpos (Qden x)).

Definition py_abs (x : Q) : Q := if Qle_bool 0 x then x else (- x)%Q.

(** [math.isclose(a, b)] with its default tolerances, relative 1e-09
    and absolute 0. *)
Definition isclose (a b : Q) : bool :=
  Qeq_bool a b
  || Qle_bool (py_abs (b - a)) (py_abs (1e-9 * b))
  || Qle_bool (py_abs (b - a)) (py_abs (1e-9 * a))
  || Qle_bool (py_abs (b - a)) 0.

(** The builtin [round(x, 2)]: the nearest multiple of 0.01, a tie
    going to the even one. *)
Definition round2 (x : Q) : Q :=
  let y := (x * 100)%Q in
  let lo := (Qnum y / Zpos (Qden y))%Z in
  let frac := (y - inject_Z lo)%Q in
  let n :=
    if operator.lt frac 0.5 then lo
    else if operator.gt frac 0.5 then lo + 1
    else if Z.even lo then lo else lo + 1 in
  (inject_Z n / 100)%Q.


(** A pure result, as a computation of this part. *)
Definition liftRes {A} (r : res A) : P A := fun p => (r, p).

(** [d[k]]: [KeyError] for a missing key. *)
Definition getitemP {A} (sc : SimpleContract) (v : option A) : P A :=
  match v with
  | Some x => retP x
  | None => raiseP (KeyError (symbol sc))
  end.

Module Callbacks.
Definition PORTFOLIO_PRICE_REQ_ID : Z := 30000.

(** [reqRealTimeBars] of the broker client. *)
Definition reqRealTimeBars (req_id : Z) (sc : SimpleContract) (bar_size : Z)
  (what_to_show : string) (use_rth : bool) : P unit :=
  modifyP (on_desk
             (add_request
                (ReqRealTimeBars req_id sc bar_size what_to_show use_rth))).

(** [kill_app] with a message of this part. *)
Definition kill_app {A} (msg : DeskKill) : P A :=
  logP CRITICAL (KilledBy msg);;
  liftM AutorebalanceApp.shut_down.

Definition position (account : string) (contract : Contract) (position : Q)
  (avg_cost : Q) : P unit :=
  if negb (String.eqb (secType contract) "STK") then mret tt
  else
    let sc := identity contract in
    let int_pos := py_int position in
    liftRes (assert_ (isclose position (inject_Z int_pos)));;
    acc ← getsP (fun p => position_acc (desk p));
    modifyP (on_desk (set_position_acc (Dict.set sc int_pos acc))).

(** The subscription loop of [positionEnd]. *)
Definition subscribe (sc : SimpleContract) : P unit :=
  watchers ← getsP (fun p => price_watchers (desk p));
  if bool_decide (sc ∈ Dict.values watchers) then mret tt
  else
    let req_id := PORTFOLIO_PRICE_REQ_ID + Z.of_nat (length watchers) in
    logP INFO (Subscribing req_id (symbol sc));;
    modifyP (on_desk (set_price_watchers (Dict.set req_id sc watchers)));;
    reqRealTimeBars req_id sc 60 "MIDPOINT" true.

Definition positionEnd : P unit :=
  pos_data ← getsP (fun p => position_acc (desk p));
  modifyP (on_desk (set_position_acc []));;
  logP INFO
    (ReceivedPositions (map symbol (Dict.keys pos_data))
       (fold_right Z.add 0 (Dict.values pos_data)));;
  old ← getsP (fun p => portfolio (desk p));
  let held :=
    match old with
    | None => pos_data
    | Some held => Dict.update pos_data held
    end in
  modifyP (on_desk (set_portfolio (Some held)));;
  comp ← getsP (fun p => target_composition (self (world p)));
  let bad_keys :=
    filter (fun port_contract => port_contract ∉ contracts comp)
      (Dict.keys held) in
  (match bad_keys with
   | [] => mret tt
   | _ :: _ =>
       logP CRITICAL UnknownPortfolioKeys;;
       for_eachP bad_keys (fun bk => logP CRITICAL (UnknownKey bk));;
       logP CRITICAL MaybeBadPrimaryExchange;;
       kill_app UnknownPortfolioKeysReceived
   end);;
  for_eachP (Dict.keys pos_data) subscribe.

Definition realtimeBar (req_id : Z) (t : Z) (o h l c : Q) : P unit :=
  watchers ← getsP (fun p => price_watchers (desk p));
  match Dict.get req_id watchers with
  | Some contract =>
      logP DEBUG (ReceivedPrice (symbol contract) c);;
      modifyP (on_world (on_self (fun a =>
        set_portfolio_prices
          (<[contract := OHLCBar.mk t o h l c]> (portfolio_prices a)) a)))
  | None => kill_app (UnsolicitedPrice req_id)
  end.

Definition openOrder (oid : Z) (contract : Contract) (order : Order)
  : P unit :=
  sc ← liftM (OrderManager.get_nc oid);
  match sc with
  | Some _ => mret tt
  | None =>
      let sc := identity contract in
      logP WARNING UntrackedOpenOrder;;
      liftM (OrderManager.enter_order sc oid order);;
      liftM (OrderManager.transmit_order sc);;
      mret tt
  end.

(** The loop of [construct_rebalance_orders] over the items of
    [rebalance_target], with the two variables it updates.  The fields
    of [Order()] that the loop does not set and the application reads
    are [outsideRth], false by default, and [_audited], absent;
    [datetime.now(UTC)] is a reading of the clock. *)
Fixpoint rebalance_orders_from (items : list (SimpleContract * Z))
  (price_snapshot : gmap SimpleContract Q) (total_amt : Q)
  (orders : list (SimpleContract * Order))
  : P (Q * list (SimpleContract * Order)) :=
  match items with
  | [] => retP (total_amt, orders)
  | (nc, num) :: rest =>
      is_armed ← getsP (fun p => armed (conf (self (world p))));
      let qty := Z.abs num in
      total_quantity ←
        liftM (validate Policy.ORDER_QTY (inject_Z qty));
      price ← getitemP nc (price_snapshot !! nc);
      slippage ← getsP (fun p => max_slippage (conf (self (world p))));
      now ← liftM utime;
      timeout ← getsP (fun p => order_timeout (conf (self (world p))));
      strftime ← getsP (fun p => strftime_gtd (desk p));
      let order :=
        {| orderType := "MIDPRICE";
           transmit := is_armed;
           outsideRth := false;
           action := if 0 <? num then "BUY" else "SELL";
           totalQuantity := total_quantity;
           lmtPrice :=
             round2 (price + inject_Z (if num <? 0 then -1 else 1)
                             * slippage)%Q;
           tif := "GTD";
           goodTillDate := strftime (now + timeout)%Q;
           _audited := None |} in
      cfg_is_armed ← getsP (fun p => config_armed (desk p));
      audited ← liftRes (audit_order cfg_is_armed order);
      prices ← getsP (fun p => portfolio_prices (self (world p)));
      bar ← getitemP nc (prices !! nc);
      rebalance_orders_from rest price_snapshot
        (total_amt + OHLCBar.c bar * inject_Z qty)%Q
        (Dict.set nc audited orders)
  end.

Definition construct_rebalance_orders (price_snapshot : gmap SimpleContract Q)
  : P (list (SimpleContract * Order)) :=
  items ← getsP (fun p => rebalance_target (desk p));
  out ← rebalance_orders_from items price_snapshot 0 [];
  liftM (validate Policy.ORDER_TOTAL out.1);;
  mret out.2.
End Callbacks.


(** *** Notions used in the statements about the callbacks *)

(** The price subscriptions as [positionEnd] builds them: the request
    ids count up from the base in the order made, and no instrument is
    subscribed twice. *)
Definition watchers_wf (pw : list (Z * SimpleContract)) : Prop :=
  Dict.keys pw
    = map (fun i => Callbacks.PORTFOLIO_PRICE_REQ_ID + Z.of_nat i)
        (seq 0 (length pw))
  /\ NoDup (Dict.values pw).

(** The instruments held once the accumulated positions are merged in. *)
Definition merged_keys (d : Desk) : list SimpleContract :=
  default [] (Dict.keys <$> portfolio d) ++ Dict.keys (position_acc d).

(** The request that [positionEnd] makes for a subscription. *)
Definition request_of (kv : Z * SimpleContract) : Request :=
  ReqRealTimeBars kv.1 kv.2 60 "MIDPOINT" true.

(** The value of the rebalance at the last closes: the close of each
    instrument times the size of its order. *)
Fixpoint order_total (prices : gmap SimpleContract OHLCBar)
  (items : list (SimpleContract * Z)) : Q :=
  match items with
  | [] => 0
  | (sc, num) :: rest =>
      (match prices !! sc with
       | Some bar => OHLCBar.c bar * inject_Z (Z.abs num)
       | None => 0
       end + order_total prices rest)%Q
  end.

Module SampleDesk.

Definition stock (sc : SimpleContract) : Contract := mkContract "STK" sc.

(** A fresh desk: no subscription, no portfolio yet, nothing to
    rebalance, the configuration file not armed. *)
Definition desk0 : Desk :=
  mkDesk [] None [] [] false (fun _ => "20201001 15:00:00") [] [].

Definition process0 : Process := mkProcess Sample.world0 desk0.

(** The fresh desk with 100 shares of SPY reported and not yet
    merged. *)
Definition reported : Process :=
  on_desk (set_position_acc [(Sample.SPY, 100)]) process0.


(** The live application with SPY subscribed under the first request
    id and a target of buying 10 shares. *)
Definition trading : Process :=
  mkProcess (Sample.live_world "")
    (mkDesk [(30000, Sample.SPY)] (Some [(Sample.SPY, 100)]) []
       [(Sample.SPY, 10)] false (fun _ => "20201001 15:00:00") [] []).

(** The same application with the configuration object armed, while
    the configuration file is not. *)
Definition mismatched : Process :=
  mkProcess
    (mkWorld
       (mkApp (Some (mkAcct 100000 60000 20000 0.25 990))
          {[ Sample.SPY := OHLCBar.mk 995 41 42 39 40 ]}
          [(Sample.SPY, 1%Q)]
          (mkConf 100 0.05 1.0 600 1.5 2.0 1.0 0.25 30 0.01 60 120 true)
          AutorebalanceApp.new_order_id_queue ∅)
       Sample.env0)
    (desk trading).
End SampleDesk.


(** The order that [construct_rebalance_orders] builds for one item of
    the rebalance target: a midprice order for the instrument, buying
    for a positive and selling for any other number, of that many
    shares, limited at the snapshot price moved by the slippage in the
    direction of the trade, good till a date, transmitted only when
    armed, and audited. *)
Definition built_for (is_armed : bool) (slippage : Q)
  (price_snapshot : gmap SimpleContract Q) (item : SimpleContract * Z)
  (kv : SimpleContract * Order) : Prop :=
  kv.1 = item.1
  /\ orderType kv.2 = "MIDPRICE"
  /\ transmit kv.2 = is_armed
  /\ outsideRth kv.2 = false
  /\ action kv.2 = (if 0 <? item.2 then "BUY" else "SELL")
  /\ totalQuantity kv.2 = inject_Z (Z.abs item.2)
  /\ (exists price,
        price_snapshot !! item.1 = Some price
        /\ lmtPrice kv.2
           = round2 (price + inject_Z (if item.2 <? 0 then -1 else 1)
                             * slippage)%Q)
  /\ tif kv.2 = "GTD"
  /\ hasattr_audited kv.2 = true.

(** * Properties *)

(** ** Numbers *)

Lemma operator_lt_spec (a b : Q) : operator.lt a b = true <-> (a < b)%Q.
Proof.
  unfold operator.lt. rewrite negb_true_iff.
  split.
  - intros H. apply Qnot_le_lt. intros Hle.
    apply Qle_bool_iff in Hle. congruence.
  - intros H. destruct (Qle_bool b a) eqn:E; [|reflexivity].
    apply Qle_bool_iff in E. exfalso. exact (Qlt_not_le _ _ H E).
Qed.

Lemma operator_gt_spec (a b : Q) : operator.gt a b = true <-> (b < a)%Q.
Proof. apply operator_lt_spec. Qed.

Lemma operator_lt_false (a b : Q) : operator.lt a b = false <-> (b <= a)%Q.
Proof.
  unfold operator.lt. rewrite negb_false_iff. apply Qle_bool_iff.
Qed.

Lemma operator_gt_false (a b : Q) : operator.gt a b = false <-> (a <= b)%Q.
Proof. apply operator_lt_false. Qed.

(** ** The three-tier rules *)

Section ValidateFacts.
Context {T : Type} (rule : ThreeTierGeneric T) (v : T) (w : World).

Lemma validate_block :
  cmp_op rule v (block_level rule) = true ->
  validate rule v w =
    (Raise (SecurityFault (confirm_msg rule)),
     on_env (add_sec_log (ERROR, RejectedByRule (name rule))) w).
Proof. intros Hb. unfold validate. rewrite Hb. reflexivity. Qed.

Lemma validate_confirm (ans : string) (rest : list string) :
  cmp_op rule v (block_level rule) = false ->
  cmp_op rule v (confirm_level rule) = true ->
  stdin (env w) = ans :: rest ->
  validate rule v w =
    let asked :=
      on_env (set_console rest (prompts (env w) ++ [name rule])) w in
    if String.eqb ans "YES"
    then (Ok v,
          on_env (add_sec_log (WARNING, PermittedOnOverride (name rule)))
            asked)
    else (Raise (SecurityFault (confirm_msg rule)), asked).
Proof.
  intros Hb Hc Hin. unfold validate. rewrite Hb, Hc.
  unfold _confirm_danger, mbind, M_bind, bind, input. rewrite Hin.
  destruct (String.eqb ans "YES"); reflexivity.
Qed.

Lemma validate_pass :
  cmp_op rule v (block_level rule) = false ->
  cmp_op rule v (confirm_level rule) = false ->
  validate rule v w =
    (Ok v,
     on_env (add_sec_log
               (if cmp_op rule v (notify_level rule) then INFO else DEBUG,
                PermittedAsOfRight (name rule))) w).
Proof.
  intros Hb Hc. unfold validate. rewrite Hb, Hc.
  destruct (cmp_op rule v (notify_level rule)); reflexivity.
Qed.
End ValidateFacts.

(** C1. [validate] rejects a value that crosses the block level with a
    [SecurityFault] and without a prompt; a value that crosses the
    confirm level but not the block level is put to one prompt and is
    returned exactly when the line read is ["YES"], a [SecurityFault]
    being raised on any other line; every other value is returned
    without a prompt.  For [Policy.MARGIN_USAGE] (block 0.80, confirm
    0.60, notify 0.40): 0.85 is rejected, 0.70 is returned if and only
    if confirmed, 0.50 and 0.10 are returned. *)
Theorem validate_three_tier :
  (forall (T : Type) (rule : ThreeTierGeneric T) (v : T) (w : World),
      (cmp_op rule v (block_level rule) = true ->
       (validate rule v w).1 = Raise (SecurityFault (confirm_msg rule))
       /\ prompts (env (validate rule v w).2) = prompts (env w)
       /\ stdin (env (validate rule v w).2) = stdin (env w))
      /\ (cmp_op rule v (block_level rule) = false ->
          cmp_op rule v (confirm_level rule) = true ->
          forall ans rest, stdin (env w) = ans :: rest ->
            length (prompts (env (validate rule v w).2))
              = S (length (prompts (env w)))
            /\ stdin (env (validate rule v w).2) = rest
            /\ (ans = "YES" -> (validate rule v w).1 = Ok v)
            /\ (ans <> "YES" ->
                (validate rule v w).1
                  = Raise (SecurityFault (confirm_msg rule))))
      /\ (cmp_op rule v (block_level rule) = false ->
          cmp_op rule v (confirm_level rule) = false ->
          (validate rule v w).1 = Ok v
          /\ prompts (env (validate rule v w).2) = prompts (env w)
          /\ stdin (env (validate rule v w).2) = stdin (env w)))
  /\ (forall w,
         (validate Policy.MARGIN_USAGE 0.85%Q w).1
           = Raise (SecurityFault "High margin usage."))
  /\ (forall w ans rest, stdin (env w) = ans :: rest ->
         ((validate Policy.MARGIN_USAGE 0.70%Q w).1 = Ok 0.70%Q <-> ans = "YES")
         /\ (ans <> "YES" ->
             (validate Policy.MARGIN_USAGE 0.70%Q w).1
               = Raise (SecurityFault "High margin usage.")))
  /\ (forall w,
         (validate Policy.MARGIN_USAGE 0.50%Q w).1 = Ok 0.50%Q
         /\ prompts (env (validate Policy.MARGIN_USAGE 0.50%Q w).2)
              = prompts (env w))
  /\ (forall w,
         (validate Policy.MARGIN_USAGE 0.10%Q w).1 = Ok 0.10%Q
         /\ prompts (env (validate Policy.MARGIN_USAGE 0.10%Q w).2)
              = prompts (env w)).
Proof.
  split; [intros T rule v w; repeat split|].
  - rewrite validate_block by assumption. reflexivity.
  - rewrite validate_block by assumption. reflexivity.
  - rewrite validate_block by assumption. reflexivity.
  - rewrite (validate_confirm rule v w ans rest) by assumption.
    cbn zeta. destruct (String.eqb ans "YES"); cbn;
      rewrite length_app; cbn; lia.
  - rewrite (validate_confirm rule v w ans rest) by assumption.
    cbn zeta. destruct (String.eqb ans "YES"); reflexivity.
  - intros ->. rewrite (validate_confirm rule v w "YES" rest) by assumption.
    reflexivity.
  - intros Hne.
    rewrite (validate_confirm rule v w ans rest) by assumption.
    cbn zeta. destruct (String.eqb ans "YES") eqn:E; [|reflexivity].
    apply String.eqb_eq in E. contradiction.
  - rewrite validate_pass by assumption. reflexivity.
  - rewrite validate_pass by assumption. reflexivity.
  - rewrite validate_pass by assumption. reflexivity.
  - split; [|split; [|split]].
    + intros w. rewrite validate_block by reflexivity. reflexivity.
    + intros w ans rest Hin.
      rewrite (validate_confirm _ _ w ans rest) by (reflexivity || assumption).
      cbn zeta. destruct (String.eqb ans "YES") eqn:E.
      * apply String.eqb_eq in E. subst ans.
        split; [split; reflexivity | intros Hne; contradiction].
      * apply String.eqb_neq in E.
        split; [split; [discriminate | contradiction] | reflexivity].
    + intros w. rewrite validate_pass by reflexivity. split; reflexivity.
    + intros w. rewrite validate_pass by reflexivity. split; reflexivity.
Qed.

(** A confirmed value at the margin-usage rule: 0.70 with "YES" typed. *)
Lemma validate_three_tier_witness :
  (validate Policy.MARGIN_USAGE 0.70%Q (Sample.typed "YES")).1 = Ok 0.70%Q.
Proof.
  apply (proj1 (proj2 (proj2 validate_three_tier))
           (Sample.typed "YES") "YES" []).
  - reflexivity.
  - reflexivity.
Defined.

Lemma ThreeTierNMax_Ok name b c n msg op r :
  ThreeTierNMax name b c n msg op = Ok r ->
  r = mkRule ThreeTierNMaxClass name b c n msg (default operator.gt op)
  /\ (c < b)%Q.
Proof.
  unfold ThreeTierNMax. cbn.
  destruct (operator.gt b c) eqn:E; cbn; [|discriminate].
  intros [= <-]. split; [reflexivity|]. now apply operator_gt_spec.
Qed.

Lemma ThreeTierNMin_Ok name b c n msg op r :
  ThreeTierNMin name b c n msg op = Ok r ->
  r = mkRule ThreeTierNMinClass name b c n msg (default operator.lt op)
  /\ (b < c)%Q.
Proof.
  unfold ThreeTierNMin. cbn.
  destruct (operator.lt b c) eqn:E; cbn; [|discriminate].
  intros [= <-]. split; [reflexivity|]. now apply operator_lt_spec.
Qed.

(** C7, as stated, fails: a maximum rule whose notify level lies above
    its confirm level is constructed without complaint, so is a minimum
    rule whose notify level lies below its confirm level, and so is a
    maximum rule that is given less-than as its comparison. *)
Lemma three_tier_notify_unchecked :
  (exists r, ThreeTierNMax "X" 0.8 0.6 0.7 "m" None = Ok r
             /\ ~ family_ordered r)
  /\ (exists r, ThreeTierNMin "X" 0.15 0.20 0.10 "m" None = Ok r
                /\ ~ family_ordered r)
  /\ (exists r, ThreeTierNMax "X" 0.8 0.6 0.4 "m" (Some operator.lt) = Ok r
                /\ ~ family_ordered r).
Proof.
  split; [|split]; eexists; (split; [reflexivity|]);
    unfold family_ordered; cbn.
  - intros (_ & H & _). revert H. apply Qle_not_lt. discriminate.
  - intros (_ & H & _). revert H. apply Qle_not_lt. discriminate.
  - intros (_ & _ & H). specialize (H 1%Q 0%Q). discriminate.
Qed.

(** C7, amended.  A maximum rule is constructed exactly when its block
    level is above its confirm level, and a minimum rule exactly when
    its block level is below its confirm level; the notify level is not
    checked.  A rule constructed without a comparison of its own
    compares with greater-than (maximum) or less-than (minimum).  Every
    rule of the [Policy] catalogue satisfies the full ordering and the
    comparison of its family. *)
Theorem three_tier_family_invariant :
  (forall name b c n msg op r,
      ThreeTierNMax name b c n msg op = Ok r ->
      cls r = ThreeTierNMaxClass
      /\ (confirm_level r < block_level r)%Q
      /\ (op = None -> cmp_op r = operator.gt))
  /\ (forall name b c n msg op r,
         ThreeTierNMin name b c n msg op = Ok r ->
         cls r = ThreeTierNMinClass
         /\ (block_level r < confirm_level r)%Q
         /\ (op = None -> cmp_op r = operator.lt))
  /\ (forall name b c n msg op,
         (b <= c)%Q ->
         ThreeTierNMax name b c n msg op = Raise AssertionError)
  /\ (forall name b c n msg op,
         (c <= b)%Q ->
         ThreeTierNMin name b c n msg op = Raise AssertionError)
  /\ Forall (fun kv => family_ordered kv.2) Policy.rules.
Proof.
  split; [|split; [|split; [|split]]].
  - intros name b c n msg op r H.
    apply ThreeTierNMax_Ok in H as [-> Hlt].
    split; [reflexivity|]. split; [exact Hlt|]. intros ->. reflexivity.
  - intros name b c n msg op r H.
    apply ThreeTierNMin_Ok in H as [-> Hlt].
    split; [reflexivity|]. split; [exact Hlt|]. intros ->. reflexivity.
  - intros name b c n msg op Hle. unfold ThreeTierNMax. cbn.
    apply operator_gt_false in Hle. rewrite Hle. reflexivity.
  - intros name b c n msg op Hle. unfold ThreeTierNMin. cbn.
    apply operator_lt_false in Hle. rewrite Hle. reflexivity.
  - unfold Policy.rules.
    repeat (apply Forall_cons; split;
            [unfold family_ordered; cbn;
             split; [reflexivity | split; [reflexivity | reflexivity]]|]).
    apply Forall_nil. exact I.
Qed.

(** The margin-usage rule, as the catalogue constructs it. *)
Lemma three_tier_family_invariant_witness :
  cls Policy.MARGIN_USAGE = ThreeTierNMaxClass
  /\ (confirm_level Policy.MARGIN_USAGE < block_level Policy.MARGIN_USAGE)%Q
  /\ (@None (Q -> Q -> bool) = None ->
      cmp_op Policy.MARGIN_USAGE = operator.gt).
Proof.
  apply (proj1 three_tier_family_invariant
           "MARGIN USAGE" 0.80%Q 0.60%Q 0.40%Q "High margin usage." None).
  reflexivity.
Defined.

(** ** Retraction and shutdown *)

Lemma retracted_refl w : retracted w w.
Proof.
  repeat split. exists []. split; [now rewrite app_nil_r | constructor].
Qed.

Lemma retracted_trans w1 w2 w3 :
  retracted w1 w2 -> retracted w2 w3 -> retracted w1 w3.
Proof.
  intros (Hq & Hc & Hl & Hi & xs & Hx & Fx) (Hq' & Hc' & Hl' & Hi' & ys & Hy & Fy).
  repeat split; try congruence.
  exists (xs ++ ys). split.
  - rewrite Hy, Hx, app_assoc. reflexivity.
  - now apply Forall_app.
Qed.

Ltac unfold_om :=
  unfold OrderManager.getitem, OrderManager.get_state,
    OrderManager.get_order, OrderManager.clear_untransmitted,
    OrderManager.finalize_order, OrderManager.transmit_order,
    OrderManager.enter_order, OrderManager.method.

Ltac unfold_m :=
  unfold mbind, M_bind, mret, M_ret, bind, ret, raise, block, lift, assert,
    gets, modify, utime, sleep, log, LOG, call.

Ltac quiet_retraction :=
  repeat split; cbn; exists []; split; [now rewrite app_nil_r | constructor].

Lemma clear_any_untransmitted_order_retracts sc w :
  exists w',
    AutorebalanceApp.clear_any_untransmitted_order sc w = (Ok tt, w')
    /\ retracted w w'.
Proof.
  unfold AutorebalanceApp.clear_any_untransmitted_order,
    AutorebalanceApp.safe_cancel_order, AutorebalanceApp.cancelOrder.
  unfold_om. unfold_m. cbn.
  destruct (OrderManager.clear sc _ _) as [[old|] om'] eqn:E; cbn;
    eexists; (split; [reflexivity|]).
  - repeat split. cbn. eexists. rewrite <- app_assoc.
    split; [reflexivity|]. repeat constructor.
  - quiet_retraction.
Qed.

Lemma retract_all_retracts (todo : list SimpleContract) w :
  exists w',
    for_each todo AutorebalanceApp.clear_any_untransmitted_order w
      = (Ok tt, w')
    /\ retracted w w'.
Proof.
  revert w. induction todo as [|sc rest IH]; intros w; cbn.
  - eexists. split; [reflexivity | apply retracted_refl].
  - destruct (clear_any_untransmitted_order_retracts sc w) as (w1 & E1 & R1).
    unfold bind. rewrite E1.
    destruct (IH w1) as (w2 & E2 & R2).
    exists w2. split; [exact E2 | eapply retracted_trans; eassumption].
Qed.

Lemma kill_app_kills {A} msg w :
  killed_by msg w (@AutorebalanceApp.kill_app A msg w).
Proof.
  unfold AutorebalanceApp.kill_app, AutorebalanceApp.shut_down.
  unfold_m. cbn.
  set (w0 := on_env (add_app_log (CRITICAL, Killed msg)) w).
  destruct (retract_all_retracts (contracts (target_composition (self w))) w0)
    as (w1 & E1 & (Hq & Hc & Hl & Hi & xs & Hx & Fx)).
  change (target_composition (self w0)) with (target_composition (self w)).
  rewrite E1. cbn.
  repeat split.
  - exact Hq.
  - exact Hl.
  - exists xs. split; [|exact Fx]. cbn. rewrite Hx. cbn.
    now rewrite app_assoc.
Qed.

(** ** The error channel *)

Lemma PERMIT_ERROR_outside (code : Z) :
  code ∉ [202; 504; 2103; 2104; 2106; 2108; 2158] ->
  PERMIT_ERROR !! code = None.
Proof.
  intros Hout. unfold PERMIT_ERROR. cbn [list_to_map foldr fst snd].
  repeat (rewrite lookup_insert_ne;
          [|intros <-; apply Hout; set_solver]).
  apply lookup_empty.
Qed.

(** C8. On an error callback: code 420 shuts the process down; a code
    of the catalogue 202, 504, 2103, 2104, 2106, 2108, 2158 adds exactly
    one line to the log, at the level assigned to it (warning for 202
    and 2103, debug for the others), changes nothing else and returns;
    every other code shuts the process down. *)
Theorem error_channel_triage (w : World) (req_id code : Z) (text : string) :
  (code = 420 ->
   killed_by Chill420 w (AutorebalanceApp.error req_id code text w))
  /\ (code ∈ [202; 504; 2103; 2104; 2106; 2108; 2158] ->
      AutorebalanceApp.error req_id code text w
        = (Ok tt,
           on_env (add_app_log
                     (if bool_decide (code = 202 \/ code = 2103)
                      then WARNING else DEBUG,
                      TwsError req_id code text)) w))
  /\ (code <> 420 ->
      code ∉ [202; 504; 2103; 2104; 2106; 2108; 2158] ->
      killed_by (TwsErrorChannel req_id code text) w
        (AutorebalanceApp.error req_id code text w)).
Proof.
  split; [|split].
  - intros ->. unfold AutorebalanceApp.error. cbn. apply kill_app_kills.
  - intros Hin. repeat (apply elem_of_cons in Hin as [-> | Hin]);
      try reflexivity.
    inversion Hin.
  - intros Hne Hout. unfold AutorebalanceApp.error.
    destruct (code =? 420) eqn:E; [apply Z.eqb_eq in E; contradiction|].
    rewrite (PERMIT_ERROR_outside code Hout). apply kill_app_kills.
Qed.

(** Code 2104 on the quiet application. *)
Lemma error_channel_triage_witness :
  AutorebalanceApp.error 1 2104 "Market data farm connection is OK"
    Sample.world0
  = (Ok tt,
     on_env (add_app_log
               (DEBUG, TwsError 1 2104 "Market data farm connection is OK"))
       Sample.world0).
Proof.
  apply (proj1 (proj2 (error_channel_triage Sample.world0 1 2104
                         "Market data farm connection is OK"))).
  set_solver.
Defined.

(** ** The order-id rendezvous *)

Lemma next_requested_id_empty w oid :
  items (order_id_queue (self w)) = [] ->
  AutorebalanceApp.next_requested_id oid w
    = (Ok tt,
       on_self (set_order_id_queue
                  (mkQueue (maxsize (order_id_queue (self w))) [oid])) w).
Proof.
  intros Hq. unfold AutorebalanceApp.next_requested_id, try_except,
    AutorebalanceApp.put_nowait.
  unfold_m. cbn. rewrite Hq. cbn.
  destruct ((0 <? maxsize (order_id_queue (self w)))
            && (maxsize (order_id_queue (self w)) <=? Z.of_nat 0)) eqn:E;
    [|reflexivity].
  apply andb_true_iff in E as [E1 E2].
  apply Z.ltb_lt in E1. apply Z.leb_le in E2. lia.
Qed.

Lemma next_requested_id_full w oid :
  maxsize (order_id_queue (self w)) = 1 ->
  items (order_id_queue (self w)) <> [] ->
  killed_by FullOrderQueue w (AutorebalanceApp.next_requested_id oid w).
Proof.
  intros Hm Hq. unfold AutorebalanceApp.next_requested_id, try_except,
    AutorebalanceApp.put_nowait.
  unfold_m. cbn. rewrite Hm.
  destruct (items (order_id_queue (self w))) as [|x rest]; [contradiction|].
  cbn [length].
  destruct ((0 <? 1) && (1 <=? Z.of_nat (S (length rest)))) eqn:E.
  - cbn. apply (kill_app_kills (A:=unit)).
  - apply andb_false_iff in E as [E|E].
    + discriminate.
    + apply Z.leb_gt in E. lia.
Qed.

Lemma order_id_queue_get_one_slot (w : World) :
  one_slot w -> one_slot (AutorebalanceApp.order_id_queue_get w).2.
Proof.
  destruct w as [[acct prices comp cf [m its] om]
                 [alog slog sin pr eff nxt infl clk tk]].
  unfold one_slot, AutorebalanceApp.order_id_queue_get,
    AutorebalanceApp.dispatch_id_reply, AutorebalanceApp.next_requested_id,
    AutorebalanceApp.put_nowait, try_except.
  unfold_m. cbn. intros [-> Hlen].
  destruct its as [|x its]; cbn in *.
  - destruct infl as [|r infl]; cbn.
    + split; [reflexivity | lia].
    + change (1 <=? Z.of_nat 0) with false. cbn. split; [reflexivity | lia].
  - split; [reflexivity | lia].
Qed.

(** C10. The order-id queue is made with capacity one.  The id callback
    never waits: on the empty queue it stores the id and returns; on a
    queue that already holds an id it kills the process, and the id that
    was pending is still the only content of the queue.  Hence the queue
    never holds more than one id, neither after the callback nor after
    the blocking read of [safe_place_order]. *)
Theorem order_id_rendezvous_single_slot :
  AutorebalanceApp.new_order_id_queue = mkQueue 1 []
  /\ (forall w oid,
         maxsize (order_id_queue (self w)) = 1 ->
         items (order_id_queue (self w)) = [] ->
         AutorebalanceApp.next_requested_id oid w
           = (Ok tt, on_self (set_order_id_queue (mkQueue 1 [oid])) w))
  /\ (forall w oid pending,
         maxsize (order_id_queue (self w)) = 1 ->
         items (order_id_queue (self w)) = [pending] ->
         killed_by FullOrderQueue w (AutorebalanceApp.next_requested_id oid w)
         /\ items (order_id_queue
                     (self (AutorebalanceApp.next_requested_id oid w).2))
            = [pending])
  /\ (forall w oid,
         one_slot w ->
         (AutorebalanceApp.next_requested_id oid w).1 <> Blocked
         /\ one_slot (AutorebalanceApp.next_requested_id oid w).2)
  /\ (forall w,
         one_slot w -> one_slot (AutorebalanceApp.order_id_queue_get w).2).
Proof.
  split; [reflexivity|]. split; [|split; [|split]];
    [| | |exact order_id_queue_get_one_slot].
  - intros w oid Hm Hq. rewrite next_requested_id_empty by assumption.
    now rewrite Hm.
  - intros w oid pending Hm Hq.
    assert (K : killed_by FullOrderQueue w
                  (AutorebalanceApp.next_requested_id oid w)).
    { apply next_requested_id_full; [assumption|]. rewrite Hq. discriminate. }
    split; [exact K|].
    destruct K as (_ & Hsame & _). now rewrite Hsame.
  - intros w oid [Hm Hlen].
    destruct (items (order_id_queue (self w))) as [|x rest] eqn:Hq.
    + rewrite next_requested_id_empty by assumption.
      split; [discriminate|]. split; cbn; [assumption | lia].
    + assert (K : killed_by FullOrderQueue w
                    (AutorebalanceApp.next_requested_id oid w)).
      { apply next_requested_id_full; [assumption|]. rewrite Hq.
        discriminate. }
      destruct K as (Hr & Hsame & _).
      split; [rewrite Hr; discriminate|].
      unfold one_slot. rewrite Hsame, Hm, Hq. split; [reflexivity|exact Hlen].
Qed.

(** The id callback on the empty queue of the quiet application. *)
Lemma order_id_rendezvous_single_slot_witness :
  AutorebalanceApp.next_requested_id 8 Sample.world0
  = (Ok tt, on_self (set_order_id_queue (mkQueue 1 [8])) Sample.world0).
Proof.
  apply (proj1 (proj2 order_id_rendezvous_single_slot) Sample.world0 8);
    reflexivity.
Defined.

(** ** Liveness *)

Lemma py_max_lt (a b bound : Q) :
  operator.lt (py_max a b) bound = true
  <-> (a < bound)%Q /\ (b < bound)%Q.
Proof.
  rewrite operator_lt_spec. unfold py_max.
  destruct (operator.gt b a) eqn:E.
  - apply operator_gt_spec in E. split.
    + intros H. split; [|exact H]. eapply Qlt_trans; eassumption.
    + intros [_ H]. exact H.
  - apply operator_gt_false in E. split.
    + intros H. split; [exact H|]. eapply Qle_lt_trans; eassumption.
    + intros [H _]. exact H.
Qed.

Lemma ticked_id (w : World) : w = on_env (set_ticks (ticks (env w))) w.
Proof. destruct w as [a []]. reflexivity. Qed.

Lemma pricing_age_from_spec (bound : Q) (todo : list SimpleContract) :
  forall (age : Q) (w : World),
  exists r n,
    AutorebalanceApp.pricing_age_from age todo w
      = (Ok r, on_env (set_ticks n) w)
    /\ (pyfloat_lt r bound = true
        <-> (age < bound)%Q
            /\ forall (i : nat) sc, todo !! i = Some sc ->
                 exists bar,
                   portfolio_prices (self w) !! sc = Some bar
                   /\ (clock (env w) (ticks (env w) + i)%nat
                         - inject_Z (OHLCBar.t bar) < bound)%Q).
Proof.
  induction todo as [|sc rest IH]; intros age w.
  - exists (Fin age), (ticks (env w)). cbn.
    split; [now rewrite <- ticked_id|].
    rewrite operator_lt_spec. split.
    + intros Hlt. split; [exact Hlt|]. intros i sc' Hi.
      destruct i; discriminate.
    + intros [Hlt _]. exact Hlt.
  - cbn [AutorebalanceApp.pricing_age_from]. unfold_m. cbn.
    destruct (portfolio_prices (self w) !! sc) as [bar|] eqn:E.
    + match goal with
      | |- context [AutorebalanceApp.pricing_age_from ?a rest ?w1] =>
          destruct (IH a w1) as (r & n & Er & Hr)
      end.
      exists r, n. split; [exact Er|].
      rewrite Hr. cbn.
      rewrite <- operator_lt_spec, py_max_lt.
      split.
      * intros [[Ha Hb] Hrest]. split; [exact Ha|].
        intros [|i] sc' Hi.
        -- injection Hi as <-. exists bar. split; [exact E|].
           now rewrite Nat.add_0_r.
        -- destruct (Hrest i sc' Hi) as (bar' & Hb1 & Hb2).
           exists bar'. split; [exact Hb1|].
           now rewrite Nat.add_succ_r.
      * intros [Ha Hall]. split; [split; [exact Ha|]|].
        -- destruct (Hall 0%nat sc eq_refl) as (bar' & Hb1 & Hb2).
           rewrite E in Hb1. injection Hb1 as <-.
           now rewrite Nat.add_0_r in Hb2.
        -- intros i sc' Hi.
           destruct (Hall (S i) sc' Hi) as (bar' & Hb1 & Hb2).
           exists bar'. split; [exact Hb1|].
           now rewrite Nat.add_succ_r in Hb2.
    + exists Inf, (ticks (env w)). split; [now rewrite <- ticked_id|].
      split; [discriminate|].
      intros [_ Hall]. destruct (Hall 0%nat sc eq_refl) as (bar & Hb & _).
      congruence.
Qed.

Lemma is_live_spec (w : World) :
  exists b n,
    AutorebalanceApp.is_live w = (Ok b, on_env (set_ticks n) w)
    /\ (b = true
        <-> fresh_account w /\ fresh_prices w (S (ticks (env w)))).
Proof.
  unfold AutorebalanceApp.is_live, AutorebalanceApp.summary_age,
    AutorebalanceApp.pricing_age, fresh_account.
  unfold_m. cbn.
  destruct (acct_state (self w)) as [acct|] eqn:Ea.
  - destruct (operator.lt _ Policy.MAX_ACCT_SUM_AGE) eqn:El.
    + match goal with
      | |- context [AutorebalanceApp.pricing_age_from ?a ?l ?w1] =>
          destruct (pricing_age_from_spec Policy.MAX_PRICING_AGE l a w1)
            as (r & n & Er & Hr)
      end.
      rewrite Er. exists (pyfloat_lt r Policy.MAX_PRICING_AGE), n.
      split; [reflexivity|].
      rewrite Hr. cbn. apply operator_lt_spec in El.
      split.
      * intros [_ Hall]. split; [exists acct; split; [reflexivity|exact El]|].
        exact Hall.
      * intros [_ Hall]. split; [reflexivity|]. exact Hall.
    + exists false, (S (ticks (env w))).
      split; [reflexivity|]. split; [discriminate|].
      intros [(acct' & [= <-] & Hlt) _].
      apply operator_lt_spec in Hlt. congruence.
  - exists false, (ticks (env w)). split; [now rewrite <- ticked_id|].
    split; [discriminate|].
    intros [(acct' & Hx & _) _]. discriminate.
Qed.

(** C4. [is_live] always answers, and answers true exactly when an
    account snapshot exists and is younger than 120 seconds and every
    instrument of the target composition has a price sample younger than
    20 seconds, each age taken at the clock reading made for it.  So if
    one target instrument has no price sample, or one that is 20 seconds
    old or older, the answer is false whatever the other samples and the
    account snapshot are. *)
Theorem is_live_iff_all_fresh (w : World) :
  Policy.MAX_ACCT_SUM_AGE = 120%Q
  /\ Policy.MAX_PRICING_AGE = 20%Q
  /\ (exists b, (AutorebalanceApp.is_live w).1 = Ok b)
  /\ ((AutorebalanceApp.is_live w).1 = Ok true
      <-> fresh_account w /\ fresh_prices w (S (ticks (env w))))
  /\ (forall (i : nat) (sc : SimpleContract),
         contracts (target_composition (self w)) !! i = Some sc ->
         (portfolio_prices (self w) !! sc = None
          \/ exists bar,
               portfolio_prices (self w) !! sc = Some bar
               /\ (20 <= clock (env w) (S (ticks (env w)) + i)%nat
                           - inject_Z (OHLCBar.t bar))%Q) ->
         (AutorebalanceApp.is_live w).1 = Ok false).
Proof.
  destruct (is_live_spec w) as (b & n & E & Hb).
  rewrite E. cbn.
  split; [reflexivity|]. split; [reflexivity|].
  split; [exists b; reflexivity|]. split.
  - rewrite <- Hb. split; [now intros [= ->] | now intros ->].
  - intros i sc Hi Hbad. destruct b; [|reflexivity].
    exfalso. destruct (proj1 Hb eq_refl) as [_ Hfresh].
    destruct (Hfresh i sc Hi) as (bar & Hbar & Hlt).
    destruct Hbad as [Hnone | (bar' & Hbar' & Hge)]; [congruence|].
    rewrite Hbar in Hbar'. injection Hbar' as <-.
    exact (Qlt_not_le _ _ Hlt Hge).
Qed.

(** The live sample application is live. *)
Lemma is_live_iff_all_fresh_witness :
  (AutorebalanceApp.is_live (Sample.live_world "NO")).1 = Ok true.
Proof.
  apply (proj2 (proj1 (proj2 (proj2 (proj2
           (is_live_iff_all_fresh (Sample.live_world "NO"))))))).
  split.
  - eexists. split; [reflexivity|]. reflexivity.
  - intros [|i] sc Hi; [|destruct i; discriminate].
    injection Hi as <-. eexists. split; [reflexivity|]. reflexivity.
Defined.

(** ** Target margin use *)









(** ** Reading the configuration *)

Lemma bind_never_ok_l {A B} (m : M A) (k : A -> M B) :
  (forall w, is_ok (m w).1 = false) ->
  forall w, is_ok (bind m k w).1 = false.
Proof.
  intros Hm w. unfold bind. specialize (Hm w).
  destruct (m w) as [[a| e |] w']; cbn in *; congruence.
Qed.

Lemma bind_never_ok_r {A B} (m : M A) (k : A -> M B) :
  (forall a w, is_ok (k a w).1 = false) ->
  forall w, is_ok (bind m k w).1 = false.
Proof.
  intros Hk w. unfold bind.
  destruct (m w) as [[a| e |] w']; cbn; [apply Hk | reflexivity..].
Qed.

Lemma MISALLOC_FRACTION_missing (getter : res (option Q)) (w : World) :
  AutorebalanceConfig.validated "MISALLOC_FRACTION" getter w
    = (Raise (AttributeError "MISALLOC_FRACTION"), w).
Proof. reflexivity. Qed.

(** C9.  [read_config] does not succeed on a well-formed configuration:
    on the sample file, whose values are all well formed and acceptable
    to the rules, it raises [AttributeError] when it looks up
    [Policy.MISALLOC_FRACTION], a rule the catalogue does not have; and
    for the same reason it returns a record on no configuration at
    all. *)
Theorem read_config_attribute_error :
  (AutorebalanceConfig.read_config Sample.cfg0 Sample.world0).1
    = Raise (AttributeError "MISALLOC_FRACTION")
  /\ Policy.getattr "MISALLOC_FRACTION"
     = Raise (AttributeError "MISALLOC_FRACTION")
  /\ (forall cfg w,
         is_ok (AutorebalanceConfig.read_config cfg w).1 = false).
Proof.
  split; [vm_compute; reflexivity|]. split; [reflexivity|].
  intros cfg. unfold AutorebalanceConfig.read_config, mbind, M_bind.
  do 6 (apply bind_never_ok_r; intros ?).
  apply bind_never_ok_l. intros w.
  rewrite MISALLOC_FRACTION_missing. reflexivity.
Qed.

(** ** The Order Manager *)

Section OrderManagerFacts.
Context (sc : SimpleContract) (now : Q) (om : gmap SimpleContract OMEntry).

Lemma purge_lookup :
  OrderManager.purge now sc om !! sc
  = match om !! sc with
    | Some e => if OrderManager.expired now e then None else Some e
    | None => None
    end.
Proof.
  unfold OrderManager.purge.
  destruct (om !! sc) as [e|] eqn:E; [|exact E].
  destruct (OrderManager.expired now e); [apply lookup_delete_eq | exact E].
Qed.

Lemma purge_lookup_ne sc' :
  sc <> sc' -> OrderManager.purge now sc om !! sc' = om !! sc'.
Proof.
  intros Hne. unfold OrderManager.purge.
  destruct (om !! sc) as [e|]; [|reflexivity].
  destruct (OrderManager.expired now e); [|reflexivity].
  now apply lookup_delete_ne.
Qed.

Lemma purge_kept e :
  om !! sc = Some e -> OrderManager.expired now e = false ->
  OrderManager.purge now sc om = om.
Proof. intros E X. unfold OrderManager.purge. now rewrite E, X. Qed.

Lemma clear_result :
  (OrderManager.clear sc now om).1
  = match om !! sc with
    | Some e =>
        match om_state e with PENDING => Some (om_oid e) | _ => None end
    | None => None
    end.
Proof.
  unfold OrderManager.clear. rewrite purge_lookup.
  destruct (om !! sc) as [e|]; [|reflexivity].
  unfold OrderManager.expired.
  destruct (om_state e) eqn:St; cbn; rewrite ?St; try reflexivity.
  destruct (operator.gt _ _); cbn; rewrite ?St; reflexivity.
Qed.

Lemma clear_lookup :
  (OrderManager.clear sc now om).2 !! sc
  = match om !! sc with
    | Some e =>
        match om_state e with
        | PENDING => None
        | _ => if OrderManager.expired now e then None else Some e
        end
    | None => None
    end.
Proof.
  unfold OrderManager.clear.
  pose proof purge_lookup as P.
  destruct (om !! sc) as [e|] eqn:E.
  - destruct (OrderManager.expired now e) eqn:X; rewrite P; cbn.
    + unfold OrderManager.expired in X.
      destruct (om_state e); try discriminate. exact P.
    + destruct (om_state e); cbn; [apply lookup_delete_eq | exact P..].
  - rewrite P. cbn. exact P.
Qed.

Lemma enter_result oid order :
  (OrderManager.enter sc oid order now om).1
  = match om !! sc with
    | Some e => OrderManager.expired now e
    | None => true
    end.
Proof.
  unfold OrderManager.enter. rewrite purge_lookup.
  destruct (om !! sc) as [e|]; [|reflexivity].
  destruct (OrderManager.expired now e); reflexivity.
Qed.

Lemma enter_lookup oid order :
  (OrderManager.enter sc oid order now om).2 !! sc
  = match om !! sc with
    | Some e =>
        if OrderManager.expired now e
        then Some (mkEntry oid order PENDING now) else Some e
    | None => Some (mkEntry oid order PENDING now)
    end.
Proof.
  unfold OrderManager.enter. pose proof purge_lookup as P.
  destruct (om !! sc) as [e|] eqn:E.
  - destruct (OrderManager.expired now e); rewrite P; cbn.
    + apply lookup_insert_eq.
    + exact P.
  - rewrite P. cbn. apply lookup_insert_eq.
Qed.
Lemma enter_admits oid order :
  (OrderManager.enter sc oid order now om).1 = true ->
  (OrderManager.enter sc oid order now om).2 !! sc
  = Some (mkEntry oid order PENDING now).
Proof.
  rewrite enter_result, enter_lookup.
  destruct (om !! sc) as [e|]; [|reflexivity].
  now intros ->.
Qed.
End OrderManagerFacts.

(** ** Placement *)

Lemma put_check_empty (m : Z) : (0 <? m) && (m <=? Z.of_nat 0) = false.
Proof.
  apply andb_false_iff.
  destruct (Z.ltb_spec 0 m); [right; apply Z.leb_gt; lia | now left].
Qed.

(** What the rendezvous leaves of [w] once [safe_place_order] has its id:
    the request is recorded, and only the queue and the broker's side of
    the exchange have moved. *)
Lemma rendezvous_run (w : World) :
  exists q' b i,
    bind (AutorebalanceApp.reqIds (-1))
      (fun _ => AutorebalanceApp.order_id_queue_get) w
    = (Ok (obtained_id w),
       on_self (set_order_id_queue q')
         (on_env (set_broker b i) (on_env (add_effect (ReqIds (-1))) w))).
Proof.
  destruct w as [[acct prices comp cf [m its] om]
                 [alog slog sin pr eff nxt infl clk tk]].
  unfold obtained_id, AutorebalanceApp.reqIds,
    AutorebalanceApp.order_id_queue_get, AutorebalanceApp.dispatch_id_reply,
    AutorebalanceApp.next_requested_id, AutorebalanceApp.put_nowait,
    try_except.
  unfold_m. cbn.
  destruct its as [|x its]; cbn.
  - destruct infl as [|r infl]; cbn; rewrite put_check_empty; cbn;
      do 3 eexists; reflexivity.
  - do 3 eexists; reflexivity.
Qed.

Lemma bind_run {A B} (m : M A) (k : A -> M B) (w w' : World) (a : A) :
  m w = (Ok a, w') -> bind m k w = k a w'.
Proof. intros E. unfold bind. now rewrite E. Qed.

Lemma bind_assoc {A B C} (m : M A) (f : A -> M B) (g : B -> M C) (w : World) :
  bind (bind m f) g w = bind m (fun x => bind (f x) g) w.
Proof. unfold bind. destruct (m w) as [[a|e|] w']; reflexivity. Qed.

Lemma method_run {A}
  (op : Q -> gmap SimpleContract OMEntry -> A * gmap SimpleContract OMEntry)
  (w : World) :
  OrderManager.method op w
  = (Ok (op (clock (env w) (ticks (env w))) (order_manager (self w))).1,
     on_self
       (set_order_manager
          (op (clock (env w) (ticks (env w))) (order_manager (self w))).2)
       (on_env (set_ticks (S (ticks (env w)))) w)).
Proof. reflexivity. Qed.

Lemma clear_any_untransmitted_order_run (sc : SimpleContract) (w : World) :
  AutorebalanceApp.clear_any_untransmitted_order sc w
  = (Ok tt,
     let r := OrderManager.clear sc (clock (env w) (ticks (env w)))
                (order_manager (self w)) in
     let w' := on_self (set_order_manager r.2)
                 (on_env (set_ticks (S (ticks (env w)))) w) in
     match r.1 with
     | Some old =>
         on_env (add_effect (Sleep 0.1))
           (on_env (add_effect (CancelOrder old)) w')
     | None => w'
     end).
Proof.
  unfold AutorebalanceApp.clear_any_untransmitted_order,
    OrderManager.clear_untransmitted, mbind, M_bind.
  rewrite (bind_run _ _ _ _ _ (method_run _ w)). cbn zeta.
  destruct (OrderManager.clear sc _ _).1; reflexivity.
Qed.

Lemma admitted_enter (w : World) (sc : SimpleContract) oid order :
  (OrderManager.enter sc oid order (clock (env w) (S (ticks (env w))))
     (OrderManager.clear sc (clock (env w) (ticks (env w)))
        (order_manager (self w))).2).1
  = admitted w sc.
Proof.
  rewrite enter_result, clear_lookup. unfold admitted.
  destruct (order_manager (self w) !! sc) as [e|]; [|reflexivity].
  destruct (om_state e) eqn:St; [reflexivity| |].
  - unfold OrderManager.expired. rewrite St. cbn. now rewrite St.
  - destruct (OrderManager.expired (clock (env w) (ticks (env w))) e);
      reflexivity.
Qed.

Lemma retraction_clear (w : World) (sc : SimpleContract) :
  retraction_of w sc
  = match (OrderManager.clear sc (clock (env w) (ticks (env w)))
             (order_manager (self w))).1 with
    | Some old => [CancelOrder old; Sleep 0.1]
    | None => []
    end.
Proof.
  rewrite clear_result. unfold retraction_of.
  destruct (order_manager (self w) !! sc) as [e|]; [|reflexivity].
  destruct (om_state e); reflexivity.
Qed.

Lemma admitted_false_tracked (w : World) (sc : SimpleContract) :
  admitted w sc = false -> is_Some (order_manager (self w) !! sc).
Proof.
  unfold admitted. destruct (order_manager (self w) !! sc); [eauto|discriminate].
Qed.

(** What [safe_place_order] does with an audited order: it returns, the
    calls it adds are the id request, then the retraction, then the
    placement if the entry was admitted, and the log and the Order
    Manager record the admission or the rejection. *)
Lemma safe_place_order_run (w : World) (sc : SimpleContract)
  (order : Order) :
  hasattr_audited order = true ->
  (AutorebalanceApp.safe_place_order sc order w).1 = Ok tt
  /\ effects (env (AutorebalanceApp.safe_place_order sc order w).2)
     = effects (env w)
       ++ ReqIds (-1) :: retraction_of w sc ++ placement_of w sc order
  /\ (if admitted w sc
      then
        app_log (env (AutorebalanceApp.safe_place_order sc order w).2)
          = app_log (env w) ++ [(INFO, PlacedOrder sc order)]
        /\ order_manager
             (self (AutorebalanceApp.safe_place_order sc order w).2) !! sc
           = Some (mkEntry (obtained_id w) order PENDING
                     (clock (env w) (S (ticks (env w)))))
      else
        (exists state,
            app_log (env (AutorebalanceApp.safe_place_order sc order w).2)
            = app_log (env w)
              ++ [(DEBUG, RejectedByManager (symbol sc) state)])
        /\ is_Some (order_manager (self w) !! sc)).
Proof.
  intros Haud.
  destruct (rendezvous_run w) as (q' & b & i & R).
  pose proof (retraction_clear w sc) as Hret.
  pose proof (admitted_enter w sc (obtained_id w) order) as Hadm.
  pose proof (enter_admits sc (clock (env w) (S (ticks (env w))))
                (OrderManager.clear sc (clock (env w) (ticks (env w)))
                   (order_manager (self w))).2 (obtained_id w) order) as Hlook.
  rewrite Hadm in Hlook.
  pose proof (admitted_false_tracked w sc) as Htr.
  unfold placement_of. rewrite Hret. clear Hret.
  remember (AutorebalanceApp.safe_place_order sc order w) as out eqn:Eout.
  unfold AutorebalanceApp.safe_place_order, mbind, M_bind in Eout.
  rewrite (bind_run _ _ w w tt) in Eout
    by (unfold assert, lift; now rewrite Haud).
  rewrite <- (bind_assoc (AutorebalanceApp.reqIds (-1))
                (fun _ => AutorebalanceApp.order_id_queue_get)) in Eout.
  rewrite (bind_run _ _ _ _ _ R) in Eout.
  rewrite (bind_run _ _ _ _ _ (clear_any_untransmitted_order_run sc _))
    in Eout.
  cbn -[OrderManager.clear OrderManager.enter OrderManager.state_of
        obtained_id] in Eout.
  destruct (OrderManager.clear sc (clock (env w) (ticks (env w)))
              (order_manager (self w))) as [cleared om1].
  cbn [fst snd] in *.
  unfold OrderManager.enter_order in Eout.
  rewrite (bind_run _ _ _ _ _ (method_run _ _)) in Eout.
  destruct cleared as [old|];
    cbn -[OrderManager.enter OrderManager.state_of obtained_id] in Eout;
    rewrite Hadm in Eout;
    destruct (admitted w sc); cbn [negb] in Eout;
    try (unfold OrderManager.get_state in Eout;
         rewrite (bind_run _ _ _ _ _ (method_run _ _)) in Eout);
    subst out;
    cbn -[OrderManager.enter OrderManager.state_of obtained_id];
    (split; [reflexivity|]);
    (split; [rewrite <- ?app_assoc; reflexivity|]).
  - split; [reflexivity | now apply Hlook].
  - split; [eexists; reflexivity | now apply Htr].
  - split; [reflexivity | now apply Hlook].
  - split; [eexists; reflexivity | now apply Htr].
Qed.

(** C2, as stated, fails: with a not-yet-transmitted entry for SPY under
    id 5, [safe_place_order] requests the new order id first and
    cancels id 5 afterwards, so the retraction does not come before the
    id is obtained. *)
Lemma safe_place_order_requests_id_first :
  effects (env (AutorebalanceApp.safe_place_order Sample.SPY Sample.audited0
                  Sample.pending_world).2)
  = [ReqIds (-1); CancelOrder 5; Sleep 0.1;
     PlaceOrder 8 Sample.SPY Sample.audited0]
  /\ ~ retracts_before_requesting
        (effects (env (AutorebalanceApp.safe_place_order Sample.SPY
                         Sample.audited0 Sample.pending_world).2)).
Proof.
  assert (E : effects (env (AutorebalanceApp.safe_place_order Sample.SPY
                              Sample.audited0 Sample.pending_world).2)
              = [ReqIds (-1); CancelOrder 5; Sleep 0.1;
                 PlaceOrder 8 Sample.SPY Sample.audited0])
    by (vm_compute; reflexivity).
  split; [exact E|]. rewrite E. intros Hbefore.
  specialize (Hbefore 1%nat 0%nat 5 (-1) eq_refl eq_refl). lia.
Qed.

(** C2, amended.  For an audited order, [safe_place_order] returns
    normally and the calls it makes are, in this order: the request for
    a fresh order id (which it then waits for on the queue, with no
    timeout); the retraction of a not-yet-transmitted entry of the
    instrument, if there is one (the cancel of its id and a pause); and
    last the placement call, made only if the Order Manager admitted the
    new entry, which is then [PENDING] under the obtained id.  If
    admission fails, because an entry exists already, nothing is placed
    and the rejection is logged at debug. *)
Theorem safe_place_order_sequence (w : World) (sc : SimpleContract)
  (order : Order) :
  hasattr_audited order = true ->
  (AutorebalanceApp.safe_place_order sc order w).1 = Ok tt
  /\ effects (env (AutorebalanceApp.safe_place_order sc order w).2)
     = effects (env w)
       ++ ReqIds (-1) :: retraction_of w sc ++ placement_of w sc order
  /\ (if admitted w sc
      then
        app_log (env (AutorebalanceApp.safe_place_order sc order w).2)
          = app_log (env w) ++ [(INFO, PlacedOrder sc order)]
        /\ order_manager
             (self (AutorebalanceApp.safe_place_order sc order w).2) !! sc
           = Some (mkEntry (obtained_id w) order PENDING
                     (clock (env w) (S (ticks (env w)))))
      else
        (exists state,
            app_log (env (AutorebalanceApp.safe_place_order sc order w).2)
            = app_log (env w)
              ++ [(DEBUG, RejectedByManager (symbol sc) state)])
        /\ is_Some (order_manager (self w) !! sc)).
Proof.
  intros Haud.
  destruct (safe_place_order_run w sc order Haud) as (Hret & Hcalls & Hend).
  split; [exact Hret|]. split; [exact Hcalls|].
  destruct (admitted w sc); exact Hend.
Qed.

(** Placing over a not-yet-transmitted entry. *)
Lemma safe_place_order_sequence_witness :
  (AutorebalanceApp.safe_place_order Sample.SPY Sample.audited0
     Sample.pending_world).1 = Ok tt
  /\ effects (env (AutorebalanceApp.safe_place_order Sample.SPY
                     Sample.audited0 Sample.pending_world).2)
     = effects (env Sample.pending_world)
       ++ ReqIds (-1) :: retraction_of Sample.pending_world Sample.SPY
       ++ placement_of Sample.pending_world Sample.SPY Sample.audited0
  /\ (if admitted Sample.pending_world Sample.SPY
      then
        app_log (env (AutorebalanceApp.safe_place_order Sample.SPY
                        Sample.audited0 Sample.pending_world).2)
          = app_log (env Sample.pending_world)
            ++ [(INFO, PlacedOrder Sample.SPY Sample.audited0)]
        /\ order_manager
             (self (AutorebalanceApp.safe_place_order Sample.SPY
                      Sample.audited0 Sample.pending_world).2) !! Sample.SPY
           = Some (mkEntry (obtained_id Sample.pending_world) Sample.audited0
                     PENDING
                     (clock (env Sample.pending_world)
                        (S (ticks (env Sample.pending_world)))))
      else
        (exists state,
            app_log (env (AutorebalanceApp.safe_place_order Sample.SPY
                            Sample.audited0 Sample.pending_world).2)
            = app_log (env Sample.pending_world)
              ++ [(DEBUG, RejectedByManager (symbol Sample.SPY) state)])
        /\ is_Some (order_manager (self Sample.pending_world) !! Sample.SPY)).
Proof.
  apply (safe_place_order_sequence Sample.pending_world Sample.SPY
           Sample.audited0).
  reflexivity.
Defined.

(** ** The audit *)

Lemma audit_order_passes (cfg_armed : bool) (order : Order) :
  passes_audit cfg_armed order ->
  audit_order cfg_armed order = Ok (set_audited order).
Proof.
  intros (Ht & Ha & Hr). unfold audit_order.
  apply String.eqb_eq in Ht. rewrite Ht, Hr.
  destruct Ha as [-> | ->]; [reflexivity|].
  now rewrite orb_true_r.
Qed.

Lemma audit_order_fails (cfg_armed : bool) (order : Order) :
  ~ passes_audit cfg_armed order ->
  audit_order cfg_armed order = Raise AssertionError.
Proof.
  intros Hno. unfold audit_order.
  destruct (String.eqb (orderType order) "MIDPRICE") eqn:Et;
    [|reflexivity].
  destruct (cfg_armed || negb (transmit order)) eqn:Ea; [|reflexivity].
  destruct (outsideRth order) eqn:Er; [reflexivity|].
  exfalso. apply Hno. split; [now apply String.eqb_eq|]. split; [|exact Er].
  apply orb_true_iff in Ea as [Ea|Ea]; [now left | right].
  now apply negb_true_iff in Ea.
Qed.

Lemma passes_audit_dec (cfg_armed : bool) (order : Order) :
  passes_audit cfg_armed order \/ ~ passes_audit cfg_armed order.
Proof.
  unfold passes_audit.
  destruct (String.eqb_spec (orderType order) "MIDPRICE");
    [|right; tauto].
  destruct cfg_armed, (transmit order), (outsideRth order);
    first [ solve [left; split; [assumption|]; split;
                   [(left; reflexivity) || (right; reflexivity)
                   | reflexivity]]
          | right; intros (_ & [?|?] & ?); discriminate ].
Qed.

Lemma safe_place_order_unaudited (sc : SimpleContract) (order : Order)
  (w : World) :
  hasattr_audited order = false ->
  AutorebalanceApp.safe_place_order sc order w = (Raise AssertionError, w).
Proof.
  intros Hno. unfold AutorebalanceApp.safe_place_order, mbind, M_bind, bind,
    assert, lift.
  now rewrite Hno.
Qed.

(** C3. [audit_order] returns the order, marked audited, exactly when
    its type is "MIDPRICE", the process is armed or the order does not
    transmit, and the order does not route outside regular trading
    hours; otherwise its assertion fails.  [safe_place_order] asserts
    the marker first: given an order without it, it fails the assertion
    and has done nothing; hence every placement call it makes is for the
    order it was given, and that order carries the marker. *)
Theorem audit_gates_placement :
  (forall cfg_armed order,
      passes_audit cfg_armed order ->
      audit_order cfg_armed order = Ok (set_audited order)
      /\ hasattr_audited (set_audited order) = true)
  /\ (forall cfg_armed order,
         ~ passes_audit cfg_armed order ->
         audit_order cfg_armed order = Raise AssertionError)
  /\ (forall cfg_armed order order',
         audit_order cfg_armed order = Ok order' ->
         passes_audit cfg_armed order /\ order' = set_audited order)
  /\ (forall sc order w,
         hasattr_audited order = false ->
         AutorebalanceApp.safe_place_order sc order w
           = (Raise AssertionError, w))
  /\ (forall sc order w oid sc' order',
         PlaceOrder oid sc' order'
           ∈ effects (env (AutorebalanceApp.safe_place_order sc order w).2) ->
         PlaceOrder oid sc' order' ∈ effects (env w)
         \/ (sc' = sc /\ order' = order /\ hasattr_audited order = true)).
Proof.
  split; [|split; [|split; [|split]]].
  - intros cfg_armed order Hp. split; [now apply audit_order_passes|].
    reflexivity.
  - apply audit_order_fails.
  - intros cfg_armed order order' E.
    destruct (passes_audit_dec cfg_armed order) as [Hp|Hno].
    + split; [exact Hp|]. rewrite (audit_order_passes _ _ Hp) in E.
      now injection E.
    + rewrite (audit_order_fails _ _ Hno) in E. discriminate.
  - apply safe_place_order_unaudited.
  - intros sc order w oid sc' order' Hin.
    destruct (hasattr_audited order) eqn:Haud.
    + destruct (safe_place_order_run w sc order Haud) as (_ & Hcalls & _).
      rewrite Hcalls in Hin.
      apply elem_of_app in Hin as [Hin|Hin]; [now left|].
      apply elem_of_cons in Hin as [Hin|Hin]; [discriminate|].
      apply elem_of_app in Hin as [Hin|Hin].
      * exfalso. unfold retraction_of in Hin.
        destruct (order_manager (self w) !! sc) as [e|]; [|inversion Hin].
        destruct (om_state e); try (inversion Hin; fail).
        apply elem_of_cons in Hin as [Hin|Hin]; [discriminate|].
        apply elem_of_cons in Hin as [Hin|Hin]; [discriminate|].
        inversion Hin.
      * right. unfold placement_of in Hin.
        destruct (admitted w sc); [|inversion Hin].
        apply list_elem_of_singleton in Hin. injection Hin as -> -> ->.
        auto.
    + rewrite (safe_place_order_unaudited sc order w Haud) in Hin.
      now left.
Qed.

(** The dry-run sample order passes the audit of an unarmed process. *)
Lemma audit_gates_placement_witness :
  audit_order false Sample.order0 = Ok (set_audited Sample.order0)
  /\ hasattr_audited (set_audited Sample.order0) = true.
Proof.
  apply (proj1 audit_gates_placement false Sample.order0).
  repeat split. now right.
Defined.

(** ** The order-status callback *)

Lemma get_nc_tracked (w : World) (oid : Z) (sc : SimpleContract)
  (e : OMEntry) :
  tracks w oid sc e ->
  OrderManager.get_nc oid w = (Ok (Some sc), w).
Proof.
  intros (He & Hoid & Huniq). unfold OrderManager.get_nc. unfold_m. cbn.
  destruct (list_find _ _) as [[i [sc' e']]|] eqn:F.
  - apply list_find_Some in F as (Hi & Hp & _). cbn in Hp.
    apply list_elem_of_lookup_2 in Hi. apply elem_of_map_to_list in Hi.
    now rewrite (Huniq sc' e' Hi Hp).
  - exfalso. apply list_find_None in F.
    apply (proj1 (Forall_forall _ _) F (sc, e)).
    + now apply elem_of_map_to_list.
    + exact Hoid.
Qed.

Lemma set_order_manager_same (a : App) :
  set_order_manager (order_manager a) a = a.
Proof. destruct a. reflexivity. Qed.

(** C5. An order-status callback for an order whose entry is in
    [COOLOFF] returns at once: it logs one line, at debug, and changes
    nothing in the application nor in the calls made.  A callback that
    reports "Filled" for an entry in [TRANSMITTED] moves that entry to
    [COOLOFF], stamped with the time of the move, logs the fill and
    issues exactly one position-refresh request. *)
Theorem orderStatus_cooloff_and_fill (w : World) (oid : Z)
  (sc : SimpleContract) (e : OMEntry) (status : string)
  (filled_qty rem av_fill_px : Q) :
  tracks w oid sc e ->
  (in_cooloff w e ->
   (AutorebalanceApp.orderStatus oid status filled_qty rem av_fill_px w).1
     = Ok tt
   /\ self (AutorebalanceApp.orderStatus oid status filled_qty rem
              av_fill_px w).2 = self w
   /\ effects (env (AutorebalanceApp.orderStatus oid status filled_qty rem
                      av_fill_px w).2) = effects (env w)
   /\ app_log (env (AutorebalanceApp.orderStatus oid status filled_qty rem
                      av_fill_px w).2)
      = app_log (env w) ++ [(DEBUG, DroppingPostFinalization oid)])
  /\ (om_state e = TRANSMITTED ->
      (AutorebalanceApp.orderStatus oid "Filled" filled_qty rem av_fill_px
         w).1 = Ok tt
      /\ order_manager
           (self (AutorebalanceApp.orderStatus oid "Filled" filled_qty rem
                    av_fill_px w).2)
         = <[sc := mkEntry oid (om_order e) COOLOFF
                     (clock (env w) (S (S (ticks (env w)))))]>
             (order_manager (self w))
      /\ effects (env (AutorebalanceApp.orderStatus oid "Filled" filled_qty
                         rem av_fill_px w).2)
         = effects (env w) ++ [ReqPositions]
      /\ app_log (env (AutorebalanceApp.orderStatus oid "Filled" filled_qty
                         rem av_fill_px w).2)
         = app_log (env w) ++ [(INFO, OrderFilled sc (om_order e))]).
Proof.
  intros Htr. pose proof Htr as (He & Hoid & _).
  assert (Hkeep : forall now,
             OrderManager.expired now e = false ->
             OrderManager.purge now sc (order_manager (self w))
             = order_manager (self w))
    by (intros now; apply purge_kept; exact He).
  split.
  - intros (Hst & X0 & X1).
    remember (AutorebalanceApp.orderStatus oid status filled_qty rem
                av_fill_px w) as out eqn:Eout.
    unfold AutorebalanceApp.orderStatus, mbind, M_bind in Eout.
    rewrite (bind_run _ _ _ _ _ (get_nc_tracked w oid sc e Htr)) in Eout.
    unfold OrderManager.get_order, OrderManager.getitem,
      OrderManager.get_state in Eout.
    rewrite (bind_run _ _ _ _ _ (method_run _ _)) in Eout.
    unfold OrderManager.order_of in Eout.
    cbn -[OrderManager.purge OrderManager.state_of] in Eout.
    rewrite (Hkeep _ X0), He in Eout.
    cbn -[OrderManager.purge OrderManager.state_of] in Eout.
    rewrite (bind_run _ _ _ _ _ (method_run _ _)) in Eout.
    unfold OrderManager.state_of in Eout.
    cbn -[OrderManager.purge] in Eout.
    rewrite (Hkeep _ X1), He in Eout.
    cbn -[OrderManager.purge] in Eout.
    rewrite Hst in Eout. cbn in Eout. subst out. cbn.
    split; [reflexivity|]. split; [|split; reflexivity].
    clear. destruct w as [[] ev]. reflexivity.
  - intros Hst.
    assert (Hlive : forall now, OrderManager.expired now e = false)
      by (intros now; unfold OrderManager.expired; now rewrite Hst).
    remember (AutorebalanceApp.orderStatus oid "Filled" filled_qty rem
                av_fill_px w) as out eqn:Eout.
    unfold AutorebalanceApp.orderStatus, mbind, M_bind in Eout.
    rewrite (bind_run _ _ _ _ _ (get_nc_tracked w oid sc e Htr)) in Eout.
    unfold OrderManager.get_order, OrderManager.getitem,
      OrderManager.get_state, OrderManager.finalize_order in Eout.
    rewrite (bind_run _ _ _ _ _ (method_run _ _)) in Eout.
    unfold OrderManager.order_of in Eout.
    cbn -[OrderManager.purge OrderManager.state_of OrderManager.finalize]
      in Eout.
    rewrite (Hkeep _ (Hlive _)), He in Eout.
    cbn -[OrderManager.purge OrderManager.state_of OrderManager.finalize]
      in Eout.
    rewrite (bind_run _ _ _ _ _ (method_run _ _)) in Eout.
    unfold OrderManager.state_of in Eout.
    cbn -[OrderManager.purge OrderManager.finalize] in Eout.
    rewrite (Hkeep _ (Hlive _)), He in Eout.
    cbn -[OrderManager.purge OrderManager.finalize] in Eout.
    rewrite Hst in Eout.
    cbn -[OrderManager.purge OrderManager.finalize] in Eout.
    rewrite bool_decide_eq_false_2 in Eout by discriminate.
    rewrite bool_decide_eq_true_2 in Eout by reflexivity.
    rewrite (bind_run (mret tt) _ _ _ tt eq_refl) in Eout.
    rewrite (bind_run _ _ _ _ _ (method_run _ _)) in Eout.
    unfold OrderManager.finalize in Eout.
    cbn -[OrderManager.purge] in Eout.
    rewrite (Hkeep _ (Hlive _)), He, Hst in Eout.
    cbn in Eout. subst out. cbn. rewrite Hoid.
    repeat split; reflexivity.
Qed.

Lemma tracks_single (oid : Z) (e : OMEntry) (w : World) :
  order_manager (self w) = {[ Sample.SPY := e ]} ->
  om_oid e = oid ->
  tracks w oid Sample.SPY e.
Proof.
  intros Hom Hoid. unfold tracks. rewrite Hom.
  split; [apply lookup_singleton_eq|]. split; [exact Hoid|].
  intros sc' e' Hin _. now apply lookup_singleton_Some in Hin as [<- _].
Qed.

(** A fill reported once the order is in cooloff, and a fill reported for the transmitted order. *)
Lemma orderStatus_cooloff_and_fill_witness :
  ((AutorebalanceApp.orderStatus 5 "Filled" 10 0 100 Sample.cooloff_world).1
     = Ok tt
   /\ self (AutorebalanceApp.orderStatus 5 "Filled" 10 0 100
              Sample.cooloff_world).2 = self Sample.cooloff_world
   /\ effects (env (AutorebalanceApp.orderStatus 5 "Filled" 10 0 100
                      Sample.cooloff_world).2)
      = effects (env Sample.cooloff_world)
   /\ app_log (env (AutorebalanceApp.orderStatus 5 "Filled" 10 0 100
                      Sample.cooloff_world).2)
      = app_log (env Sample.cooloff_world)
        ++ [(DEBUG, DroppingPostFinalization 5)])
  /\ ((AutorebalanceApp.orderStatus 5 "Filled" 10 0 100
         Sample.transmitted_world).1 = Ok tt
      /\ order_manager
           (self (AutorebalanceApp.orderStatus 5 "Filled" 10 0 100
                    Sample.transmitted_world).2)
         = <[Sample.SPY := mkEntry 5 Sample.audited0 COOLOFF 1000]>
             (order_manager (self Sample.transmitted_world))
      /\ effects (env (AutorebalanceApp.orderStatus 5 "Filled" 10 0 100
                         Sample.transmitted_world).2)
         = effects (env Sample.transmitted_world) ++ [ReqPositions]
      /\ app_log (env (AutorebalanceApp.orderStatus 5 "Filled" 10 0 100
                         Sample.transmitted_world).2)
         = app_log (env Sample.transmitted_world)
           ++ [(INFO, OrderFilled Sample.SPY Sample.audited0)]).
Proof.
  split.
  - refine (proj1 (orderStatus_cooloff_and_fill Sample.cooloff_world 5
                     Sample.SPY (mkEntry 5 Sample.audited0 COOLOFF 990)
                     "Filled" 10 0 100 _) _).
    + now apply tracks_single.
    + repeat split.
  - refine (proj2 (orderStatus_cooloff_and_fill Sample.transmitted_world 5
                     Sample.SPY (mkEntry 5 Sample.audited0 TRANSMITTED 990)
                     "Filled" 10 0 100 _) _).
    + now apply tracks_single.
    + reflexivity.
Defined.

(** * Further properties *)

(** ** The three-tier rules, continued *)

Lemma validate_unanswered {T} (rule : ThreeTierGeneric T) (v : T) (w : World) :
  cmp_op rule v (block_level rule) = false ->
  cmp_op rule v (confirm_level rule) = true ->
  stdin (env w) = [] ->
  validate rule v w
  = (Raise EOFError,
     on_env (set_console [] (prompts (env w) ++ [name rule])) w).
Proof.
  intros Hb Hc Hin. unfold validate. rewrite Hb, Hc.
  unfold _confirm_danger, mbind, M_bind, bind, input. now rewrite Hin.
Qed.

(** X1. [validate] returns nothing but its argument, and only when the
    argument does not cross the block level and, if it crosses the
    confirm level, the line read from the console was "YES".  With
    nothing to read, a value of the confirm tier is not let through: the
    prompt ends in [EOFError], and the security logger records
    nothing. *)
Theorem validate_returns_only_permitted (T : Type) (rule : ThreeTierGeneric T)
  (v : T) (w : World) :
  (forall v', (validate rule v w).1 = Ok v' ->
     v' = v
     /\ cmp_op rule v (block_level rule) = false
     /\ (cmp_op rule v (confirm_level rule) = true ->
         exists rest, stdin (env w) = "YES" :: rest))
  /\ (cmp_op rule v (block_level rule) = false ->
      cmp_op rule v (confirm_level rule) = true ->
      stdin (env w) = [] ->
      (validate rule v w).1 = Raise EOFError
      /\ sec_log (env (validate rule v w).2) = sec_log (env w)).
Proof.
  split.
  - intros v' Hret.
    destruct (cmp_op rule v (block_level rule)) eqn:Hb.
    { rewrite validate_block in Hret by assumption. discriminate. }
    destruct (cmp_op rule v (confirm_level rule)) eqn:Hc.
    + destruct (stdin (env w)) as [|ans rest] eqn:Hin.
      { rewrite validate_unanswered in Hret by assumption. discriminate. }
      rewrite (validate_confirm rule v w ans rest) in Hret by assumption.
      cbn zeta in Hret.
      destruct (String.eqb ans "YES") eqn:E; [|discriminate].
      apply String.eqb_eq in E. subst ans. injection Hret as <-.
      split; [reflexivity|]. split; [reflexivity|]. intros _. now exists rest.
    + rewrite validate_pass in Hret by assumption. injection Hret as <-.
      split; [reflexivity|]. split; [reflexivity|]. discriminate.
  - intros Hb Hc Hin. rewrite validate_unanswered by assumption.
    split; reflexivity.
Qed.

(** The order for SPY that is above the confirm level of the quantity
    rule is returned when "YES" is typed. *)
Lemma validate_returns_only_permitted_witness :
  150%Q = 150%Q
  /\ cmp_op Policy.ORDER_QTY 150%Q (block_level Policy.ORDER_QTY) = false
  /\ (cmp_op Policy.ORDER_QTY 150%Q (confirm_level Policy.ORDER_QTY) = true ->
      exists rest, stdin (env (Sample.typed "YES")) = "YES" :: rest).
Proof.
  apply (proj1 (validate_returns_only_permitted Q Policy.ORDER_QTY 150%Q
                  (Sample.typed "YES")) 150%Q).
  reflexivity.
Defined.

Lemma validate_silent_iff {T} (rule : ThreeTierGeneric T) (v : T) (w : World) :
  ((validate rule v w).1 = Ok v
   /\ prompts (env (validate rule v w).2) = prompts (env w))
  <-> cmp_op rule v (block_level rule) = false
      /\ cmp_op rule v (confirm_level rule) = false.
Proof.
  split.
  - intros [Hret Hpr].
    destruct (cmp_op rule v (block_level rule)) eqn:Hb.
    { rewrite validate_block in Hret by assumption. discriminate. }
    split; [reflexivity|].
    destruct (cmp_op rule v (confirm_level rule)) eqn:Hc; [|reflexivity].
    exfalso.
    assert (Hlen : length (prompts (env (validate rule v w).2))
                   = S (length (prompts (env w)))).
    { destruct (stdin (env w)) as [|ans rest] eqn:Hin.
      - rewrite validate_unanswered by assumption. cbn.
        rewrite length_app. cbn. lia.
      - rewrite (validate_confirm rule v w ans rest) by assumption.
        cbn zeta. destruct (String.eqb ans "YES"); cbn;
          rewrite length_app; cbn; lia. }
    rewrite Hpr in Hlen. lia.
  - intros [Hb Hc]. rewrite validate_pass by assumption. split; reflexivity.
Qed.

Lemma validate_rejected_iff {T} (rule : ThreeTierGeneric T) (v : T)
  (w : World) :
  sec_log (env (validate rule v w).2)
    = sec_log (env w) ++ [(ERROR, RejectedByRule (name rule))]
  <-> cmp_op rule v (block_level rule) = true.
Proof.
  split.
  - intros Hlog.
    destruct (cmp_op rule v (block_level rule)) eqn:Hb; [reflexivity|].
    exfalso.
    destruct (cmp_op rule v (confirm_level rule)) eqn:Hc.
    + destruct (stdin (env w)) as [|ans rest] eqn:Hin.
      * rewrite validate_unanswered in Hlog by assumption. cbn in Hlog.
        apply (f_equal length) in Hlog. rewrite length_app in Hlog.
        cbn in Hlog. lia.
      * rewrite (validate_confirm rule v w ans rest) in Hlog by assumption.
        cbn zeta in Hlog. destruct (String.eqb ans "YES"); cbn in Hlog.
        -- apply app_inv_head in Hlog. discriminate.
        -- apply (f_equal length) in Hlog. rewrite length_app in Hlog.
           cbn in Hlog. lia.
    + rewrite validate_pass in Hlog by assumption. cbn in Hlog.
      apply app_inv_head in Hlog.
      destruct (cmp_op rule v (notify_level rule)); discriminate.
  - intros Hb. rewrite validate_block by assumption. reflexivity.
Qed.

Lemma operator_gt_mono_false (v v' bound : Q) :
  (v <= v')%Q -> operator.gt v' bound = false -> operator.gt v bound = false.
Proof.
  rewrite !operator_gt_false. intros Hle Hb. eapply Qle_trans; eassumption.
Qed.

Lemma operator_gt_mono_true (v v' bound : Q) :
  (v <= v')%Q -> operator.gt v bound = true -> operator.gt v' bound = true.
Proof.
  rewrite !operator_gt_spec. intros Hle Hb. eapply Qlt_le_trans; eassumption.
Qed.

Lemma operator_lt_mono_false (v v' bound : Q) :
  (v' <= v)%Q -> operator.lt v' bound = false -> operator.lt v bound = false.
Proof.
  rewrite !operator_lt_false. intros Hle Hb. eapply Qle_trans; eassumption.
Qed.

Lemma operator_lt_mono_true (v v' bound : Q) :
  (v' <= v)%Q -> operator.lt v bound = true -> operator.lt v' bound = true.
Proof.
  rewrite !operator_lt_spec. intros Hle Hb. eapply Qle_lt_trans; eassumption.
Qed.

(** X2. A rule is monotone in the value it checks.  For a maximum rule
    with the default comparison: if a value is returned without a
    prompt, so is every smaller value; if a value is rejected by rule,
    so is every larger value.  For a minimum rule the same holds with
    smaller and larger exchanged. *)
Theorem three_tier_monotone :
  (forall nm b c n msg r,
      ThreeTierNMax nm b c n msg None = Ok r ->
      forall (v v' : Q) (w w' : World),
        (v <= v')%Q ->
        ((validate r v' w).1 = Ok v'
         /\ prompts (env (validate r v' w).2) = prompts (env w) ->
         (validate r v w').1 = Ok v
         /\ prompts (env (validate r v w').2) = prompts (env w'))
        /\ (sec_log (env (validate r v w).2)
              = sec_log (env w) ++ [(ERROR, RejectedByRule (name r))] ->
            (validate r v' w').1 = Raise (SecurityFault (confirm_msg r))
            /\ sec_log (env (validate r v' w').2)
               = sec_log (env w') ++ [(ERROR, RejectedByRule (name r))]))
  /\ (forall nm b c n msg r,
         ThreeTierNMin nm b c n msg None = Ok r ->
         forall (v v' : Q) (w w' : World),
           (v' <= v)%Q ->
           ((validate r v' w).1 = Ok v'
            /\ prompts (env (validate r v' w).2) = prompts (env w) ->
            (validate r v w').1 = Ok v
            /\ prompts (env (validate r v w').2) = prompts (env w'))
           /\ (sec_log (env (validate r v w).2)
                 = sec_log (env w) ++ [(ERROR, RejectedByRule (name r))] ->
               (validate r v' w').1 = Raise (SecurityFault (confirm_msg r))
               /\ sec_log (env (validate r v' w').2)
                  = sec_log (env w') ++ [(ERROR, RejectedByRule (name r))])).
Proof.
  split.
  - intros nm b c n msg r Hr v v' w w' Hle.
    apply ThreeTierNMax_Ok in Hr as [-> _]. split.
    + intros Hsilent. apply validate_silent_iff.
      apply validate_silent_iff in Hsilent as [Hb Hc]. cbn in *.
      split; eapply operator_gt_mono_false; eassumption.
    + intros Hrej. apply validate_rejected_iff in Hrej. cbn in Hrej.
      assert (Hb : cmp_op (mkRule ThreeTierNMaxClass nm b c n msg
                             (default operator.gt None)) v'
                     (block_level (mkRule ThreeTierNMaxClass nm b c n msg
                                     (default operator.gt None))) = true)
        by (cbn; eapply operator_gt_mono_true; eassumption).
      rewrite validate_block by exact Hb. split; reflexivity.
  - intros nm b c n msg r Hr v v' w w' Hle.
    apply ThreeTierNMin_Ok in Hr as [-> _]. split.
    + intros Hsilent. apply validate_silent_iff.
      apply validate_silent_iff in Hsilent as [Hb Hc]. cbn in *.
      split; eapply operator_lt_mono_false; eassumption.
    + intros Hrej. apply validate_rejected_iff in Hrej. cbn in Hrej.
      assert (Hb : cmp_op (mkRule ThreeTierNMinClass nm b c n msg
                             (default operator.lt None)) v'
                     (block_level (mkRule ThreeTierNMinClass nm b c n msg
                                     (default operator.lt None))) = true)
        by (cbn; eapply operator_lt_mono_true; eassumption).
      rewrite validate_block by exact Hb. split; reflexivity.
Qed.

(** At the quantity rule: 40 shares pass silently because 50 do. *)
Lemma three_tier_monotone_witness :
  (validate Policy.ORDER_QTY 40%Q Sample.world0).1 = Ok 40%Q
  /\ prompts (env (validate Policy.ORDER_QTY 40%Q Sample.world0).2)
     = prompts (env Sample.world0).
Proof.
  refine (proj1 (proj1 three_tier_monotone "ORDER SIZE" 250%Q 100%Q 50%Q
                   "Large order size." Policy.ORDER_QTY _
                   40%Q 50%Q Sample.world0 Sample.world0 _) _).
  - reflexivity.
  - discriminate.
  - split; reflexivity.
Defined.

(** ** Shutdown, continued *)

Lemma clear_lookup_ne (sc sc' : SimpleContract) (now : Q)
  (om : gmap SimpleContract OMEntry) :
  sc <> sc' -> (OrderManager.clear sc now om).2 !! sc' = om !! sc'.
Proof.
  intros Hne. unfold OrderManager.clear.
  destruct (OrderManager.purge now sc om !! sc) as [e|].
  - destruct (om_state e); cbn;
      rewrite ?lookup_delete_ne by assumption; now apply purge_lookup_ne.
  - cbn. now apply purge_lookup_ne.
Qed.

Lemma clear_subset (sc k : SimpleContract) (now : Q)
  (om : gmap SimpleContract OMEntry) (e : OMEntry) :
  (OrderManager.clear sc now om).2 !! k = Some e -> om !! k = Some e.
Proof.
  destruct (decide (sc = k)) as [<-|Hne].
  - rewrite clear_lookup. destruct (om !! sc) as [e'|]; [|discriminate].
    destruct (om_state e'); [discriminate| |];
      destruct (OrderManager.expired now e'); congruence.
  - now rewrite clear_lookup_ne.
Qed.

Lemma clear_not_pending (sc : SimpleContract) (now : Q)
  (om : gmap SimpleContract OMEntry) (e : OMEntry) :
  (OrderManager.clear sc now om).2 !! sc = Some e -> om_state e <> PENDING.
Proof.
  rewrite clear_lookup. destruct (om !! sc) as [e'|]; [|discriminate].
  destruct (om_state e') eqn:St; [discriminate| |];
    destruct (OrderManager.expired now e'); intros [= <-]; congruence.
Qed.

(** What retracting the instruments [todo] one after the other leaves:
    entries are only ever removed; no instrument of [todo] keeps a
    [PENDING] entry; the other instruments keep what they had; and the
    ids cancelled are exactly those of the [PENDING] entries of [todo]. *)
Lemma retract_all_spec (todo : list SimpleContract) :
  forall w,
  exists w' calls,
    for_each todo AutorebalanceApp.clear_any_untransmitted_order w
      = (Ok tt, w')
    /\ effects (env w') = effects (env w) ++ calls
    /\ app_log (env w') = app_log (env w)
    /\ (forall sc e, order_manager (self w') !! sc = Some e ->
                     order_manager (self w) !! sc = Some e)
    /\ (forall sc e, sc ∈ todo -> order_manager (self w') !! sc = Some e ->
                     om_state e <> PENDING)
    /\ (forall sc, sc ∉ todo ->
                   order_manager (self w') !! sc = order_manager (self w) !! sc)
    /\ Forall is_retraction calls
    /\ (forall oid,
           CancelOrder oid ∈ calls
           <-> exists sc e,
                 sc ∈ todo /\ order_manager (self w) !! sc = Some e
                 /\ om_state e = PENDING /\ om_oid e = oid).
Proof.
  induction todo as [|sc rest IH]; intros w.
  - exists w, []. cbn. split; [reflexivity|]. split; [now rewrite app_nil_r|].
    split; [reflexivity|]. split; [auto|]. split; [intros ? ? H; inversion H|].
    split; [reflexivity|]. split; [constructor|].
    intros oid. split; [intros H; inversion H|].
    intros (sc & e & H & _). inversion H.
  - cbn [for_each].
    rewrite (bind_run _ _ _ _ _ (clear_any_untransmitted_order_run sc w)).
    cbn zeta.
    pose proof (clear_result sc (clock (env w) (ticks (env w)))
                  (order_manager (self w))) as Hres.
    pose proof (fun k e => clear_subset sc k (clock (env w) (ticks (env w)))
                             (order_manager (self w)) e) as Hsub.
    pose proof (fun e => clear_not_pending sc (clock (env w) (ticks (env w)))
                           (order_manager (self w)) e) as Hnp.
    pose proof (fun k => clear_lookup_ne sc k (clock (env w) (ticks (env w)))
                           (order_manager (self w))) as Hne.
    destruct (OrderManager.clear sc (clock (env w) (ticks (env w)))
                (order_manager (self w))) as [cleared om1].
    cbn [fst snd] in *.
    match goal with
    | |- context [for_each rest _ ?w1] =>
        destruct (IH w1) as (w' & calls & Erun & Heff & Hlog & HA & HB & HC
                             & HF & HD);
        assert (Hom1 : order_manager (self w1) = om1)
          by (destruct cleared; reflexivity);
        assert (Heff1 : effects (env w1)
                        = effects (env w)
                          ++ match cleared with
                             | Some old => [CancelOrder old; Sleep 0.1]
                             | None => []
                             end)
          by (destruct cleared; cbn;
              [rewrite <- app_assoc; reflexivity | now rewrite app_nil_r]);
        assert (Hlog1 : app_log (env w1) = app_log (env w))
          by (destruct cleared; reflexivity)
    end.
    rewrite Hom1 in *.
    exists w', (match cleared with
                | Some old => [CancelOrder old; Sleep 0.1]
                | None => []
                end ++ calls).
    split; [exact Erun|].
    split; [rewrite Heff, Heff1, app_assoc; reflexivity|].
    split; [congruence|].
    split; [intros k e Hk; apply Hsub, HA, Hk|].
    split.
    { intros k e Hin Hk. apply elem_of_cons in Hin as [->|Hin].
      - apply Hnp, HA, Hk.
      - eapply HB; eassumption. }
    split.
    { intros k Hk. apply not_elem_of_cons in Hk as [Hk1 Hk2].
      rewrite (HC k Hk2). apply Hne. congruence. }
    split.
    { apply Forall_app. split; [|exact HF].
      destruct cleared; repeat constructor. }
    intros oid. rewrite elem_of_app, HD. split.
    + intros [Hin | (k & e & Hk & Hke & Hst & Hoid)].
      * exists sc. destruct (order_manager (self w) !! sc) as [e|];
          [|subst cleared; inversion Hin].
        exists e. destruct (om_state e) eqn:St;
          try (subst cleared; inversion Hin; fail).
        subst cleared.
        apply elem_of_cons in Hin as [[= <-]|Hin].
        -- split; [left|]. split; [reflexivity|].
           split; first [assumption | reflexivity].
        -- apply elem_of_cons in Hin as [Hin|Hin]; [discriminate|].
           inversion Hin.
      * exists k, e. split; [now right|]. split; [now apply Hsub|]. auto.
    + intros (k & e & Hk & Hke & Hst & Hoid).
      destruct (decide (sc = k)) as [<-|Hdiff].
      * left. rewrite Hke, Hst in Hres. subst cleared oid. left.
      * right. exists k, e. apply elem_of_cons in Hk as [->|Hk];
          [contradiction|].
        split; [exact Hk|]. split; [now rewrite Hne|]. auto.
Qed.


(** ** The order-id rendezvous, continued *)

Lemma order_id_queue_get_waiting (w : World) (oid : Z) (rest : list Z) :
  items (order_id_queue (self w)) = oid :: rest ->
  AutorebalanceApp.order_id_queue_get w
  = (Ok oid,
     on_self (set_order_id_queue
                (mkQueue (maxsize (order_id_queue (self w))) rest)) w).
Proof.
  intros Hq. unfold AutorebalanceApp.order_id_queue_get. unfold_m. cbn.
  rewrite Hq. cbn. rewrite Hq. reflexivity.
Qed.

(** X4. The id callback and the blocking read are a round trip: an id
    put on the empty queue by [next_requested_id] is the id that
    [order_id_queue.get()] returns next, and the queue is empty again,
    with no call made.  On an empty queue with no reply on its way the
    read never returns, and changes nothing. *)
Theorem order_id_round_trip (w : World) (oid : Z) :
  (items (order_id_queue (self w)) = [] ->
   (bind (AutorebalanceApp.next_requested_id oid)
         (fun _ => AutorebalanceApp.order_id_queue_get) w).1 = Ok oid
   /\ items (order_id_queue
               (self (bind (AutorebalanceApp.next_requested_id oid)
                        (fun _ => AutorebalanceApp.order_id_queue_get) w).2))
      = []
   /\ env (bind (AutorebalanceApp.next_requested_id oid)
             (fun _ => AutorebalanceApp.order_id_queue_get) w).2 = env w)
  /\ (items (order_id_queue (self w)) = [] ->
      inflight_ids (env w) = [] ->
      AutorebalanceApp.order_id_queue_get w = (Blocked, w)).
Proof.
  split.
  - intros Hq.
    rewrite (bind_run _ _ _ _ _ (next_requested_id_empty w oid Hq)).
    rewrite (order_id_queue_get_waiting _ oid []) by reflexivity.
    repeat split.
  - intros Hq Hin. unfold AutorebalanceApp.order_id_queue_get,
      AutorebalanceApp.dispatch_id_reply. unfold_m. cbn.
    rewrite Hq, Hin. cbn. rewrite Hq. reflexivity.
Qed.

(** Id 8 through the queue of the quiet application. *)
Lemma order_id_round_trip_witness :
  (bind (AutorebalanceApp.next_requested_id 8)
        (fun _ => AutorebalanceApp.order_id_queue_get) Sample.world0).1 = Ok 8
  /\ items (order_id_queue
              (self (bind (AutorebalanceApp.next_requested_id 8)
                       (fun _ => AutorebalanceApp.order_id_queue_get)
                       Sample.world0).2)) = []
  /\ env (bind (AutorebalanceApp.next_requested_id 8)
            (fun _ => AutorebalanceApp.order_id_queue_get) Sample.world0).2
     = env Sample.world0.
Proof.
  apply (proj1 (order_id_round_trip Sample.world0 8)). reflexivity.
Defined.

(** ** The order-status callback, continued *)

Lemma get_nc_unknown (w : World) (oid : Z) :
  (forall sc e, order_manager (self w) !! sc = Some e -> om_oid e <> oid) ->
  OrderManager.get_nc oid w = (Ok None, w).
Proof.
  intros Hno. unfold OrderManager.get_nc. unfold_m. cbn.
  destruct (list_find _ _) as [[i [sc' e']]|] eqn:F; [|reflexivity].
  exfalso. apply list_find_Some in F as (Hi & Hp & _). cbn in Hp.
  apply list_elem_of_lookup_2 in Hi. apply elem_of_map_to_list in Hi.
  exact (Hno sc' e' Hi Hp).
Qed.

(** X5. An order-status callback for an order id that the Order Manager
    holds for no instrument fails the assertion of [orderStatus] and
    leaves everything as it was: nothing is logged, called or
    changed. *)
Theorem orderStatus_unknown_order (w : World) (oid : Z) (status : string)
  (filled_qty rem av_fill_px : Q) :
  (forall sc e, order_manager (self w) !! sc = Some e -> om_oid e <> oid) ->
  AutorebalanceApp.orderStatus oid status filled_qty rem av_fill_px w
  = (Raise AssertionError, w).
Proof.
  intros Hno. unfold AutorebalanceApp.orderStatus, mbind, M_bind.
  rewrite (bind_run _ _ _ _ _ (get_nc_unknown w oid Hno)). reflexivity.
Qed.

(** A status for id 7 while only id 5 is tracked. *)
Lemma orderStatus_unknown_order_witness :
  AutorebalanceApp.orderStatus 7 "Filled" 10 0 100 Sample.transmitted_world
  = (Raise AssertionError, Sample.transmitted_world).
Proof.
  apply (orderStatus_unknown_order Sample.transmitted_world 7).
  intros sc e Hin. cbn in Hin.
  apply lookup_singleton_Some in Hin as [_ <-]. discriminate.
Defined.

Section OrderStatusRuns.
Context (w : World) (oid : Z) (sc : SimpleContract) (e : OMEntry)
  (status : string) (filled_qty rem av_fill_px : Q).
Hypothesis Htracks : tracks w oid sc e.

Let t0 := ticks (env w).
Let transmitted : OMEntry :=
  mkEntry oid (om_order e) TRANSMITTED (om_stamp e).

(** The callback for an entry that is [PENDING] or [TRANSMITTED]: the
    entry is [TRANSMITTED] from then on (after [first] clock readings),
    and is finalized on "Filled" and on "Cancelled". *)
Lemma orderStatus_live_run :
  om_state e <> COOLOFF ->
  let first := match om_state e with PENDING => 3%nat | _ => 2%nat end in
  let om1 := match om_state e with
             | PENDING => <[sc := transmitted]> (order_manager (self w))
             | _ => order_manager (self w)
             end in
  let out := AutorebalanceApp.orderStatus oid status filled_qty rem
               av_fill_px w in
  out.1 = Ok tt
  /\ (if String.eqb status "Filled" then
        order_manager (self out.2)
          = <[sc := mkEntry oid (om_order e) COOLOFF
                      (clock (env w) (t0 + first)%nat)]> om1
        /\ effects (env out.2) = effects (env w) ++ [ReqPositions]
        /\ app_log (env out.2)
           = app_log (env w) ++ [(INFO, OrderFilled sc (om_order e))]
      else if String.eqb status "Cancelled" then
        order_manager (self out.2)
          = <[sc := mkEntry oid (om_order e) COOLOFF
                      (clock (env w) (t0 + first)%nat)]> om1
        /\ effects (env out.2) = effects (env w)
        /\ app_log (env out.2)
           = app_log (env w) ++ [(INFO, OrderCanceled sc (om_order e))]
      else
        order_manager (self out.2) = om1
        /\ effects (env out.2) = effects (env w)
        /\ app_log (env out.2)
           = app_log (env w)
             ++ [(DEBUG, OrderStatusIs sc (om_order e) status)]).
Proof.
  intros Hst first om1 out.
  pose proof Htracks as (He & Hoid & _).
  assert (Hlive : forall now, OrderManager.expired now e = false).
  { intros now. unfold OrderManager.expired.
    destruct (om_state e); [reflexivity | reflexivity | contradiction]. }
  assert (Hkeep := fun now => purge_kept sc now (order_manager (self w)) e He
                                (Hlive now)).
  assert (Hkeep1 : forall now, OrderManager.purge now sc om1 = om1).
  { intros now. subst om1. destruct (om_state e); [|apply Hkeep..].
    apply (purge_kept sc now _ transmitted);
      [apply lookup_insert_eq | reflexivity]. }
  assert (Hlook1 : om1 !! sc = Some transmitted
                   \/ (om_state e = TRANSMITTED /\ om1 !! sc = Some e)).
  { subst om1. destruct (om_state e) eqn:St;
      [left; apply lookup_insert_eq | right; auto | contradiction]. }
  subst out.
  remember (AutorebalanceApp.orderStatus oid status filled_qty rem
              av_fill_px w) as out eqn:Eout.
  unfold AutorebalanceApp.orderStatus, mbind, M_bind in Eout.
  rewrite (bind_run _ _ _ _ _ (get_nc_tracked w oid sc e Htracks)) in Eout.
  unfold OrderManager.get_order, OrderManager.getitem,
    OrderManager.get_state, OrderManager.finalize_order,
    OrderManager.transmit_order in Eout.
  rewrite (bind_run _ _ _ _ _ (method_run _ _)) in Eout.
  unfold OrderManager.order_of in Eout.
  cbn -[OrderManager.purge OrderManager.state_of OrderManager.finalize
        OrderManager.transmit] in Eout.
  rewrite Hkeep, He in Eout.
  cbn -[OrderManager.purge OrderManager.state_of OrderManager.finalize
        OrderManager.transmit] in Eout.
  rewrite (bind_run _ _ _ _ _ (method_run _ _)) in Eout.
  unfold OrderManager.state_of in Eout.
  cbn -[OrderManager.purge OrderManager.finalize OrderManager.transmit]
    in Eout.
  rewrite Hkeep, He in Eout.
  cbn -[OrderManager.purge OrderManager.finalize OrderManager.transmit]
    in Eout.
  (* the entry is TRANSMITTED from here on *)
  assert (Emid : exists w1,
    out = (if String.eqb status "Filled" then
             bind (OrderManager.method (OrderManager.finalize sc))
               (fun ok => bind (assert ok) (fun _ =>
                  bind (log INFO (OrderFilled sc (om_order e)))
                    (fun _ => AutorebalanceApp.reqPositions)))
           else if String.eqb status "Cancelled" then
             bind (OrderManager.method (OrderManager.finalize sc))
               (fun ok => bind (assert ok) (fun _ =>
                  log INFO (OrderCanceled sc (om_order e))))
           else log DEBUG (OrderStatusIs sc (om_order e) status)) w1
    /\ order_manager (self w1) = om1
    /\ ticks (env w1) = (t0 + first)%nat
    /\ clock (env w1) = clock (env w)
    /\ effects (env w1) = effects (env w)
    /\ app_log (env w1) = app_log (env w)).
  { subst first om1 t0. destruct (om_state e) eqn:St; [| |contradiction].
    - rewrite bool_decide_eq_false_2 in Eout by discriminate.
      rewrite bool_decide_eq_false_2 in Eout by discriminate.
      rewrite bind_assoc in Eout.
      rewrite (bind_run _ _ _ _ _ (method_run _ _)) in Eout.
      unfold OrderManager.transmit in Eout.
      cbn -[OrderManager.purge OrderManager.finalize] in Eout.
      rewrite Hkeep, He, St in Eout.
      cbn -[OrderManager.purge OrderManager.finalize] in Eout.
      rewrite Hoid in Eout.
      eexists. split; [exact Eout|].
      cbn. repeat split; try reflexivity. lia.
    - rewrite bool_decide_eq_false_2 in Eout by discriminate.
      rewrite bool_decide_eq_true_2 in Eout by reflexivity.
      rewrite (bind_run (mret tt) _ _ _ tt eq_refl) in Eout.
      eexists. split; [exact Eout|].
      cbn. repeat split; try reflexivity. lia. }
  destruct Emid as (w1 & -> & Hom & Htk & Hck & Heff & Hlog).
  clear Eout.
  assert (Hfin : OrderManager.finalize sc (clock (env w1) (ticks (env w1)))
                   (order_manager (self w1))
                 = (true, <[sc := mkEntry oid (om_order e) COOLOFF
                                    (clock (env w) (t0 + first)%nat)]> om1)).
  { unfold OrderManager.finalize. rewrite Hom, Hkeep1, Htk, Hck.
    destruct Hlook1 as [-> | [St ->]]; [reflexivity|].
    rewrite St, Hoid. reflexivity. }
  destruct (String.eqb status "Filled").
  - rewrite (bind_run _ _ _ _ _ (method_run _ _)), Hfin. cbn.
    rewrite Heff, Hlog. auto.
  - destruct (String.eqb status "Cancelled").
    + rewrite (bind_run _ _ _ _ _ (method_run _ _)), Hfin. cbn.
      rewrite Heff, Hlog. auto.
    + cbn. rewrite Hom, Heff, Hlog. auto.
Qed.
End OrderStatusRuns.

(** X6. A callback for an order that was entered but not yet marked
    transmitted is not lost: the entry counts as transmitted from then
    on.  With a status other than "Filled" and "Cancelled" the entry is
    left [TRANSMITTED] and only a debug line is written; with "Filled"
    it goes on to [COOLOFF] and one position refresh is requested. *)
Theorem orderStatus_pending_entry (w : World) (oid : Z) (sc : SimpleContract)
  (e : OMEntry) (status : string) (filled_qty rem av_fill_px : Q) :
  tracks w oid sc e ->
  om_state e = PENDING ->
  (String.eqb status "Filled" = false ->
   String.eqb status "Cancelled" = false ->
   (AutorebalanceApp.orderStatus oid status filled_qty rem av_fill_px w).1
     = Ok tt
   /\ order_manager
        (self (AutorebalanceApp.orderStatus oid status filled_qty rem
                 av_fill_px w).2)
      = <[sc := mkEntry oid (om_order e) TRANSMITTED (om_stamp e)]>
          (order_manager (self w))
   /\ effects (env (AutorebalanceApp.orderStatus oid status filled_qty rem
                      av_fill_px w).2) = effects (env w)
   /\ app_log (env (AutorebalanceApp.orderStatus oid status filled_qty rem
                      av_fill_px w).2)
      = app_log (env w) ++ [(DEBUG, OrderStatusIs sc (om_order e) status)])
  /\ ((AutorebalanceApp.orderStatus oid "Filled" filled_qty rem av_fill_px
         w).1 = Ok tt
      /\ order_manager
           (self (AutorebalanceApp.orderStatus oid "Filled" filled_qty rem
                    av_fill_px w).2) !! sc
         = Some (mkEntry oid (om_order e) COOLOFF
                   (clock (env w) (ticks (env w) + 3)%nat))
      /\ effects (env (AutorebalanceApp.orderStatus oid "Filled" filled_qty
                         rem av_fill_px w).2)
         = effects (env w) ++ [ReqPositions]).
Proof.
  intros Htr Hst. split.
  - intros Hf Hc.
    pose proof (orderStatus_live_run w oid sc e status filled_qty rem
                  av_fill_px Htr) as Hrun.
    cbn zeta in Hrun. rewrite Hst, Hf, Hc in Hrun.
    apply Hrun. discriminate.
  - pose proof (orderStatus_live_run w oid sc e "Filled" filled_qty rem
                  av_fill_px Htr) as Hrun.
    cbn zeta in Hrun. rewrite Hst in Hrun.
    destruct Hrun as (Hret & Hom & Heff & _); [discriminate|].
    split; [exact Hret|]. split; [|exact Heff].
    rewrite Hom. apply lookup_insert_eq.
Qed.

(** The pending order for SPY, reported as submitted and as filled. *)
Lemma orderStatus_pending_entry_witness :
  (AutorebalanceApp.orderStatus 5 "Filled" 10 0 100 Sample.pending_world).1
    = Ok tt
  /\ order_manager
       (self (AutorebalanceApp.orderStatus 5 "Filled" 10 0 100
                Sample.pending_world).2) !! Sample.SPY
     = Some (mkEntry 5 (om_order (mkEntry 5 Sample.audited0 PENDING 990))
               COOLOFF
               (clock (env Sample.pending_world)
                  (ticks (env Sample.pending_world) + 3)%nat))
  /\ effects (env (AutorebalanceApp.orderStatus 5 "Filled" 10 0 100
                     Sample.pending_world).2)
     = effects (env Sample.pending_world) ++ [ReqPositions].
Proof.
  refine (proj2 (orderStatus_pending_entry Sample.pending_world 5
                   Sample.SPY (mkEntry 5 Sample.audited0 PENDING 990)
                   "Filled" 10 0 100 _ _)).
  - now apply tracks_single.
  - reflexivity.
Defined.

(** X7. For an entry that is [TRANSMITTED], a "Cancelled" status
    finalizes the entry to [COOLOFF] without requesting a position
    refresh, and any status other than "Filled" and "Cancelled" changes
    neither the Order Manager nor the calls made: it is logged at debug
    only. *)
Theorem orderStatus_transmitted_entry (w : World) (oid : Z)
  (sc : SimpleContract) (e : OMEntry) (status : string)
  (filled_qty rem av_fill_px : Q) :
  tracks w oid sc e ->
  om_state e = TRANSMITTED ->
  ((AutorebalanceApp.orderStatus oid "Cancelled" filled_qty rem av_fill_px
      w).1 = Ok tt
   /\ order_manager
        (self (AutorebalanceApp.orderStatus oid "Cancelled" filled_qty rem
                 av_fill_px w).2)
      = <[sc := mkEntry oid (om_order e) COOLOFF
                  (clock (env w) (ticks (env w) + 2)%nat)]>
          (order_manager (self w))
   /\ effects (env (AutorebalanceApp.orderStatus oid "Cancelled" filled_qty
                      rem av_fill_px w).2) = effects (env w)
   /\ app_log (env (AutorebalanceApp.orderStatus oid "Cancelled" filled_qty
                      rem av_fill_px w).2)
      = app_log (env w) ++ [(INFO, OrderCanceled sc (om_order e))])
  /\ (String.eqb status "Filled" = false ->
      String.eqb status "Cancelled" = false ->
      (AutorebalanceApp.orderStatus oid status filled_qty rem av_fill_px
         w).1 = Ok tt
      /\ order_manager
           (self (AutorebalanceApp.orderStatus oid status filled_qty rem
                    av_fill_px w).2) = order_manager (self w)
      /\ effects (env (AutorebalanceApp.orderStatus oid status filled_qty
                         rem av_fill_px w).2) = effects (env w)
      /\ app_log (env (AutorebalanceApp.orderStatus oid status filled_qty
                         rem av_fill_px w).2)
         = app_log (env w)
           ++ [(DEBUG, OrderStatusIs sc (om_order e) status)]).
Proof.
  intros Htr Hst. split.
  - pose proof (orderStatus_live_run w oid sc e "Cancelled" filled_qty rem
                  av_fill_px Htr) as Hrun.
    cbn zeta in Hrun. rewrite Hst in Hrun. apply Hrun. discriminate.
  - intros Hf Hc.
    pose proof (orderStatus_live_run w oid sc e status filled_qty rem
                  av_fill_px Htr) as Hrun.
    cbn zeta in Hrun. rewrite Hst, Hf, Hc in Hrun. apply Hrun. discriminate.
Qed.

(** The transmitted order for SPY, reported as cancelled. *)
Lemma orderStatus_transmitted_entry_witness :
  (AutorebalanceApp.orderStatus 5 "Cancelled" 0 10 0
     Sample.transmitted_world).1 = Ok tt
  /\ order_manager
       (self (AutorebalanceApp.orderStatus 5 "Cancelled" 0 10 0
                Sample.transmitted_world).2)
     = <[Sample.SPY :=
           mkEntry 5 (om_order (mkEntry 5 Sample.audited0 TRANSMITTED 990))
             COOLOFF
             (clock (env Sample.transmitted_world)
                (ticks (env Sample.transmitted_world) + 2)%nat)]>
         (order_manager (self Sample.transmitted_world))
  /\ effects (env (AutorebalanceApp.orderStatus 5 "Cancelled" 0 10 0
                     Sample.transmitted_world).2)
     = effects (env Sample.transmitted_world)
  /\ app_log (env (AutorebalanceApp.orderStatus 5 "Cancelled" 0 10 0
                     Sample.transmitted_world).2)
     = app_log (env Sample.transmitted_world)
       ++ [(INFO,
            OrderCanceled Sample.SPY
              (om_order (mkEntry 5 Sample.audited0 TRANSMITTED 990)))].
Proof.
  refine (proj1 (orderStatus_transmitted_entry Sample.transmitted_world 5
                   Sample.SPY (mkEntry 5 Sample.audited0 TRANSMITTED 990)
                   "Cancelled" 0 10 0 _ _)).
  - now apply tracks_single.
  - reflexivity.
Defined.

(** ** Placement, continued *)

Lemma enter_lookup_ne (sc sc' : SimpleContract) (oid : Z) (order : Order)
  (now : Q) (om : gmap SimpleContract OMEntry) :
  sc <> sc' -> (OrderManager.enter sc oid order now om).2 !! sc' = om !! sc'.
Proof.
  intros Hne. unfold OrderManager.enter.
  destruct (OrderManager.purge now sc om !! sc); cbn;
    rewrite ?lookup_insert_ne by assumption; now apply purge_lookup_ne.
Qed.

(** The Order Manager, the clock and the rejection line that
    [safe_place_order] leaves, in terms of the operations of the
    manager it runs. *)
Lemma safe_place_order_manager (w : World) (sc : SimpleContract)
  (order : Order) :
  hasattr_audited order = true ->
  let now0 := clock (env w) (ticks (env w)) in
  let now1 := clock (env w) (S (ticks (env w))) in
  let now2 := clock (env w) (S (S (ticks (env w)))) in
  let om1 := (OrderManager.clear sc now0 (order_manager (self w))).2 in
  let r := OrderManager.enter sc (obtained_id w) order now1 om1 in
  let out := AutorebalanceApp.safe_place_order sc order w in
  clock (env out.2) = clock (env w)
  /\ (if r.1 then
        order_manager (self out.2) = r.2
        /\ ticks (env out.2) = S (S (ticks (env w)))
      else
        order_manager (self out.2) = OrderManager.purge now2 sc r.2
        /\ ticks (env out.2) = S (S (S (ticks (env w))))
        /\ app_log (env out.2)
           = app_log (env w)
             ++ [(DEBUG,
                  RejectedByManager (symbol sc)
                    (om_state <$> OrderManager.purge now2 sc r.2 !! sc))]).
Proof.
  intros Haud now0 now1 now2 om1 r out. subst now0 now1 now2 om1 r out.
  destruct (rendezvous_run w) as (q' & b & i & R).
  remember (AutorebalanceApp.safe_place_order sc order w) as out eqn:Eout.
  unfold AutorebalanceApp.safe_place_order, mbind, M_bind in Eout.
  rewrite (bind_run _ _ w w tt) in Eout
    by (unfold assert, lift; now rewrite Haud).
  rewrite <- (bind_assoc (AutorebalanceApp.reqIds (-1))
                (fun _ => AutorebalanceApp.order_id_queue_get)) in Eout.
  rewrite (bind_run _ _ _ _ _ R) in Eout.
  rewrite (bind_run _ _ _ _ _ (clear_any_untransmitted_order_run sc _))
    in Eout.
  cbn -[OrderManager.clear OrderManager.enter OrderManager.state_of
        obtained_id] in Eout.
  destruct (OrderManager.clear sc (clock (env w) (ticks (env w)))
              (order_manager (self w))) as [cleared om1].
  cbn [fst snd] in *.
  unfold OrderManager.enter_order in Eout.
  rewrite (bind_run _ _ _ _ _ (method_run _ _)) in Eout.
  destruct cleared as [old|];
    cbn -[OrderManager.enter OrderManager.state_of obtained_id] in Eout;
    destruct (OrderManager.enter sc (obtained_id w) order
                (clock (env w) (S (ticks (env w)))) om1) as [[|] om2];
    cbn [negb fst snd] in *;
    try (unfold OrderManager.get_state in Eout;
         rewrite (bind_run _ _ _ _ _ (method_run _ _)) in Eout);
    subst out; cbn -[OrderManager.purge obtained_id];
    repeat split.
Qed.

Lemma clear_untouched (sc : SimpleContract) (now : Q)
  (om : gmap SimpleContract OMEntry) (e : OMEntry) :
  om !! sc = Some e -> om_state e = TRANSMITTED ->
  OrderManager.clear sc now om = (None, om).
Proof.
  intros He St. unfold OrderManager.clear.
  rewrite (purge_kept sc now om e He)
    by (unfold OrderManager.expired; now rewrite St).
  now rewrite He, St.
Qed.

Lemma enter_refused (sc : SimpleContract) (oid : Z) (order : Order) (now : Q)
  (om : gmap SimpleContract OMEntry) (e : OMEntry) :
  om !! sc = Some e -> om_state e = TRANSMITTED ->
  OrderManager.enter sc oid order now om = (false, om).
Proof.
  intros He St. unfold OrderManager.enter.
  rewrite (purge_kept sc now om e He)
    by (unfold OrderManager.expired; now rewrite St).
  now rewrite He.
Qed.

(** X8. [safe_place_order] never touches an order that the broker has:
    for an instrument whose entry is [TRANSMITTED] it places nothing and
    cancels nothing; the only call it makes is the request for an order
    id, the Order Manager is left as it was, and the rejection is logged
    at debug with the state of the entry. *)
Theorem safe_place_order_keeps_transmitted (w : World) (sc : SimpleContract)
  (order : Order) (e : OMEntry) :
  hasattr_audited order = true ->
  order_manager (self w) !! sc = Some e ->
  om_state e = TRANSMITTED ->
  (AutorebalanceApp.safe_place_order sc order w).1 = Ok tt
  /\ effects (env (AutorebalanceApp.safe_place_order sc order w).2)
     = effects (env w) ++ [ReqIds (-1)]
  /\ order_manager (self (AutorebalanceApp.safe_place_order sc order w).2)
     = order_manager (self w)
  /\ app_log (env (AutorebalanceApp.safe_place_order sc order w).2)
     = app_log (env w)
       ++ [(DEBUG, RejectedByManager (symbol sc) (Some TRANSMITTED))].
Proof.
  intros Haud He St.
  destruct (safe_place_order_run w sc order Haud) as (Hret & Hcalls & _).
  pose proof (safe_place_order_manager w sc order Haud) as Hom.
  cbn zeta in Hom.
  rewrite (clear_untouched sc _ _ e He St) in Hom. cbn [snd] in Hom.
  rewrite (enter_refused sc _ _ _ _ e He St) in Hom. cbn [fst snd] in Hom.
  rewrite (purge_kept sc _ _ e He) in Hom
    by (unfold OrderManager.expired; now rewrite St).
  rewrite He in Hom. cbn in Hom. rewrite St in Hom.
  destruct Hom as (_ & Hmap & _ & Hlog).
  split; [exact Hret|]. split; [|split; [exact Hmap | exact Hlog]].
  rewrite Hcalls. unfold retraction_of, placement_of, admitted.
  rewrite He, St. reflexivity.
Qed.

(** A new order for SPY while the earlier one is with the broker. *)
Lemma safe_place_order_keeps_transmitted_witness :
  (AutorebalanceApp.safe_place_order Sample.SPY Sample.audited0
     Sample.transmitted_world).1 = Ok tt
  /\ effects (env (AutorebalanceApp.safe_place_order Sample.SPY
                     Sample.audited0 Sample.transmitted_world).2)
     = effects (env Sample.transmitted_world) ++ [ReqIds (-1)]
  /\ order_manager (self (AutorebalanceApp.safe_place_order Sample.SPY
                            Sample.audited0 Sample.transmitted_world).2)
     = order_manager (self Sample.transmitted_world)
  /\ app_log (env (AutorebalanceApp.safe_place_order Sample.SPY
                     Sample.audited0 Sample.transmitted_world).2)
     = app_log (env Sample.transmitted_world)
       ++ [(DEBUG, RejectedByManager (symbol Sample.SPY) (Some TRANSMITTED))].
Proof.
  apply (safe_place_order_keeps_transmitted Sample.transmitted_world
           Sample.SPY Sample.audited0
           (mkEntry 5 Sample.audited0 TRANSMITTED 990)).
  - reflexivity.
  - apply lookup_singleton_eq.
  - reflexivity.
Defined.

(** X9. Placing a second order for an instrument whose first order was
    admitted and is still not transmitted supersedes the first: the
    second call requests a new id, cancels the id of the first order,
    and only then places the second order, whose entry replaces the
    first as the one [PENDING] entry of the instrument. *)
Theorem safe_place_order_supersedes (w : World) (sc : SimpleContract)
  (first second : Order) :
  hasattr_audited first = true ->
  hasattr_audited second = true ->
  admitted w sc = true ->
  let w1 := (AutorebalanceApp.safe_place_order sc first w).2 in
  let out := AutorebalanceApp.safe_place_order sc second w1 in
  out.1 = Ok tt
  /\ effects (env out.2)
     = effects (env w1)
       ++ [ReqIds (-1); CancelOrder (obtained_id w); Sleep 0.1;
           PlaceOrder (obtained_id w1) sc second]
  /\ exists stamp,
      order_manager (self out.2) !! sc
      = Some (mkEntry (obtained_id w1) second PENDING stamp).
Proof.
  intros H1 H2 Hadm w1 out. subst out.
  destruct (safe_place_order_run w sc first H1) as (_ & _ & Hend).
  rewrite Hadm in Hend. destruct Hend as [_ Hentry]. fold w1 in Hentry.
  destruct (safe_place_order_run w1 sc second H2) as (Hret & Hcalls & Hend).
  assert (Hadm1 : admitted w1 sc = true)
    by (unfold admitted; now rewrite Hentry).
  rewrite Hadm1 in Hend. destruct Hend as [_ Hentry2].
  split; [exact Hret|]. split; [|eauto].
  rewrite Hcalls. unfold retraction_of, placement_of.
  rewrite Hentry, Hadm1. reflexivity.
Qed.

(** Two orders for SPY in a row on the quiet application. *)
Lemma safe_place_order_supersedes_witness :
  (AutorebalanceApp.safe_place_order Sample.SPY Sample.audited0
     (AutorebalanceApp.safe_place_order Sample.SPY Sample.audited0
        Sample.world0).2).1 = Ok tt
  /\ effects (env (AutorebalanceApp.safe_place_order Sample.SPY
                     Sample.audited0
                     (AutorebalanceApp.safe_place_order Sample.SPY
                        Sample.audited0 Sample.world0).2).2)
     = effects (env (AutorebalanceApp.safe_place_order Sample.SPY
                       Sample.audited0 Sample.world0).2)
       ++ [ReqIds (-1); CancelOrder (obtained_id Sample.world0); Sleep 0.1;
           PlaceOrder
             (obtained_id (AutorebalanceApp.safe_place_order Sample.SPY
                             Sample.audited0 Sample.world0).2)
             Sample.SPY Sample.audited0]
  /\ exists stamp,
      order_manager
        (self (AutorebalanceApp.safe_place_order Sample.SPY Sample.audited0
                 (AutorebalanceApp.safe_place_order Sample.SPY
                    Sample.audited0 Sample.world0).2).2) !! Sample.SPY
      = Some (mkEntry
                (obtained_id (AutorebalanceApp.safe_place_order Sample.SPY
                                Sample.audited0 Sample.world0).2)
                Sample.audited0 PENDING stamp).
Proof.
  apply (safe_place_order_supersedes Sample.world0 Sample.SPY
           Sample.audited0 Sample.audited0); reflexivity.
Defined.

(** X10. An order that [safe_place_order] has placed and that the broker
    then reports as "Filled", before any other callback for it, ends in
    [COOLOFF]: provided no other instrument is tracked under the id
    obtained, the callback succeeds, the entry of the instrument is the
    placed order in [COOLOFF], and the calls made in all are the id
    request, the retraction, the placement and one position refresh. *)
Theorem placed_order_filled (w : World) (sc : SimpleContract) (order : Order)
  (filled_qty rem av_fill_px : Q) :
  hasattr_audited order = true ->
  admitted w sc = true ->
  (forall sc' e', sc' <> sc -> order_manager (self w) !! sc' = Some e' ->
                  om_oid e' <> obtained_id w) ->
  let w1 := (AutorebalanceApp.safe_place_order sc order w).2 in
  let out := AutorebalanceApp.orderStatus (obtained_id w) "Filled"
               filled_qty rem av_fill_px w1 in
  out.1 = Ok tt
  /\ order_manager (self out.2) !! sc
     = Some (mkEntry (obtained_id w) order COOLOFF
               (clock (env w) (ticks (env w) + 5)%nat))
  /\ effects (env out.2)
     = effects (env w)
       ++ ReqIds (-1) :: retraction_of w sc
       ++ [PlaceOrder (obtained_id w) sc order; ReqPositions].
Proof.
  intros Haud Hadm Hfresh w1 out. subst out.
  destruct (safe_place_order_run w sc order Haud) as (_ & Hcalls & Hend).
  rewrite Hadm in Hend. destruct Hend as [_ Hentry]. fold w1 in Hentry, Hcalls.
  pose proof (safe_place_order_manager w sc order Haud) as Hom.
  cbn zeta in Hom. rewrite admitted_enter, Hadm in Hom.
  destruct Hom as (Hclock & Hmap & Hticks). fold w1 in Hclock, Hmap, Hticks.
  assert (Htr : tracks w1 (obtained_id w) sc
                  (mkEntry (obtained_id w) order PENDING
                     (clock (env w) (S (ticks (env w)))))).
  { split; [exact Hentry|]. split; [reflexivity|].
    intros sc' e' Hin Hoid. destruct (decide (sc' = sc)) as [->|Hne];
      [reflexivity|]. exfalso.
    rewrite Hmap, enter_lookup_ne, clear_lookup_ne in Hin by congruence.
    exact (Hfresh sc' e' Hne Hin Hoid). }
  pose proof (orderStatus_live_run w1 (obtained_id w) sc _ "Filled"
                filled_qty rem av_fill_px Htr) as Hrun.
  cbn zeta in Hrun. cbn [om_state om_order] in Hrun.
  destruct Hrun as (Hret & Hfin & Heff & _); [discriminate|].
  cbn in Hfin, Heff.
  split; [exact Hret|]. split.
  - rewrite Hfin, lookup_insert_eq, Hclock, Hticks.
    do 3 f_equal. lia.
  - rewrite Heff, Hcalls. unfold placement_of. rewrite Hadm.
    rewrite <- !app_assoc. cbn. rewrite <- !app_assoc. reflexivity.
Qed.

(** An order for SPY placed on the quiet application and filled. *)
Lemma placed_order_filled_witness :
  (AutorebalanceApp.orderStatus (obtained_id Sample.world0) "Filled" 10 0 100
     (AutorebalanceApp.safe_place_order Sample.SPY Sample.audited0
        Sample.world0).2).1 = Ok tt
  /\ order_manager
       (self (AutorebalanceApp.orderStatus (obtained_id Sample.world0)
                "Filled" 10 0 100
                (AutorebalanceApp.safe_place_order Sample.SPY Sample.audited0
                   Sample.world0).2).2) !! Sample.SPY
     = Some (mkEntry (obtained_id Sample.world0) Sample.audited0 COOLOFF
               (clock (env Sample.world0)
                  (ticks (env Sample.world0) + 5)%nat))
  /\ effects (env (AutorebalanceApp.orderStatus (obtained_id Sample.world0)
                     "Filled" 10 0 100
                     (AutorebalanceApp.safe_place_order Sample.SPY
                        Sample.audited0 Sample.world0).2).2)
     = effects (env Sample.world0)
       ++ ReqIds (-1) :: retraction_of Sample.world0 Sample.SPY
       ++ [PlaceOrder (obtained_id Sample.world0) Sample.SPY Sample.audited0;
           ReqPositions].
Proof.
  apply (placed_order_filled Sample.world0 Sample.SPY Sample.audited0
           10 0 100).
  - reflexivity.
  - reflexivity.
  - intros sc' e' _ Hin. cbn in Hin. rewrite lookup_empty in Hin.
    discriminate.
Defined.

(** ** Liveness and target margin use, continued *)

Lemma py_max_cases (a b : Q) :
  (py_max a b = a /\ (b <= a)%Q) \/ (py_max a b = b /\ (a < b)%Q).
Proof.
  unfold py_max. destruct (operator.gt b a) eqn:E.
  - right. split; [reflexivity|]. now apply operator_gt_spec.
  - left. split; [reflexivity|]. now apply operator_gt_false.
Qed.

Lemma pricing_age_from_max (todo : list SimpleContract) :
  forall (age : Q) (w : World),
  exists r n,
    AutorebalanceApp.pricing_age_from age todo w
      = (Ok r, on_env (set_ticks n) w)
    /\ (r = Inf <-> exists sc, sc ∈ todo
                              /\ portfolio_prices (self w) !! sc = None)
    /\ (forall a, r = Fin a ->
          (age <= a)%Q
          /\ (forall (i : nat) sc bar,
                 todo !! i = Some sc ->
                 portfolio_prices (self w) !! sc = Some bar ->
                 (clock (env w) (ticks (env w) + i)%nat
                    - inject_Z (OHLCBar.t bar) <= a)%Q)
          /\ (a = age
              \/ exists (i : nat) sc bar,
                   todo !! i = Some sc
                   /\ portfolio_prices (self w) !! sc = Some bar
                   /\ a = (clock (env w) (ticks (env w) + i)%nat
                             - inject_Z (OHLCBar.t bar))%Q)).
Proof.
  induction todo as [|sc rest IH]; intros age w.
  - exists (Fin age), (ticks (env w)). cbn.
    split; [now rewrite <- ticked_id|]. split.
    + split; [discriminate|]. intros (sc & H & _). inversion H.
    + intros a [= <-]. split; [apply Qle_refl|].
      split; [intros i sc bar H; destruct i; discriminate | now left].
  - cbn [AutorebalanceApp.pricing_age_from]. unfold_m. cbn.
    destruct (portfolio_prices (self w) !! sc) as [bar|] eqn:E.
    + match goal with
      | |- context [AutorebalanceApp.pricing_age_from ?a rest ?w1] =>
          destruct (IH a w1) as (r & n & Er & Hinf & Hfin)
      end.
      exists r, n. split; [exact Er|]. cbn in Hinf, Hfin. split.
      * rewrite Hinf. split.
        -- intros (sc' & Hin & Hnone). exists sc'. split; [now right|auto].
        -- intros (sc' & Hin & Hnone).
           apply elem_of_cons in Hin as [->|Hin]; [congruence|].
           exists sc'. auto.
      * intros a Ha. destruct (Hfin a Ha) as (Hge & Hall & Hatt).
        set (x := (clock (env w) (ticks (env w))
                     - inject_Z (OHLCBar.t bar))%Q) in *.
        destruct (py_max_cases age x) as [[Hm Hle]|[Hm Hlt]];
          rewrite Hm in Hge, Hatt.
        -- split; [exact Hge|]. split.
           ++ intros [|i] sc' bar' Hi Hb.
              ** injection Hi as <-. rewrite E in Hb. injection Hb as <-.
                 rewrite Nat.add_0_r. fold x.
                 eapply Qle_trans; eassumption.
              ** rewrite Nat.add_succ_r. eapply Hall; eassumption.
           ++ destruct Hatt as [->|(i & sc' & bar' & Hi & Hb & ->)];
                [now left|].
              right. exists (S i), sc', bar'. rewrite Nat.add_succ_r. auto.
        -- split; [eapply Qle_trans; [apply Qlt_le_weak; exact Hlt|exact Hge]|].
           split.
           ++ intros [|i] sc' bar' Hi Hb.
              ** injection Hi as <-. rewrite E in Hb. injection Hb as <-.
                 rewrite Nat.add_0_r. exact Hge.
              ** rewrite Nat.add_succ_r. eapply Hall; eassumption.
           ++ right.
              destruct Hatt as [->|(i & sc' & bar' & Hi & Hb & ->)].
              ** exists 0%nat, sc, bar. rewrite Nat.add_0_r. auto.
              ** exists (S i), sc', bar'. rewrite Nat.add_succ_r. auto.
    + exists Inf, (ticks (env w)). split; [now rewrite <- ticked_id|].
      split; [|discriminate].
      split; [|reflexivity]. intros _. exists sc. split; [left|exact E].
Qed.

(** X11. [pricing_age] is infinite exactly when some instrument of the
    target composition has no price sample.  Otherwise it is the age of
    the oldest sample, each age taken at the clock reading made for it,
    and never less than zero: it is at least every sample's age, and it
    is zero or the age of one of the samples. *)
Theorem pricing_age_is_oldest (w : World) :
  exists r n,
    AutorebalanceApp.pricing_age w = (Ok r, on_env (set_ticks n) w)
    /\ (r = Inf
        <-> exists sc, sc ∈ contracts (target_composition (self w))
                       /\ portfolio_prices (self w) !! sc = None)
    /\ (forall a, r = Fin a ->
          (0 <= a)%Q
          /\ (forall (i : nat) sc bar,
                 contracts (target_composition (self w)) !! i = Some sc ->
                 portfolio_prices (self w) !! sc = Some bar ->
                 (clock (env w) (ticks (env w) + i)%nat
                    - inject_Z (OHLCBar.t bar) <= a)%Q)
          /\ (a = 0.0%Q
              \/ exists (i : nat) sc bar,
                   contracts (target_composition (self w)) !! i = Some sc
                   /\ portfolio_prices (self w) !! sc = Some bar
                   /\ a = (clock (env w) (ticks (env w) + i)%nat
                             - inject_Z (OHLCBar.t bar))%Q)).
Proof.
  unfold AutorebalanceApp.pricing_age. unfold_m. cbn.
  destruct (pricing_age_from_max (contracts (target_composition (self w)))
              0.0%Q w) as (r & n & Er & Hinf & Hfin).
  exists r, n. split; [exact Er|]. split; [exact Hinf|].
  intros a Ha. destruct (Hfin a Ha) as (Hge & Hall & Hatt).
  split; [|split; assumption].
  eapply Qle_trans; [|exact Hge]. discriminate.
Qed.







(** ** The callbacks and the construction of orders *)

(** *** Dictionaries *)

Section DictFacts.
Context {K V : Type} `{EqDecision K}.
Implicit Types (d : list (K * V)) (k : K) (v : V).

Lemma dict_get_set_eq k v d : Dict.get k (Dict.set k v d) = Some v.
Proof.
  induction d as [|[k' v'] d IH]; cbn.
  - now rewrite decide_True.
  - destruct (decide (k' = k)) as [->|Hne]; cbn.
    + now rewrite decide_True.
    + now rewrite decide_False.
Qed.

Lemma dict_get_set_ne k k' v d :
  k <> k' -> Dict.get k' (Dict.set k v d) = Dict.get k' d.
Proof.
  intros Hne. induction d as [|[k0 v0] d IH]; cbn.
  - now rewrite decide_False.
  - destruct (decide (k0 = k)) as [->|Hne0]; cbn.
    + now rewrite !decide_False.
    + now rewrite IH.
Qed.

Lemma dict_get_None k d : Dict.get k d = None <-> k ∉ Dict.keys d.
Proof.
  induction d as [|[k' v'] d IH]; cbn.
  - split; [intros _; apply not_elem_of_nil | reflexivity].
  - rewrite not_elem_of_cons. destruct (decide (k' = k)) as [->|Hne].
    + split; [discriminate | now intros [? _]].
    + rewrite IH. split; [now split | now intros [_ ?]].
Qed.

Lemma dict_get_elem k v d : Dict.get k d = Some v -> (k, v) ∈ d.
Proof.
  induction d as [|[k' v'] d IH]; cbn; [discriminate|].
  destruct (decide (k' = k)) as [->|Hne].
  - intros [= ->]. apply elem_of_cons. now left.
  - intros E. apply elem_of_cons. right. auto.
Qed.

Lemma dict_elem_get k v d :
  NoDup (Dict.keys d) -> (k, v) ∈ d -> Dict.get k d = Some v.
Proof.
  induction d as [|[k' v'] d IH]; cbn; intros Hnd Hin.
  - now apply elem_of_nil in Hin.
  - apply NoDup_cons in Hnd as [Hk Hnd].
    apply elem_of_cons in Hin as [[= <- <-]|Hin].
    + now rewrite decide_True.
    + rewrite decide_False; [auto|].
      intros ->. apply Hk. apply list_elem_of_fmap. now exists (k, v).
Qed.

Lemma dict_set_new k v d : k ∉ Dict.keys d -> Dict.set k v d = d ++ [(k, v)].
Proof.
  induction d as [|[k' v'] d IH]; cbn; [reflexivity|].
  rewrite not_elem_of_cons. intros [Hne Hk].
  rewrite decide_False by congruence. now rewrite IH.
Qed.

Lemma dict_keys_set_old k v d :
  k ∈ Dict.keys d -> Dict.keys (Dict.set k v d) = Dict.keys d.
Proof.
  induction d as [|[k' v'] d IH]; cbn; intros Hin.
  - now apply elem_of_nil in Hin.
  - destruct (decide (k' = k)) as [->|Hne]; cbn; [reflexivity|].
    apply elem_of_cons in Hin as [->|Hin]; [congruence|].
    f_equal. now apply IH.
Qed.

Lemma dict_keys_set k v d :
  Dict.keys (Dict.set k v d)
  = if bool_decide (k ∈ Dict.keys d) then Dict.keys d else Dict.keys d ++ [k].
Proof.
  case_bool_decide as Hin.
  - now apply dict_keys_set_old.
  - rewrite dict_set_new by assumption. unfold Dict.keys.
    now rewrite map_app.
Qed.

Lemma dict_keys_set_elem k k' v d :
  k' ∈ Dict.keys (Dict.set k v d) <-> k' = k \/ k' ∈ Dict.keys d.
Proof.
  rewrite dict_keys_set. case_bool_decide as Hin.
  - split; [now right | intros [->|?]; assumption].
  - rewrite elem_of_app, list_elem_of_singleton. tauto.
Qed.

Lemma dict_keys_set_NoDup k v d :
  NoDup (Dict.keys d) -> NoDup (Dict.keys (Dict.set k v d)).
Proof.
  intros Hnd. rewrite dict_keys_set. case_bool_decide as Hin; [assumption|].
  apply NoDup_app. split; [assumption|]. split.
  - intros x Hx Hx'. apply list_elem_of_singleton in Hx'. now subst.
  - apply NoDup_singleton.
Qed.

Lemma dict_update_cons k v (other d : list (K * V)) :
  Dict.update ((k, v) :: other) d = Dict.update other (Dict.set k v d).
Proof. reflexivity. Qed.

Lemma dict_keys_update_elem k (other d : list (K * V)) :
  k ∈ Dict.keys (Dict.update other d)
  <-> k ∈ Dict.keys d \/ k ∈ Dict.keys other.
Proof.
  revert d. induction other as [|[k' v'] other IH]; intros d.
  - cbn. split; [now left | intros [?|Hn]; [assumption|]].
    now apply elem_of_nil in Hn.
  - rewrite dict_update_cons, IH, dict_keys_set_elem. cbn.
    rewrite elem_of_cons. tauto.
Qed.

Lemma dict_keys_update_NoDup (other d : list (K * V)) :
  NoDup (Dict.keys d) -> NoDup (Dict.keys (Dict.update other d)).
Proof.
  revert d. induction other as [|[k' v'] other IH]; intros d Hnd.
  - exact Hnd.
  - rewrite dict_update_cons. apply IH. now apply dict_keys_set_NoDup.
Qed.

Lemma dict_get_update k (other d : list (K * V)) :
  NoDup (Dict.keys other) ->
  Dict.get k (Dict.update other d)
  = match Dict.get k other with
    | Some v => Some v
    | None => Dict.get k d
    end.
Proof.
  revert d. induction other as [|[k' v'] other IH]; intros d Hnd.
  - reflexivity.
  - cbn in Hnd. apply NoDup_cons in Hnd as [Hk Hnd].
    rewrite dict_update_cons, IH by assumption. cbn.
    destruct (decide (k' = k)) as [->|Hne].
    + apply dict_get_None in Hk. rewrite Hk. apply dict_get_set_eq.
    + now rewrite dict_get_set_ne.
Qed.
End DictFacts.

Ltac unfold_p :=
  unfold mbind, P_bind, bindP, mret, P_ret, retP, getsP, modifyP, logP,
    liftRes, raiseP, getitemP.

Lemma bindP_run {A B} (m : P A) (k : A -> P B) (p p' : Process) (a : A) :
  m p = (Ok a, p') -> bindP m k p = k a p'.
Proof. intros E. unfold bindP. now rewrite E. Qed.

Lemma bindP_raise {A B} (m : P A) (k : A -> P B) (p p' : Process) (e : exn) :
  m p = (Raise e, p') -> bindP m k p = (Raise e, p').
Proof. intros E. unfold bindP. now rewrite E. Qed.

Lemma py_int_whole (z : Z) : py_int (inject_Z z) = z.
Proof. unfold py_int. cbn. apply Z.quot_1_r. Qed.

Lemma isclose_refl (x : Q) : isclose x x = true.
Proof.
  unfold isclose. replace (Qeq_bool x x) with true; [reflexivity|].
  symmetry. apply Qeq_bool_iff. reflexivity.
Qed.

(** X14. A stock position reported as a whole number of shares is
    recorded under the instrument of the contract, replacing what was
    recorded for it before; the positions recorded for other
    instruments, the portfolio, the subscriptions and the world are
    left as they were. *)
Theorem position_records (p : Process) (account : string)
  (contract : Contract) (shares : Z) (avg_cost : Q) :
  secType contract = "STK" ->
  exists acc,
    Callbacks.position account contract (inject_Z shares) avg_cost p
      = (Ok tt, on_desk (set_position_acc acc) p)
    /\ Dict.get (identity contract) acc = Some shares
    /\ forall sc, sc <> identity contract ->
         Dict.get sc acc = Dict.get sc (position_acc (desk p)).
Proof.
  intros Hstk.
  exists (Dict.set (identity contract) shares (position_acc (desk p))).
  split; [|split].
  - unfold Callbacks.position. rewrite Hstk. cbn.
    unfold_p. cbn. rewrite py_int_whole, isclose_refl. reflexivity.
  - apply dict_get_set_eq.
  - intros sc Hne. apply dict_get_set_ne. congruence.
Qed.

(** One hundred shares of SPY reported to the fresh desk. *)
Lemma position_records_witness :
  exists acc,
    Callbacks.position "DU1" (SampleDesk.stock Sample.SPY) (inject_Z 100) 0
      SampleDesk.process0
      = (Ok tt, on_desk (set_position_acc acc) SampleDesk.process0)
    /\ Dict.get Sample.SPY acc = Some 100
    /\ forall sc, sc <> Sample.SPY ->
         Dict.get sc acc = Dict.get sc [].
Proof.
  apply (position_records SampleDesk.process0 "DU1"
           (SampleDesk.stock Sample.SPY) 100 0).
  reflexivity.
Defined.

Lemma py_abs_nonneg (y : Q) : (0 <= y)%Q -> py_abs y = y.
Proof.
  intros H. unfold py_abs. apply Qle_bool_iff in H. now rewrite H.
Qed.

Lemma py_abs_neg (y : Q) : (y < 0)%Q -> py_abs y = (- y)%Q.
Proof.
  intros H. unfold py_abs. destruct (Qle_bool 0 y) eqn:E; [|reflexivity].
  apply Qle_bool_iff in E. lra.
Qed.

Lemma py_abs_cases (y : Q) :
  ((0 <= y)%Q /\ py_abs y = y) \/ ((y < 0)%Q /\ py_abs y = (- y)%Q).
Proof.
  destruct (Qlt_le_dec y 0) as [H|H].
  - right. split; [exact H | now apply py_abs_neg].
  - left. split; [exact H | now apply py_abs_nonneg].
Qed.

Lemma py_int_between (x : Q) :
  ((0 <= x)%Q /\ (0 <= inject_Z (py_int x) <= x)%Q)
  \/ ((x < 0)%Q /\ (x <= inject_Z (py_int x) <= 0)%Q).
Proof.
  destruct x as [n d]. unfold py_int. cbn [Qnum Qden].
  unfold Qle, Qlt, inject_Z. cbn [Qnum Qden].
  rewrite !Z.mul_1_r. cbn [Z.mul].
  destruct (Z_lt_le_dec n 0) as [Hn|Hn].
  - right. split; [lia|]. split.
    + pose proof (Z.mul_quot_ge n (Z.pos d)) as H. lia.
    + pose proof (Z.quot_opp_l n (Z.pos d)) as H.
      pose proof (Z.quot_pos (- n) (Z.pos d)) as H'. lia.
  - left. split; [lia|]. split.
    + apply Z.quot_pos; lia.
    + pose proof (Z.mul_quot_le n (Z.pos d)) as H. lia.
Qed.

Lemma isclose_far (x : Q) :
  (1e-9 * py_abs x < py_abs (x - inject_Z (py_int x)))%Q ->
  isclose x (inject_Z (py_int x)) = false.
Proof.
  unfold isclose.
  assert (Heps : (0 < 1e-9)%Q) by reflexivity.
  generalize dependent (1e-9)%Q. intros eps Heps Hfar.
  set (i := inject_Z (py_int x)) in *.
  assert (Hi : ((0 <= x)%Q /\ (0 <= i <= x)%Q)
               \/ ((x < 0)%Q /\ (x <= i <= 0)%Q)) by apply py_int_between.
  assert (Hne : ~ (x == i)%Q).
  { intros E. destruct (py_abs_cases x) as [[? Ex]|[? Ex]];
      destruct (py_abs_cases (x - i)) as [[? Ed]|[? Ed]];
      rewrite Ex, Ed in Hfar; nra. }
  replace (Qeq_bool x i) with false
    by (symmetry; apply not_true_is_false; intros E;
        apply Qeq_bool_iff in E; contradiction).
  cbn [orb].
  assert (Hle : forall a b, ~ (a <= b)%Q -> Qle_bool a b = false).
  { intros a b H. apply not_true_is_false. intros E.
    apply Qle_bool_iff in E. contradiction. }
  rewrite !Hle; [reflexivity| | |];
    destruct (py_abs_cases x) as [[? Ex]|[? Ex]];
    destruct (py_abs_cases (x - i)) as [[? Ed]|[? Ed]];
    destruct (py_abs_cases (i - x)) as [[? Ed']|[? Ed']];
    try destruct (py_abs_cases (eps * i)) as [[? Ei]|[? Ei]];
    try destruct (py_abs_cases (eps * x)) as [[? Ex']|[? Ex']];
    rewrite ?Ex, ?Ed, ?Ed', ?Ei, ?Ex' in *; nra.
Qed.

(** X15. A stock position that is not a whole number of shares, by more
    than a billionth of its size, fails the assertion of [position] and
    is not recorded. *)
Theorem position_rejects_fraction (p : Process) (account : string)
  (contract : Contract) (x avg_cost : Q) :
  secType contract = "STK" ->
  (1e-9 * py_abs x < py_abs (x - inject_Z (py_int x)))%Q ->
  Callbacks.position account contract x avg_cost p
  = (Raise AssertionError, p).
Proof.
  intros Hstk Hfar. unfold Callbacks.position. rewrite Hstk. cbn.
  unfold_p. cbn. now rewrite (isclose_far x Hfar).
Qed.

(** Half a share of SPY. *)
Lemma position_rejects_fraction_witness :
  Callbacks.position "DU1" (SampleDesk.stock Sample.SPY) 0.5 0
    SampleDesk.process0
  = (Raise AssertionError, SampleDesk.process0).
Proof.
  apply (position_rejects_fraction SampleDesk.process0 "DU1"
           (SampleDesk.stock Sample.SPY) 0.5 0).
  - reflexivity.
  - vm_compute. reflexivity.
Defined.

Lemma retract_all_keeps (todo : list SimpleContract) :
  forall w w',
    for_each todo AutorebalanceApp.clear_any_untransmitted_order w
      = (Ok tt, w') ->
    portfolio_prices (self w') = portfolio_prices (self w)
    /\ target_composition (self w') = target_composition (self w)
    /\ conf (self w') = conf (self w)
    /\ sec_log (env w') = sec_log (env w).
Proof.
  induction todo as [|sc rest IH]; intros w w'.
  - cbn. intros [= <-]. auto.
  - cbn [for_each].
    rewrite (bind_run _ _ _ _ _ (clear_any_untransmitted_order_run sc w)).
    cbn zeta. intros E. apply IH in E as (E1 & E2 & E3 & E4).
    rewrite E1, E2, E3, E4.
    destruct (OrderManager.clear sc _ _) as [[old|] om1]; cbn; auto.
Qed.

(** What every run of [shut_down] comes to. *)
Lemma shut_down_spec {A} (w : World) :
  exists w' calls,
    @AutorebalanceApp.shut_down A w = (Raise (SystemExit (-1)), w')
    /\ effects (env w') = effects (env w) ++ calls ++ [BaseShutDown]
    /\ Forall is_retraction calls
    /\ app_log (env w') = app_log (env w)
    /\ portfolio_prices (self w') = portfolio_prices (self w)
    /\ (forall sc e,
          sc ∈ contracts (target_composition (self w)) ->
          order_manager (self w') !! sc = Some e -> om_state e <> PENDING).
Proof.
  destruct (retract_all_spec (contracts (target_composition (self w))) w)
    as (w1 & calls & Erun & Heff & Hlog & _ & Hnp & _ & HF & _).
  destruct (retract_all_keeps _ _ _ Erun) as (Hpp & _).
  exists (on_env (add_effect BaseShutDown) w1), calls.
  split.
  { unfold AutorebalanceApp.shut_down. unfold_m. cbn.
    rewrite Erun. reflexivity. }
  cbn. rewrite Heff, <- app_assoc. auto 10.
Qed.

Lemma kill_app_spec {A} (msg : DeskKill) (p : Process) :
  exists w' calls,
    @Callbacks.kill_app A msg p
      = (Raise (SystemExit (-1)),
         mkProcess w' (add_desk_log (CRITICAL, KilledBy msg) (desk p)))
    /\ effects (env w') = effects (env (world p)) ++ calls ++ [BaseShutDown]
    /\ Forall is_retraction calls
    /\ app_log (env w') = app_log (env (world p))
    /\ portfolio_prices (self w') = portfolio_prices (self (world p))
    /\ (forall sc e,
          sc ∈ contracts (target_composition (self (world p))) ->
          order_manager (self w') !! sc = Some e -> om_state e <> PENDING).
Proof.
  destruct (@shut_down_spec A (world p)) as (w' & calls & Erun & Hrest).
  exists w', calls. split; [|exact Hrest].
  unfold Callbacks.kill_app. unfold_p. unfold liftM. cbn.
  now rewrite Erun.
Qed.

(** X16. A price bar under a request id that no subscription was made
    with is fatal: the application shuts down with exit status -1, after
    retracting its not-yet-transmitted orders, and the bar is stored for
    no instrument. *)
Theorem realtimeBar_unsolicited (p : Process) (req_id t : Z) (o h l c : Q) :
  req_id ∉ Dict.keys (price_watchers (desk p)) ->
  exists p' calls,
    Callbacks.realtimeBar req_id t o h l c p = (Raise (SystemExit (-1)), p')
    /\ portfolio_prices (self (world p'))
       = portfolio_prices (self (world p))
    /\ desk_log (desk p')
       = desk_log (desk p) ++ [(CRITICAL, KilledBy (UnsolicitedPrice req_id))]
    /\ effects (env (world p'))
       = effects (env (world p)) ++ calls ++ [BaseShutDown]
    /\ Forall is_retraction calls
    /\ (forall sc e,
          sc ∈ contracts (target_composition (self (world p))) ->
          order_manager (self (world p')) !! sc = Some e ->
          om_state e <> PENDING).
Proof.
  intros Hno. apply dict_get_None in Hno.
  destruct (@kill_app_spec unit (UnsolicitedPrice req_id) p)
    as (w' & calls & Erun & Heff & HF & _ & Hpp & Hnp).
  eexists _, calls. split.
  { unfold Callbacks.realtimeBar. unfold_p. cbn. rewrite Hno. exact Erun. }
  cbn. auto 10.
Qed.

(** A bar under request id 7 at the fresh desk, which has no
    subscription. *)
Lemma realtimeBar_unsolicited_witness :
  exists p' calls,
    Callbacks.realtimeBar 7 995 41 42 39 40 SampleDesk.process0
      = (Raise (SystemExit (-1)), p')
    /\ portfolio_prices (self (world p'))
       = portfolio_prices (self (world SampleDesk.process0))
    /\ desk_log (desk p')
       = desk_log (desk SampleDesk.process0)
         ++ [(CRITICAL, KilledBy (UnsolicitedPrice 7))]
    /\ effects (env (world p'))
       = effects (env (world SampleDesk.process0)) ++ calls ++ [BaseShutDown]
    /\ Forall is_retraction calls
    /\ (forall sc e,
          sc ∈ contracts
                 (target_composition (self (world SampleDesk.process0))) ->
          order_manager (self (world p')) !! sc = Some e ->
          om_state e <> PENDING).
Proof.
  apply (realtimeBar_unsolicited SampleDesk.process0 7 995 41 42 39 40).
  cbn. apply not_elem_of_nil.
Defined.

Lemma realtimeBar_stores (p : Process) (req_id t : Z) (o h l c : Q)
  (sc : SimpleContract) :
  Dict.get req_id (price_watchers (desk p)) = Some sc ->
  Callbacks.realtimeBar req_id t o h l c p
  = (Ok tt,
     on_world (on_self (fun a =>
       set_portfolio_prices
         (<[sc := OHLCBar.mk t o h l c]> (portfolio_prices a)) a))
       (on_desk (add_desk_log (DEBUG, ReceivedPrice (symbol sc) c)) p)).
Proof.
  intros Hget. unfold Callbacks.realtimeBar. unfold_p. cbn. now rewrite Hget.
Qed.

Lemma get_nc_known (w : World) (oid : Z) :
  (exists sc e, order_manager (self w) !! sc = Some e /\ om_oid e = oid) ->
  exists sc, OrderManager.get_nc oid w = (Ok (Some sc), w).
Proof.
  intros (sc & e & Hin & Hoid). unfold OrderManager.get_nc. unfold_m. cbn.
  destruct (list_find _ _) as [[i [sc' e']]|] eqn:F; [now exists sc'|].
  exfalso. apply list_find_None in F.
  apply elem_of_map_to_list in Hin.
  rewrite Forall_forall in F. exact (F _ Hin Hoid).
Qed.

(** X17. An open-order callback for an order id that the Order Manager
    holds changes nothing at all: no entry, no log line, no clock
    reading. *)
Theorem openOrder_ignores_tracked (p : Process) (oid : Z)
  (contract : Contract) (order : Order) :
  (exists sc e,
      order_manager (self (world p)) !! sc = Some e /\ om_oid e = oid) ->
  Callbacks.openOrder oid contract order p = (Ok tt, p).
Proof.
  intros Hknown. destruct (get_nc_known _ _ Hknown) as [sc Hnc].
  unfold Callbacks.openOrder. unfold_p. unfold liftM. rewrite Hnc. cbn.
  now destruct p.
Qed.

(** The open-order callback for the pending order of SPY. *)
Lemma openOrder_ignores_tracked_witness :
  Callbacks.openOrder 5 (SampleDesk.stock Sample.SPY) Sample.audited0
    (mkProcess Sample.pending_world SampleDesk.desk0)
  = (Ok tt, mkProcess Sample.pending_world SampleDesk.desk0).
Proof.
  apply (openOrder_ignores_tracked
           (mkProcess Sample.pending_world SampleDesk.desk0) 5
           (SampleDesk.stock Sample.SPY) Sample.audited0).
  exists Sample.SPY, (mkEntry 5 Sample.audited0 PENDING 990).
  split; [apply lookup_singleton_eq | reflexivity].
Defined.

(** X18. An open-order callback for an order id that the Order Manager
    does not hold, on an instrument that has no entry, adopts the
    order: the instrument gets an entry with that id and order, in
    state [TRANSMITTED]; the other entries stay, a warning is logged,
    and no call goes to the broker. *)
Theorem openOrder_adopts (p : Process) (oid : Z) (contract : Contract)
  (order : Order) :
  (forall sc e,
      order_manager (self (world p)) !! sc = Some e -> om_oid e <> oid) ->
  order_manager (self (world p)) !! identity contract = None ->
  exists p',
    Callbacks.openOrder oid contract order p = (Ok tt, p')
    /\ order_manager (self (world p'))
       = <[identity contract :=
             mkEntry oid order TRANSMITTED
               (clock (env (world p)) (ticks (env (world p))))]>
           (order_manager (self (world p)))
    /\ desk_log (desk p') = desk_log (desk p) ++ [(WARNING, UntrackedOpenOrder)]
    /\ effects (env (world p')) = effects (env (world p)).
Proof.
  intros Hno Hfree.
  unfold Callbacks.openOrder. unfold_p. unfold liftM.
  rewrite (get_nc_unknown _ _ Hno).
  unfold OrderManager.enter_order, OrderManager.transmit_order.
  cbn -[OrderManager.enter OrderManager.transmit OrderManager.method].
  rewrite !method_run. cbn -[OrderManager.enter OrderManager.transmit].
  eexists. split; [reflexivity|]. cbn -[OrderManager.enter OrderManager.transmit].
  split; [|split; reflexivity].
  unfold OrderManager.enter, OrderManager.purge. rewrite Hfree. cbn.
  rewrite Hfree. cbn. unfold OrderManager.transmit, OrderManager.purge.
  rewrite lookup_insert_eq. cbn. rewrite lookup_insert_eq. cbn.
  now rewrite insert_insert_eq.
Qed.

(** An open-order callback for order 9 on SPY at the quiet
    application, which tracks nothing. *)
Lemma openOrder_adopts_witness :
  exists p',
    Callbacks.openOrder 9 (SampleDesk.stock Sample.SPY) Sample.order0
      SampleDesk.process0 = (Ok tt, p')
    /\ order_manager (self (world p'))
       = <[Sample.SPY := mkEntry 9 Sample.order0 TRANSMITTED 1000]> ∅
    /\ desk_log (desk p') = [] ++ [(WARNING, UntrackedOpenOrder)]
    /\ effects (env (world p')) = [].
Proof.
  apply (openOrder_adopts SampleDesk.process0 9
           (SampleDesk.stock Sample.SPY) Sample.order0).
  - intros sc e H. cbn in H. now rewrite lookup_empty in H.
  - reflexivity.
Defined.

(** X19. An open-order callback for an order id that the Order Manager
    does not hold, on an instrument that has a pending or transmitted
    entry of its own, does not adopt the reported order although the
    warning is logged: the entry of the instrument keeps its own id and
    order and is in state [TRANSMITTED] afterwards, and the reported id
    is still held by no entry. *)
Theorem openOrder_keeps_own_entry (p : Process) (oid : Z)
  (contract : Contract) (order : Order) (e : OMEntry) :
  (forall sc e,
      order_manager (self (world p)) !! sc = Some e -> om_oid e <> oid) ->
  order_manager (self (world p)) !! identity contract = Some e ->
  om_state e <> COOLOFF ->
  exists p',
    Callbacks.openOrder oid contract order p = (Ok tt, p')
    /\ order_manager (self (world p'))
       = <[identity contract :=
             mkEntry (om_oid e) (om_order e) TRANSMITTED (om_stamp e)]>
           (order_manager (self (world p)))
    /\ (forall sc e',
          order_manager (self (world p')) !! sc = Some e' -> om_oid e' <> oid)
    /\ desk_log (desk p') = desk_log (desk p) ++ [(WARNING, UntrackedOpenOrder)]
    /\ effects (env (world p')) = effects (env (world p)).
Proof.
  intros Hno He Hst.
  assert (Hlive : forall now, OrderManager.expired now e = false).
  { intros now. unfold OrderManager.expired.
    destruct (om_state e); [reflexivity | reflexivity | congruence]. }
  unfold Callbacks.openOrder. unfold_p. unfold liftM.
  rewrite (get_nc_unknown _ _ Hno).
  unfold OrderManager.enter_order, OrderManager.transmit_order.
  cbn -[OrderManager.enter OrderManager.transmit OrderManager.method].
  rewrite !method_run. cbn -[OrderManager.enter OrderManager.transmit].
  eexists. split; [reflexivity|]. cbn -[OrderManager.enter OrderManager.transmit].
  assert (Hent : forall now,
            OrderManager.enter (identity contract) oid order now
              (order_manager (self (world p)))
            = (false, order_manager (self (world p)))).
  { intros now. unfold OrderManager.enter.
    rewrite (purge_kept _ _ _ e He (Hlive now)). now rewrite He. }
  rewrite !Hent. cbn -[OrderManager.transmit].
  assert (Htr : forall now,
            (OrderManager.transmit (identity contract) now
               (order_manager (self (world p)))).2
            = <[identity contract :=
                  mkEntry (om_oid e) (om_order e) TRANSMITTED (om_stamp e)]>
                (order_manager (self (world p)))).
  { intros now. unfold OrderManager.transmit.
    rewrite (purge_kept _ _ _ e He (Hlive now)). rewrite He.
    destruct e as [eo eor est ets]. cbn in *.
    destruct est; cbn; [reflexivity| |congruence].
    symmetry. now apply insert_id. }
  rewrite Htr.
  split; [reflexivity|]. split; [|split; reflexivity].
  intros sc e' Hin. destruct (decide (sc = identity contract)) as [->|Hne].
  - rewrite lookup_insert_eq in Hin. injection Hin as <-. cbn.
    exact (Hno _ _ He).
  - rewrite lookup_insert_ne in Hin by congruence. exact (Hno _ _ Hin).
Qed.

(** An open-order callback for order 9 on SPY while the application's
    own order 5 for SPY is pending. *)
Lemma openOrder_keeps_own_entry_witness :
  exists p',
    Callbacks.openOrder 9 (SampleDesk.stock Sample.SPY) Sample.order0
      (mkProcess Sample.pending_world SampleDesk.desk0) = (Ok tt, p')
    /\ order_manager (self (world p'))
       = <[Sample.SPY := mkEntry 5 Sample.audited0 TRANSMITTED 990]>
           {[ Sample.SPY := mkEntry 5 Sample.audited0 PENDING 990 ]}
    /\ (forall sc e',
          order_manager (self (world p')) !! sc = Some e' -> om_oid e' <> 9)
    /\ desk_log (desk p') = [] ++ [(WARNING, UntrackedOpenOrder)]
    /\ effects (env (world p')) = [].
Proof.
  apply (openOrder_keeps_own_entry
           (mkProcess Sample.pending_world SampleDesk.desk0) 9
           (SampleDesk.stock Sample.SPY) Sample.order0
           (mkEntry 5 Sample.audited0 PENDING 990)).
  - intros sc e H. cbn in H. apply lookup_singleton_Some in H as [_ <-].
    cbn. lia.
  - apply lookup_singleton_eq.
  - discriminate.
Defined.

(** ** The positions *)

Lemma watchers_wf_fresh (pw : list (Z * SimpleContract)) :
  watchers_wf pw ->
  Callbacks.PORTFOLIO_PRICE_REQ_ID + Z.of_nat (length pw) ∉ Dict.keys pw.
Proof.
  intros [Hk _] Hin. rewrite Hk in Hin.
  apply list_elem_of_fmap in Hin as (i & Hi & Hin).
  apply elem_of_seq in Hin. lia.
Qed.

Lemma watchers_wf_snoc (pw : list (Z * SimpleContract)) (sc : SimpleContract) :
  watchers_wf pw -> sc ∉ Dict.values pw ->
  watchers_wf
    (pw ++ [(Callbacks.PORTFOLIO_PRICE_REQ_ID + Z.of_nat (length pw), sc)]).
Proof.
  intros [Hk Hv] Hsc. split.
  - unfold Dict.keys in *. rewrite map_app, length_app, Hk. cbn.
    rewrite Nat.add_1_r, seq_S, map_app. reflexivity.
  - unfold Dict.values in *. rewrite map_app. cbn.
    apply NoDup_app. split; [exact Hv|]. split; [|apply NoDup_singleton].
    intros x Hx Hx'. apply list_elem_of_singleton in Hx'. now subst.
Qed.

Lemma subscribe_run (sc : SimpleContract) (p : Process) :
  Callbacks.subscribe sc p
  = (Ok tt,
     if bool_decide (sc ∈ Dict.values (price_watchers (desk p))) then p
     else
       let req_id := Callbacks.PORTFOLIO_PRICE_REQ_ID
                     + Z.of_nat (length (price_watchers (desk p))) in
       on_desk (add_request (request_of (req_id, sc)))
         (on_desk (set_price_watchers
                     (Dict.set req_id sc (price_watchers (desk p))))
            (on_desk (add_desk_log (INFO, Subscribing req_id (symbol sc)))
               p))).
Proof.
  unfold Callbacks.subscribe. unfold_p. cbn.
  destruct (bool_decide _); reflexivity.
Qed.

Lemma subscribe_all_keeps (todo : list SimpleContract) :
  forall p,
  exists p',
    for_eachP todo Callbacks.subscribe p = (Ok tt, p')
    /\ world p' = world p
    /\ portfolio (desk p') = portfolio (desk p)
    /\ position_acc (desk p') = position_acc (desk p).
Proof.
  induction todo as [|sc rest IH]; intros p.
  - exists p. cbn. auto.
  - cbn [for_eachP]. rewrite (bindP_run _ _ _ _ _ (subscribe_run sc p)).
    match goal with
    | |- context [for_eachP rest _ ?p1] =>
        destruct (IH p1) as (p' & Erun & Hw & Hp & Ha)
    end.
    exists p'. split; [exact Erun|]. rewrite Hw, Hp, Ha.
    destruct (bool_decide _); auto.
Qed.

Lemma subscribe_all_spec (todo : list SimpleContract) :
  forall p p',
    for_eachP todo Callbacks.subscribe p = (Ok tt, p') ->
    watchers_wf (price_watchers (desk p)) ->
    exists added,
      price_watchers (desk p') = price_watchers (desk p) ++ added
      /\ requests (desk p') = requests (desk p) ++ map request_of added
      /\ watchers_wf (price_watchers (desk p'))
      /\ (forall sc, sc ∈ todo -> sc ∈ Dict.values (price_watchers (desk p')))
      /\ (forall sc, sc ∈ Dict.values added -> sc ∈ todo).
Proof.
  induction todo as [|sc rest IH]; intros p p'.
  - cbn. intros [= <-] Hwf. exists []. cbn. rewrite !app_nil_r.
    split; [reflexivity|]. split; [reflexivity|]. split; [exact Hwf|].
    split; intros sc H; now apply elem_of_nil in H.
  - cbn [for_eachP]. rewrite (bindP_run _ _ _ _ _ (subscribe_run sc p)).
    intros Erun Hwf. case_bool_decide as Hsub.
    + destruct (IH _ _ Erun Hwf) as (added & Hpw & Hreq & Hwf' & Hall & Hnew).
      exists added. split; [exact Hpw|]. split; [exact Hreq|].
      split; [exact Hwf'|]. split.
      * intros k Hk. apply elem_of_cons in Hk as [->|Hk]; [|auto].
        rewrite Hpw. unfold Dict.values. rewrite map_app, elem_of_app.
        now left.
      * intros k Hk. apply elem_of_cons. right. auto.
    + cbn zeta in Erun.
      pose proof (watchers_wf_fresh _ Hwf) as Hfresh.
      rewrite (dict_set_new _ _ _ Hfresh) in Erun.
      apply IH in Erun; [|cbn; now apply watchers_wf_snoc].
      destruct Erun as (added & Hpw & Hreq & Hwf' & Hall & Hnew).
      cbn in Hpw, Hreq.
      exists ((Callbacks.PORTFOLIO_PRICE_REQ_ID
               + Z.of_nat (length (price_watchers (desk p))), sc) :: added).
      split; [rewrite Hpw, <- app_assoc; reflexivity|].
      split; [rewrite Hreq, <- app_assoc; reflexivity|].
      split; [exact Hwf'|]. split.
      * intros k Hk. apply elem_of_cons in Hk as [->|Hk]; [|auto].
        rewrite Hpw. unfold Dict.values. rewrite !map_app, !elem_of_app.
        left. right. cbn. apply list_elem_of_singleton. reflexivity.
      * intros k Hk. cbn in Hk. apply elem_of_cons in Hk as [->|Hk].
        -- apply elem_of_cons. now left.
        -- apply elem_of_cons. right. auto.
Qed.

Lemma merged_keys_held (d : Desk) (sc : SimpleContract) :
  sc ∈ Dict.keys
         match portfolio d with
         | None => position_acc d
         | Some held => Dict.update (position_acc d) held
         end
  <-> sc ∈ merged_keys d.
Proof.
  unfold merged_keys. destruct (portfolio d) as [held|]; cbn.
  - rewrite dict_keys_update_elem, elem_of_app. reflexivity.
  - reflexivity.
Qed.

Lemma log_keys_run (bad : list SimpleContract) :
  forall p,
    for_eachP bad (fun bk => logP CRITICAL (UnknownKey bk)) p
    = (Ok tt,
       fold_left
         (fun q bk => on_desk (add_desk_log (CRITICAL, UnknownKey bk)) q)
         bad p).
Proof.
  induction bad as [|bk rest IH]; intros p; [reflexivity|].
  cbn [for_eachP fold_left]. unfold bindP at 1. unfold logP at 1, modifyP.
  apply IH.
Qed.


(** The process as [positionEnd] leaves it before the check of the
    portfolio keys. *)
Lemma positionEnd_run (p : Process) :
  let held :=
    match portfolio (desk p) with
    | None => position_acc (desk p)
    | Some held => Dict.update (position_acc (desk p)) held
    end in
  let p1 :=
    on_desk (set_portfolio (Some held))
      (on_desk
         (add_desk_log
            (INFO,
             ReceivedPositions
               (map symbol (Dict.keys (position_acc (desk p))))
               (fold_right Z.add 0 (Dict.values (position_acc (desk p))))))
         (on_desk (set_position_acc []) p)) in
  Callbacks.positionEnd p
  = match filter (fun k => k ∉ contracts (target_composition (self (world p))))
            (Dict.keys held) with
    | [] => for_eachP (Dict.keys (position_acc (desk p))) Callbacks.subscribe p1
    | bk :: bad =>
        @Callbacks.kill_app unit UnknownPortfolioKeysReceived
          (on_desk (add_desk_log (CRITICAL, MaybeBadPrimaryExchange))
             (fold_left
                (fun q bk =>
                   on_desk (add_desk_log (CRITICAL, UnknownKey bk)) q)
                (bk :: bad)
                (on_desk (add_desk_log (CRITICAL, UnknownPortfolioKeys)) p1)))
    end.
Proof.
  cbn zeta. unfold Callbacks.positionEnd. unfold_p. cbn.
  destruct (filter _ _) as [|bk bad] eqn:F.
  - reflexivity.
  - cbn. rewrite log_keys_run.
    match goal with
    | |- context [@Callbacks.kill_app unit ?m ?q] =>
        destruct (@kill_app_spec unit m q) as (w' & calls & Erun & _)
    end.
    now rewrite Erun.
Qed.

Lemma known_keys_pass (p : Process) :
  (forall sc, sc ∈ merged_keys (desk p) ->
              sc ∈ contracts (target_composition (self (world p)))) ->
  filter (fun k => k ∉ contracts (target_composition (self (world p))))
    (Dict.keys
       match portfolio (desk p) with
       | None => position_acc (desk p)
       | Some held => Dict.update (position_acc (desk p)) held
       end) = [].
Proof.
  intros Hknown. destruct (filter _ _) as [|bk bad] eqn:F; [reflexivity|].
  exfalso.
  assert (Hin : bk ∈ bk :: bad) by (apply elem_of_cons; now left).
  rewrite <- F in Hin. apply list_elem_of_filter in Hin as [Hbad Hin].
  apply merged_keys_held in Hin. exact (Hbad (Hknown _ Hin)).
Qed.

(** X20. When every instrument held is in the target composition,
    [positionEnd] merges the accumulated positions into the portfolio
    and empties the accumulator: an instrument that was reported has
    the reported position, and an instrument that was not reported
    keeps the position it had, so a position is never dropped from the
    portfolio. *)
Theorem positionEnd_merges (p : Process) :
  (forall sc, sc ∈ merged_keys (desk p) ->
              sc ∈ contracts (target_composition (self (world p)))) ->
  NoDup (Dict.keys (position_acc (desk p))) ->
  exists p' held,
    Callbacks.positionEnd p = (Ok tt, p')
    /\ world p' = world p
    /\ position_acc (desk p') = []
    /\ portfolio (desk p') = Some held
    /\ forall sc,
         Dict.get sc held
         = match Dict.get sc (position_acc (desk p)) with
           | Some n => Some n
           | None => portfolio (desk p) ≫= Dict.get sc
           end.
Proof.
  intros Hknown Hnd. pose proof (positionEnd_run p) as Hrun.
  cbn zeta in Hrun. rewrite (known_keys_pass p Hknown) in Hrun.
  match type of Hrun with
  | _ = for_eachP ?todo _ ?p1 =>
      destruct (subscribe_all_keeps todo p1) as (p' & Erun & Hw & Hp & Ha)
  end.
  rewrite Erun in Hrun. eexists p', _.
  split; [exact Hrun|]. split; [exact Hw|]. split; [exact Ha|].
  split; [exact Hp|]. intros sc. destruct (portfolio (desk p)) as [held|].
  - now apply dict_get_update.
  - cbn. now destruct (Dict.get sc (position_acc (desk p))).
Qed.

(** The first positions: 100 shares of SPY. *)
Lemma positionEnd_merges_witness :
  exists p' held,
    Callbacks.positionEnd SampleDesk.reported = (Ok tt, p')
    /\ world p' = world SampleDesk.reported
    /\ position_acc (desk p') = []
    /\ portfolio (desk p') = Some held
    /\ forall sc,
         Dict.get sc held
         = match Dict.get sc (position_acc (desk SampleDesk.reported)) with
           | Some n => Some n
           | None => portfolio (desk SampleDesk.reported) ≫= Dict.get sc
           end.
Proof.
  apply (positionEnd_merges SampleDesk.reported).
  - intros sc Hin. cbn in *. exact Hin.
  - cbn. apply NoDup_singleton.
Defined.

(** X21. When every instrument held is in the target composition,
    [positionEnd] subscribes to the prices of each reported instrument
    that has no subscription yet, once: the subscriptions made before
    stay, each new one is requested from the broker under its request
    id in the order made, the request ids keep counting up from the
    base, and afterwards every reported instrument is subscribed. *)
Theorem positionEnd_subscribes (p : Process) :
  (forall sc, sc ∈ merged_keys (desk p) ->
              sc ∈ contracts (target_composition (self (world p)))) ->
  watchers_wf (price_watchers (desk p)) ->
  exists p' added,
    Callbacks.positionEnd p = (Ok tt, p')
    /\ price_watchers (desk p') = price_watchers (desk p) ++ added
    /\ requests (desk p') = requests (desk p) ++ map request_of added
    /\ watchers_wf (price_watchers (desk p'))
    /\ (forall sc, sc ∈ Dict.keys (position_acc (desk p)) ->
                   sc ∈ Dict.values (price_watchers (desk p')))
    /\ (forall sc, sc ∈ Dict.values added ->
                   sc ∈ Dict.keys (position_acc (desk p))).
Proof.
  intros Hknown Hwf. pose proof (positionEnd_run p) as Hrun.
  cbn zeta in Hrun. rewrite (known_keys_pass p Hknown) in Hrun.
  match type of Hrun with
  | _ = for_eachP ?todo _ ?p1 =>
      destruct (subscribe_all_keeps todo p1) as (p' & Erun & _);
      destruct (subscribe_all_spec todo p1 p' Erun Hwf)
        as (added & Hpw & Hreq & Hwf' & Hall & Hnew)
  end.
  rewrite Erun in Hrun. exists p', added. auto 10.
Qed.

(** The first positions: SPY gets the first request id. *)
Lemma positionEnd_subscribes_witness :
  exists p' added,
    Callbacks.positionEnd SampleDesk.reported = (Ok tt, p')
    /\ price_watchers (desk p') = [] ++ added
    /\ requests (desk p') = [] ++ map request_of added
    /\ watchers_wf (price_watchers (desk p'))
    /\ (forall sc, sc ∈ [Sample.SPY] ->
                   sc ∈ Dict.values (price_watchers (desk p')))
    /\ (forall sc, sc ∈ Dict.values added -> sc ∈ [Sample.SPY]).
Proof.
  apply (positionEnd_subscribes SampleDesk.reported).
  - intros sc Hin. cbn in *. exact Hin.
  - split; [reflexivity | apply NoDup_nil_2].
Defined.



Lemma watchers_wf_keys_NoDup (pw : list (Z * SimpleContract)) :
  watchers_wf pw -> NoDup (Dict.keys pw).
Proof.
  intros [Hk _]. rewrite Hk. apply NoDup_fmap_2; [|apply NoDup_seq].
  intros i j. unfold Callbacks.PORTFOLIO_PRICE_REQ_ID. lia.
Qed.

(** X23. Subscription and price callback fit together: once
    [positionEnd] has returned, every reported instrument has a request
    id under which a price bar is accepted and stored as the price of
    that instrument, the prices of the other instruments being left as
    they were. *)
Theorem subscribed_bar_is_stored (p : Process) :
  (forall sc, sc ∈ merged_keys (desk p) ->
              sc ∈ contracts (target_composition (self (world p)))) ->
  watchers_wf (price_watchers (desk p)) ->
  exists p',
    Callbacks.positionEnd p = (Ok tt, p')
    /\ forall sc,
         sc ∈ Dict.keys (position_acc (desk p)) ->
         exists req_id,
           forall (t : Z) (o h l c : Q),
           exists p'',
             Callbacks.realtimeBar req_id t o h l c p' = (Ok tt, p'')
             /\ portfolio_prices (self (world p'')) !! sc
                = Some (OHLCBar.mk t o h l c)
             /\ forall sc', sc' <> sc ->
                  portfolio_prices (self (world p'')) !! sc'
                  = portfolio_prices (self (world p)) !! sc'.
Proof.
  intros Hknown Hwf. pose proof (positionEnd_run p) as Hrun.
  cbn zeta in Hrun. rewrite (known_keys_pass p Hknown) in Hrun.
  match type of Hrun with
  | _ = for_eachP ?todo _ ?p1 =>
      destruct (subscribe_all_keeps todo p1) as (p' & Erun & Hw & _);
      destruct (subscribe_all_spec todo p1 p' Erun Hwf)
        as (added & _ & _ & Hwf' & Hall & _)
  end.
  rewrite Erun in Hrun. exists p'. split; [exact Hrun|].
  intros sc Hsc. apply Hall in Hsc.
  apply list_elem_of_fmap in Hsc as ([req_id sc0] & Hsc0 & Hin).
  cbn in Hsc0. subst sc0. exists req_id. intros t o h l c.
  pose proof (dict_elem_get _ _ _ (watchers_wf_keys_NoDup _ Hwf') Hin) as Hget.
  rewrite (realtimeBar_stores p' req_id t o h l c sc Hget).
  eexists. split; [reflexivity|]. cbn. rewrite Hw. cbn. split.
  - apply lookup_insert_eq.
  - intros sc' Hne. apply lookup_insert_ne. congruence.
Qed.

(** The first positions, 100 shares of SPY, and the bars for SPY that
    follow. *)
Lemma subscribed_bar_is_stored_witness :
  exists p',
    Callbacks.positionEnd SampleDesk.reported = (Ok tt, p')
    /\ forall sc,
         sc ∈ [Sample.SPY] ->
         exists req_id,
           forall (t : Z) (o h l c : Q),
           exists p'',
             Callbacks.realtimeBar req_id t o h l c p' = (Ok tt, p'')
             /\ portfolio_prices (self (world p'')) !! sc
                = Some (OHLCBar.mk t o h l c)
             /\ forall sc', sc' <> sc ->
                  portfolio_prices (self (world p'')) !! sc'
                  = (∅ : gmap SimpleContract OHLCBar) !! sc'.
Proof.
  apply (subscribed_bar_is_stored SampleDesk.reported).
  - intros sc Hin. cbn in *. exact Hin.
  - split; [reflexivity | apply NoDup_nil_2].
Defined.

(** ** The construction of the orders *)

Lemma validate_ok_inv {T} (rule : ThreeTierGeneric T) (v v' : T)
  (w w' : World) :
  validate rule v w = (Ok v', w') ->
  v' = v
  /\ cmp_op rule v (block_level rule) = false
  /\ self w' = self w
  /\ effects (env w') = effects (env w)
  /\ clock (env w') = clock (env w)
  /\ ticks (env w') = ticks (env w).
Proof.
  intros Hret.
  destruct (cmp_op rule v (block_level rule)) eqn:Hb.
  { rewrite validate_block in Hret by assumption. discriminate. }
  destruct (cmp_op rule v (confirm_level rule)) eqn:Hc.
  - destruct (stdin (env w)) as [|ans rest] eqn:Hin.
    + rewrite validate_unanswered in Hret by assumption. discriminate.
    + rewrite (validate_confirm rule v w ans rest) in Hret by assumption.
      cbn zeta in Hret. destruct (String.eqb ans "YES"); [|discriminate].
      injection Hret as <- <-. auto 10.
  - rewrite validate_pass in Hret by assumption.
    injection Hret as <- <-. auto 10.
Qed.

Lemma rebalance_orders_from_spec (price_snapshot : gmap SimpleContract Q)
  (items : list (SimpleContract * Z)) :
  forall (total : Q) (orders : list (SimpleContract * Order)) (p : Process)
         (total' : Q) (orders' : list (SimpleContract * Order))
         (p' : Process),
    Callbacks.rebalance_orders_from items price_snapshot total orders p
      = (Ok (total', orders'), p') ->
    self (world p') = self (world p)
    /\ desk p' = desk p
    /\ effects (env (world p')) = effects (env (world p))
    /\ (total' == total
                  + order_total (portfolio_prices (self (world p))) items)%Q
    /\ Forall (fun item => Z.abs item.2 <= 250) items
    /\ (items <> [] ->
        config_armed (desk p) = true
        \/ armed (conf (self (world p))) = false)
    /\ (NoDup (Dict.keys orders ++ Dict.keys items) ->
        exists new,
          orders' = orders ++ new
          /\ Forall2
               (built_for (armed (conf (self (world p))))
                  (max_slippage (conf (self (world p)))) price_snapshot)
               items new).
Proof.
  induction items as [|[nc num] rest IH];
    intros total orders p total' orders' p' Hrun.
  - cbn in Hrun. injection Hrun as <- <- <-.
    split; [reflexivity|]. split; [reflexivity|]. split; [reflexivity|].
    split; [cbn; ring|]. split; [constructor|]. split; [congruence|].
    intros _. exists []. rewrite app_nil_r. split; [reflexivity|constructor].
  - cbn [Callbacks.rebalance_orders_from] in Hrun.
    unfold mbind, P_bind in Hrun. unfold bindP at 1 in Hrun.
    unfold getsP at 1 in Hrun. unfold bindP at 1 in Hrun.
    unfold liftM at 1 in Hrun.
    destruct (validate Policy.ORDER_QTY (inject_Z (Z.abs num)) (world p))
      as [[qty|e|] w1] eqn:Ev; cbn [fst snd] in Hrun; try discriminate.
    apply validate_ok_inv in Ev as (-> & Hb & Hself & Heff & Hclock & Hticks).
    destruct (price_snapshot !! nc) as [price|] eqn:Hprice;
      [|discriminate].
    cbn -[Callbacks.rebalance_orders_from round2 Z.abs inject_Z Qplus Qmult
          Z.ltb] in Hrun.
    rewrite Hself in Hrun.
    match type of Hrun with
    | context [audit_order ?c ?o] =>
        remember o as order eqn:Eorder;
        destruct (audit_order c order) as [a|e|] eqn:Ea
    end; try discriminate.
    destruct (portfolio_prices (self (world p)) !! nc) as [bar|] eqn:Hbar;
      [|discriminate].
    cbn [getitemP] in Hrun. unfold bindP at 1, retP in Hrun.
    apply IH in Hrun as (H1 & H2 & H3 & H4 & H5 & H6 & H7).
    cbn [world desk on_env self env effects] in *.
    unfold audit_order in Ea. subst order. cbn in Ea.
    rewrite Hself in *. cbn [set_ticks effects] in H3.
    assert (Ha : (config_armed (desk p) = true
                  \/ armed (conf (self (world p))) = false)
                 /\ exists gtd,
                   a = {| orderType := "MIDPRICE";
                          transmit := armed (conf (self (world p)));
                          outsideRth := false;
                          action := if 0 <? num then "BUY" else "SELL";
                          totalQuantity := inject_Z (Z.abs num);
                          lmtPrice :=
                            round2
                              (price
                               + inject_Z (if num <? 0 then -1 else 1)
                                 * max_slippage (conf (self (world p))))%Q;
                          tif := "GTD";
                          goodTillDate := gtd;
                          _audited := Some true |}).
    { revert Ea.
      destruct (config_armed (desk p));
        destruct (armed (conf (self (world p)))); cbn; intros Ea;
        try discriminate; injection Ea as <-;
        (split; [auto | eexists; reflexivity]). }
    destruct Ha as [Harmed Ha].
    destruct Ha as [gtd ->].
    split; [exact H1|]. split; [exact H2|]. split; [congruence|].
    split; [rewrite H4; cbn [order_total]; rewrite Hbar; ring|].
    split.
    { constructor; [|exact H5]. cbn.
      apply operator_gt_false in Hb. rewrite Zle_Qle. exact Hb. }
    split; [intros _; exact Harmed|].
    intros Hnd. cbn [Dict.keys map fst] in Hnd.
    assert (Hfresh : nc ∉ Dict.keys orders).
    { apply NoDup_app in Hnd as (_ & Hdis & _). intros Hin.
      apply (Hdis nc Hin). apply elem_of_cons. now left. }
    rewrite (dict_set_new _ _ _ Hfresh) in H7.
    destruct H7 as (new & -> & HF2).
    { unfold Dict.keys in *. rewrite map_app. cbn.
      rewrite <- app_assoc. exact Hnd. }
    eexists. split; [rewrite <- app_assoc; reflexivity|].
    cbn. constructor; [|exact HF2].
    unfold built_for. cbn. repeat split; try reflexivity.
    exists price. split; [exact Hprice | reflexivity].
Qed.

Lemma construct_rebalance_orders_inv (price_snapshot : gmap SimpleContract Q)
  (p : Process) (orders : list (SimpleContract * Order)) :
  (Callbacks.construct_rebalance_orders price_snapshot p).1 = Ok orders ->
  exists total p1,
    Callbacks.rebalance_orders_from (rebalance_target (desk p)) price_snapshot
      0 [] p = (Ok (total, orders), p1)
    /\ cmp_op Policy.ORDER_TOTAL total (block_level Policy.ORDER_TOTAL) = false
    /\ self (world (Callbacks.construct_rebalance_orders price_snapshot p).2)
       = self (world p1)
    /\ effects
         (env (world (Callbacks.construct_rebalance_orders price_snapshot p).2))
       = effects (env (world p1))
    /\ desk (Callbacks.construct_rebalance_orders price_snapshot p).2
       = desk p1.
Proof.
  unfold Callbacks.construct_rebalance_orders. unfold_p. cbn [fst snd].
  destruct (Callbacks.rebalance_orders_from _ _ _ _ p)
    as [[[total built]|e|] p1] eqn:Eloop; cbn; try discriminate.
  unfold liftM.
  destruct (validate Policy.ORDER_TOTAL total (world p1))
    as [[v|e|] w2] eqn:Ev; cbn; try discriminate.
  intros [= <-]. apply validate_ok_inv in Ev as (_ & Hb & Hself & Heff & _).
  exists total, p1. auto 10.
Qed.



(** X25. The orders returned respect the limits of the policy: no
    order is for more than 250 shares, and the orders are worth no more
    than 50000 in total at the last closes. *)
Theorem construct_rebalance_orders_limits
  (price_snapshot : gmap SimpleContract Q) (p : Process)
  (orders : list (SimpleContract * Order)) :
  (Callbacks.construct_rebalance_orders price_snapshot p).1 = Ok orders ->
  Forall (fun item => Z.abs item.2 <= 250) (rebalance_target (desk p))
  /\ (order_total (portfolio_prices (self (world p)))
        (rebalance_target (desk p)) <= 50000)%Q.
Proof.
  intros Hret.
  apply construct_rebalance_orders_inv in Hret
    as (total & p1 & Eloop & Hb & _).
  apply rebalance_orders_from_spec in Eloop
    as (_ & _ & _ & H4 & H5 & _).
  split; [exact H5|].
  apply operator_gt_false in Hb. rewrite H4, Qplus_0_l in Hb. exact Hb.
Qed.

Lemma construct_rebalance_orders_limits_witness :
  Forall (fun item => Z.abs item.2 <= 250) [(Sample.SPY, 10)]
  /\ (order_total (portfolio_prices Sample.live_app) [(Sample.SPY, 10%Z)]
      <= 50000)%Q.
Proof.
  eapply (construct_rebalance_orders_limits {[ Sample.SPY := 40%Q ]}
            SampleDesk.trading).
  vm_compute. reflexivity.
Defined.

(** X26. An application object that is armed while the configuration
    file is not builds no orders: with anything to rebalance,
    [construct_rebalance_orders] does not return. *)
Theorem construct_rebalance_orders_armed_mismatch
  (price_snapshot : gmap SimpleContract Q) (p : Process) :
  armed (conf (self (world p))) = true ->
  config_armed (desk p) = false ->
  rebalance_target (desk p) <> [] ->
  is_ok (Callbacks.construct_rebalance_orders price_snapshot p).1 = false.
Proof.
  intros Harmed Hcfg Hne.
  destruct (Callbacks.construct_rebalance_orders price_snapshot p).1
    as [orders|e|] eqn:Hret; [exfalso|reflexivity|reflexivity].
  apply construct_rebalance_orders_inv in Hret as (total & p1 & Eloop & _).
  apply rebalance_orders_from_spec in Eloop as (_ & _ & _ & _ & _ & H6 & _).
  destruct (H6 Hne); congruence.
Qed.

(** The armed application object with the configuration file not
    armed, and 10 shares of SPY to buy. *)
Lemma construct_rebalance_orders_armed_mismatch_witness :
  is_ok (Callbacks.construct_rebalance_orders {[ Sample.SPY := 40%Q ]}
           SampleDesk.mismatched).1 = false.
Proof.
  apply (construct_rebalance_orders_armed_mismatch {[ Sample.SPY := 40%Q ]}
           SampleDesk.mismatched).
  - reflexivity.
  - reflexivity.
  - discriminate.
Defined.
